(** * MedCLIP fine-tuning: a shallow embedding of [fine_tune/finetune_medclip.py]

    The development follows the file top-down.  Part I embeds the class
    [TrainMedClipClassifier]: the Python values it manipulates, the
    third-party operations it calls (torch, medclip, clip, sklearn, numpy,
    matplotlib), and its methods, written in a state-and-exception monad over
    the interpreter's world (the object [self], the data sources, the files on
    disk, and the record of calls made on the data sources).  Part II states
    and proves the properties. *)

From Stdlib Require Import ZArith Uint63 Floats Lia Bool.
From stdpp Require Import base option list gmap strings.

Local Open Scope Z_scope.

(** ** Python values and exceptions *)

(** The exceptions the embedded code can raise. *)
Inductive exn : Type :=
| TypeError
| UnboundLocalError
| AttributeError
| AssertionError
| IndexError
| KeyError
| ValueError
| RuntimeError
| FileNotFoundError
| UnpicklingError
| StopIteration.

Inductive result (A : Type) : Type :=
| Ok (a : A)
| Raise (e : exn).
Arguments Ok {A} a.
Arguments Raise {A} e.

Definition is_ok {A} (r : result A) : bool :=
  match r with Ok _ => true | Raise _ => false end.

Definition result_bind {A B} (r : result A) (k : A → result B) : result B :=
  match r with Ok a => k a | Raise e => Raise e end.

(** [range(...)] on integer arguments.  Called with no argument it raises
    [TypeError: range expected at least 1 argument, got 0]; with a zero step
    it raises [ValueError]. *)
Fixpoint count_up (start : Z) (n : nat) : list Z :=
  match n with
  | O => []
  | S n' => start :: count_up (start + 1) n'
  end.

Fixpoint count_by (start step : Z) (n : nat) : list Z :=
  match n with
  | O => []
  | S n' => start :: count_by (start + step) step n'
  end.

Definition py_range (args : list Z) : result (list Z) :=
  match args with
  | [stop] => Ok (count_up 0 (Z.to_nat stop))
  | [start; stop] => Ok (count_up start (Z.to_nat (stop - start)))
  | [start; stop; step] =>
      if step =? 0 then Raise ValueError
      else if 0 <? step
           then Ok (count_by start step (Z.to_nat ((stop - start + step - 1) / step)))
           else Ok (count_by start step (Z.to_nat ((start - stop - step - 1) / (- step))))
  | _ => Raise TypeError
  end.

(** [seq[k]] on a Python list: a negative index counts from the end, an index
    out of range raises [IndexError]. *)
Definition py_index {A} (l : list A) (k : Z) : result A :=
  let n := Z.of_nat (length l) in
  let i := if k <? 0 then k + n else k in
  if (i <? 0) || (n <=? i) then Raise IndexError
  else match l !! Z.to_nat i with
       | Some a => Ok a
       | None => Raise IndexError
       end.

(** [d[key]] on a dict. *)
Definition py_getitem {V} (d : gmap string V) (key : string) : result V :=
  match d !! key with
  | Some v => Ok v
  | None => Raise KeyError
  end.

(** ** Tensors, parameters and the model *)

Inductive dtype : Type := float16 | float32.

Inductive Device : Type := cpu | cuda.

(** The numeric data of torch and numpy that the code only passes around.
    Python floats are IEEE binary64 numbers, Rocq's primitive [float]. *)
Class Numerics : Type := {
  (** an image batch, [inputs], with its [len] *)
  pixels : Type;
  pixels_len : pixels → nat;
  (** the numbers held by a tensor *)
  payload : Type;
  (** the rounding done by [tensor.half()]; [tensor.float()] is exact *)
  to_half : payload → payload;
  (** a zero-dimensional tensor, with [+], [/ 2] and [.item()] *)
  scalar : Type;
  scalar_add : scalar → scalar → scalar;
  scalar_halve : scalar → scalar;
  item : scalar → float;
  (** tokenized prompts: the [input_ids] and [attention_mask] of one task *)
  tokens : Type;
  (** the moment estimates kept by [optim.Adam] *)
  adam_state : Type;
}.

Section Model.
Context {N : Numerics}.

Record Tensor : Type := {
  t_dtype : dtype;
  t_content : payload;
}.

(** [tensor.float()] and [tensor.half()]. *)
Definition tensor_float (t : Tensor) : Tensor :=
  {| t_dtype := float32; t_content := t_content t |}.

Definition tensor_half (t : Tensor) : Tensor :=
  {| t_dtype := float16;
     t_content := match t_dtype t with
                  | float16 => t_content t
                  | float32 => to_half (t_content t)
                  end |}.

(** A parameter [p] with [p.data] and [p.grad] ([None] when no gradient has
    been accumulated).  [half_layer] records whether [p] belongs to a layer
    that [clip.model.convert_weights] converts (the weights and biases of
    [Conv1d], [Conv2d] and [Linear], the projections of
    [MultiheadAttention], [text_projection] and [proj]). *)
Record Param : Type := {
  data : Tensor;
  grad : option Tensor;
  half_layer : bool;
}.

Record Model : Type := {
  parameters : list Param;
  training : bool;
}.

Definition with_parameters (model : Model) (ps : list Param) : Model :=
  {| parameters := ps; training := training model |}.

(** [model.train()] and [model.eval()]. *)
Definition set_training (mode : bool) (model : Model) : Model :=
  {| parameters := parameters model; training := mode |}.

(** [model.state_dict()]: the data of every parameter. *)
Definition state_dict (model : Model) : list Tensor :=
  data <$> parameters model.

(** [tensor.copy_(src)]: the destination keeps its dtype. *)
Definition tensor_copy_ (dst src : Tensor) : Tensor :=
  match t_dtype dst with
  | float32 => tensor_float src
  | float16 => tensor_half src
  end.

Definition parameter_load (p : Param) (t : Tensor) : Param :=
  {| data := tensor_copy_ (data p) t; grad := grad p; half_layer := half_layer p |}.

(** [model.load_state_dict(sd)] (strict).  A state dict is held as the list
    of its tensors in the order of the model's parameters: a shorter list is
    a checkpoint with missing keys, a longer one a checkpoint with unexpected
    keys.  torch first copies, in place, every tensor whose key the model
    has, and only then raises [RuntimeError] if keys were missing or
    unexpected: the result is the model after the copies, and the outcome. *)
Definition load_state_dict (model : Model) (sd : list Tensor) : Model * result unit :=
  (with_parameters model
     (zip_with parameter_load (parameters model) sd ++ drop (length sd) (parameters model)),
   if Nat.eqb (length sd) (length (parameters model)) then Ok tt else Raise RuntimeError).

(** Lines 57-61.
<<
    def convert_models_to_fp32(self, model):
        for p in model.parameters():
            if p.grad is not None:
                p.data = p.data.float()
                p.grad.data = p.grad.data.float()
>> *)
Definition convert_parameter_to_fp32 (p : Param) : Param :=
  match grad p with
  | Some g =>
      {| data := tensor_float (data p);
         grad := Some (tensor_float g);
         half_layer := half_layer p |}
  | None => p
  end.

Definition convert_models_to_fp32 (model : Model) : Model :=
  with_parameters model (convert_parameter_to_fp32 <$> parameters model).

(** [clip.model.convert_weights(model)]: "Convert applicable model parameters
    to fp16"; only [.data] of the parameters of the covered layers is
    replaced. *)
Definition convert_parameter_to_fp16 (p : Param) : Param :=
  if half_layer p
  then {| data := tensor_half (data p); grad := grad p; half_layer := true |}
  else p.

Definition convert_weights (model : Model) : Model :=
  with_parameters model (convert_parameter_to_fp16 <$> parameters model).

(** [model.float()]: every parameter, and its gradient, in full precision. *)
Definition parameter_float (p : Param) : Param :=
  {| data := tensor_float (data p);
     grad := tensor_float <$> grad p;
     half_layer := half_layer p |}.

Definition model_float (model : Model) : Model :=
  with_parameters model (parameter_float <$> parameters model).

(** [optimizer.zero_grad()]: the gradients are set to [None]. *)
Definition parameter_zero_grad (p : Param) : Param :=
  {| data := data p; grad := None; half_layer := half_layer p |}.

Definition zero_grad (model : Model) : Model :=
  with_parameters model (parameter_zero_grad <$> parameters model).

End Model.

(** What [roc_auc_score] of the installed scikit-learn does when a single
    class is present in [y_true]: up to version 1.5 it raises [ValueError]
    ("Only one class present in y_true. ROC AUC score is not defined in that
    case."); from version 1.6 on it issues an [UndefinedMetricWarning] and
    returns [nan].  The repository pins no version. *)
Inductive undefined_auc : Type := RaisesValueError | ReturnsNan.

(** The third-party operations the class calls. *)
Class Libraries {N : Numerics} : Type := {
  (** [MedCLIPModel(vision_cls=...)] after [from_pretrained()] *)
  pretrained : Model;
  (** [process_class_prompts] on the captions of one task *)
  tokenize : list string → tokens;
  (** [self.medclip_model(input_ids=..., pixel_values=..., attention_mask=...)]:
      [output["logits"]] and [output["logits_per_text"]] *)
  medclip_forward : Model → tokens → pixels → result (list (list scalar) * list (list scalar));
  (** [nn.CrossEntropyLoss()(input, target)] *)
  cross_entropy : list (list scalar) → list Z → scalar;
  (** [total_loss.backward()]: the gradient each parameter receives, [None]
      for a parameter that took no part in the forward pass *)
  backward : Model → tokens → pixels → list (option payload);
  (** [optim.Adam(model.parameters(), lr=1e-5)] and the update of one
      parameter from its gradient in [optimizer.step()] *)
  adam_init : Model → adam_state;
  adam_update : adam_state → nat → Tensor → Tensor → payload;
  adam_advance : adam_state → list Param → adam_state;
  (** [PromptClassifier(model, ensemble=True)(pixel_values=..., prompt_inputs=...)['logits']],
      flattened by [.reshape(1, -1)[0]] *)
  prompt_classifier : Model → pixels → gmap string tokens → result (list float);
  (** numpy *)
  np_round : float → float;
  np_mean : list float → float;
  (** sklearn.metrics; [roc_auc_value] is [roc_auc_score] on labels of two
      classes, [sklearn_undefined_auc] what the installed version does on
      labels of one class *)
  sklearn_undefined_auc : undefined_auc;
  accuracy_score : list Z → list float → result float;
  precision_score : list Z → list float → result float;
  recall_score : list Z → list float → result float;
  roc_auc_value : list Z → list float → result float;
  classification_report : list Z → list float → result string;
  confusion_matrix : list Z → list float → result (list (list Z));
}.

(** A data source, as the code uses it: [next(gen)] and [gen.reset()]. *)
Class DataSource {N : Numerics} : Type := {
  source : Type;
  source_next : source → source * result (pixels * list Z);
  source_reset : source → source;
}.

(** ** The interpreter's world *)

Section World.
Context {N : Numerics} {L : Libraries} {D : DataSource}.

(** The attributes of a [TrainMedClipClassifier].  [option_] and
    [number_of_captions] are unset until [run] assigns them. *)
Record Classifier : Type := {
  medical_type : string;
  device : Device;
  medclip_model : Model;
  optimizer : adam_state;
  epochs : Z;
  metric_history : gmap string (list float);
  early_stopping_patience : Z;
  early_stopping_counter : Z;
  best_val_loss : float;
  early_stop : bool;
  option_ : option string;
  number_of_captions : option Z;
}.

Definition set_medclip_model (model : Model) (s : Classifier) : Classifier :=
  {| medical_type := medical_type s; device := device s; medclip_model := model;
     optimizer := optimizer s; epochs := epochs s; metric_history := metric_history s;
     early_stopping_patience := early_stopping_patience s;
     early_stopping_counter := early_stopping_counter s;
     best_val_loss := best_val_loss s; early_stop := early_stop s;
     option_ := option_ s; number_of_captions := number_of_captions s |}.

Definition set_optimizer (o : adam_state) (s : Classifier) : Classifier :=
  {| medical_type := medical_type s; device := device s; medclip_model := medclip_model s;
     optimizer := o; epochs := epochs s; metric_history := metric_history s;
     early_stopping_patience := early_stopping_patience s;
     early_stopping_counter := early_stopping_counter s;
     best_val_loss := best_val_loss s; early_stop := early_stop s;
     option_ := option_ s; number_of_captions := number_of_captions s |}.

Definition set_metric_history (h : gmap string (list float)) (s : Classifier) : Classifier :=
  {| medical_type := medical_type s; device := device s; medclip_model := medclip_model s;
     optimizer := optimizer s; epochs := epochs s; metric_history := h;
     early_stopping_patience := early_stopping_patience s;
     early_stopping_counter := early_stopping_counter s;
     best_val_loss := best_val_loss s; early_stop := early_stop s;
     option_ := option_ s; number_of_captions := number_of_captions s |}.

Definition set_early_stopping_counter (c : Z) (s : Classifier) : Classifier :=
  {| medical_type := medical_type s; device := device s; medclip_model := medclip_model s;
     optimizer := optimizer s; epochs := epochs s; metric_history := metric_history s;
     early_stopping_patience := early_stopping_patience s;
     early_stopping_counter := c;
     best_val_loss := best_val_loss s; early_stop := early_stop s;
     option_ := option_ s; number_of_captions := number_of_captions s |}.

Definition set_best_val_loss (b : float) (s : Classifier) : Classifier :=
  {| medical_type := medical_type s; device := device s; medclip_model := medclip_model s;
     optimizer := optimizer s; epochs := epochs s; metric_history := metric_history s;
     early_stopping_patience := early_stopping_patience s;
     early_stopping_counter := early_stopping_counter s;
     best_val_loss := b; early_stop := early_stop s;
     option_ := option_ s; number_of_captions := number_of_captions s |}.

Definition set_early_stop (b : bool) (s : Classifier) : Classifier :=
  {| medical_type := medical_type s; device := device s; medclip_model := medclip_model s;
     optimizer := optimizer s; epochs := epochs s; metric_history := metric_history s;
     early_stopping_patience := early_stopping_patience s;
     early_stopping_counter := early_stopping_counter s;
     best_val_loss := best_val_loss s; early_stop := b;
     option_ := option_ s; number_of_captions := number_of_captions s |}.

Definition set_option_settings (o : string) (n : Z) (s : Classifier) : Classifier :=
  {| medical_type := medical_type s; device := device s; medclip_model := medclip_model s;
     optimizer := optimizer s; epochs := epochs s; metric_history := metric_history s;
     early_stopping_patience := early_stopping_patience s;
     early_stopping_counter := early_stopping_counter s;
     best_val_loss := best_val_loss s; early_stop := early_stop s;
     option_ := Some o; number_of_captions := Some n |}.

(** What a file on disk holds: a pickled state dict ([torch.save]), a figure
    with its two curves ([plt.savefig]), or the text of [save_results]. *)
Inductive file : Type :=
| CheckpointFile (sd : list Tensor)
| FigureFile (train_curve val_curve : list float)
| ResultsFile (acc prec rec auc : float) (cr : string) (cm : list (list Z)).

Inductive call : Type := Next | Reset.

(** The data sources live in a store and are passed by reference (their
    index), so that the object swept by [train_validate] and the one swept by
    [evaluate] is the same.  [calls] records every [next] and [reset], oldest
    first. *)
Record World : Type := {
  self : Classifier;
  sources : list source;
  disk : gmap string file;
  calls : list (nat * call);
}.

Definition with_self (s : Classifier) (w : World) : World :=
  {| self := s; sources := sources w; disk := disk w; calls := calls w |}.

Definition with_disk (d : gmap string file) (w : World) : World :=
  {| self := self w; sources := sources w; disk := d; calls := calls w |}.

(** A computation either returns or raises; the mutations made before the
    exception stay. *)
Definition M (A : Type) : Type := World → World * result A.

Definition ret {A} (a : A) : M A := λ w, (w, Ok a).

Definition bind {A B} (m : M A) (k : A → M B) : M B :=
  λ w, match m w with
       | (w', Ok a) => k a w'
       | (w', Raise e) => (w', Raise e)
       end.

Definition raise {A} (e : exn) : M A := λ w, (w, Raise e).

Definition lift {A} (r : result A) : M A := λ w, (w, r).

Definition get_self : M Classifier := λ w, (w, Ok (self w)).

Definition modify_self (f : Classifier → Classifier) : M unit :=
  λ w, (with_self (f (self w)) w, Ok tt).

Definition write_file (path : string) (f : file) : M unit :=
  λ w, (with_disk (<[path := f]> (disk w)) w, Ok tt).

End World.

Declare Scope py_scope.
Delimit Scope py_scope with py.
Notation "x <- m ;; k" := (bind m (λ x, k))
  (at level 20, m at level 99, k at level 200, only parsing) : py_scope.
Notation "' pat <- m ;; k" := (bind m (λ x, match x with pat => k end))
  (at level 20, pat pattern, m at level 99, k at level 200, only parsing) : py_scope.
Notation "m ;; k" := (bind m (λ _, k))
  (at level 100, k at level 200, only parsing, right associativity) : py_scope.
Local Open Scope py_scope.

(** ** Control flow *)

Section Control.
Context {N : Numerics} {L : Libraries} {D : DataSource}.

(** [for x in xs: body], with the local variables the body assigns threaded
    through as [s]. *)
Fixpoint for_each {A S} (xs : list A) (body : A → S → M S) (s : S) : M S :=
  match xs with
  | [] => ret s
  | x :: xs' => s' <- body x s ;; for_each xs' body s'
  end.

Inductive flow : Type := Continue | Break.

(** The same, for a body that may [break]. *)
Fixpoint for_break {A S} (xs : list A) (body : A → S → M (flow * S)) (s : S) : M S :=
  match xs with
  | [] => ret s
  | x :: xs' =>
      r <- body x s ;;
      match fst r with
      | Break => ret (snd r)
      | Continue => for_break xs' body (snd r)
      end
  end.

(** [next(gen)] and [gen.reset()] on the data source referenced by [g]. *)
Definition next_batch (g : nat) : M (pixels * list Z) :=
  λ w, match sources w !! g with
       | None => (w, Raise RuntimeError)
       | Some src =>
           ({| self := self w;
               sources := <[g := fst (source_next src)]> (sources w);
               disk := disk w;
               calls := calls w ++ [(g, Next)] |},
            snd (source_next src))
       end.

Definition reset_source (g : nat) : M unit :=
  λ w, match sources w !! g with
       | None => (w, Raise RuntimeError)
       | Some src =>
           ({| self := self w;
               sources := <[g := source_reset src]> (sources w);
               disk := disk w;
               calls := calls w ++ [(g, Reset)] |},
            Ok tt)
       end.

End Control.

(** ** The methods of [TrainMedClipClassifier] *)

Section Methods.
Context {N : Numerics} {L : Libraries} {D : DataSource}.

(** Lines 63-78, [load_medclip_model]: full precision on the cpu, the clip
    conversion otherwise. *)
Definition load_medclip_model (dev : Device) : Model :=
  match dev with
  | cpu => model_float pretrained
  | cuda => convert_weights pretrained
  end.

(** Lines 16-43, [__init__]; [cuda_available] is [torch.cuda.is_available()]. *)
Definition metric_history_init : gmap string (list float) :=
  <["train_loss" := []]> (<["val_loss" := []]> (
  <["train_accuracy" := []]> (<["val_accuracy" := []]> (
  <["train_precision" := []]> (<["val_precision" := []]> (
  <["train_recall" := []]> (<["val_recall" := []]> (
  <["train_auc" := []]> (<["val_auc" := []]> ∅))))))))).

Definition init (medical_type : string) (epochs : Z) (cuda_available : bool) : Classifier :=
  let dev := if cuda_available then cuda else cpu in
  let model := load_medclip_model dev in
  {| medical_type := medical_type;
     device := dev;
     medclip_model := model;
     optimizer := adam_init model;
     epochs := epochs;
     metric_history := metric_history_init;
     early_stopping_patience := 5;
     early_stopping_counter := 0;
     best_val_loss := infinity;
     early_stop := false;
     option_ := None;
     number_of_captions := None |}.

(** [process_class_prompts(texts)]: the captions of each task, tokenized. *)
Definition process_class_prompts (texts : gmap string (list string)) : gmap string tokens :=
  tokenize <$> texts.

(** Lines 80-98.
<<
    def zero_shot_classification(self, image_batch, categories):
        clf = PromptClassifier(self.medclip_model, ensemble=True)
        clf.to(self.device)
        clf.eval()
        with torch.no_grad():
            texts = {"COVID": [f"a photo of covid lungs."]}
            input_dictionary = {'pixel_values': image_batch}
            cls_prompts = process_class_prompts(texts)
            input_dictionary['prompt_inputs'] = cls_prompts
            output = clf( **input_dictionary)['logits'].cpu().numpy()
            top_probs = output.reshape(1, -1)[0]
            top_labels = np.round(top_probs)
        return top_probs, top_labels
>>
    [clf.eval()] puts the wrapped model in evaluation mode. *)
Definition zero_shot_classification (image_batch : pixels) (categories : list string)
  : M (list float * list float) :=
  modify_self (λ s, set_medclip_model (set_training false (medclip_model s)) s) ;;
  s <- get_self ;;
  let texts : gmap string (list string) := {[ "COVID" := ["a photo of covid lungs."] ]} in
  let cls_prompts := process_class_prompts texts in
  top_probs <- lift (prompt_classifier (medclip_model s) image_batch cls_prompts) ;;
  let top_labels := np_round <$> top_probs in
  ret (top_probs, top_labels).

(** [roc_auc_score(y_true, y_score)] of sklearn, by the number of classes
    present in [y_true]: two classes give the score; none (no sample) and
    more than two (multiclass labels with one column of scores) raise
    [ValueError] in every version; a single class raises [ValueError] or
    gives [nan], by the version. *)
Definition roc_auc_score (y_true : list Z) (y_score : list float) : result float :=
  match length (remove_dups y_true) with
  | 2%nat => roc_auc_value y_true y_score
  | 1%nat => match sklearn_undefined_auc with
             | RaisesValueError => Raise ValueError
             | ReturnsNan => Ok nan
             end
  | _ => Raise ValueError
  end.

(** Lines 100-123.
<<
    def evaluate(self, generators, steps, task, ):
        y_true, y_pred, y_score = [], [], []
        with torch.no_grad() and autocast():
            for idx,(data_type, step) in enumerate(steps.items()):
                for _ in tqdm(range(step), desc=f'Evaluate {data_type}'):
                    inputs, labels = next(generators[idx])
                    ...
                    top_probs, top_labels = self.zero_shot_classification(inputs, task)
                    y_true.extend(labels.cpu().numpy())
                    y_pred.extend(top_labels)
                    y_score.extend(top_probs)
                generators[idx].reset()
        acc, prec, rec, auc = accuracy_score(y_true, y_pred), precision_score(y_true, y_pred), recall_score(y_true, y_pred), roc_auc_score(y_true, y_score)
        cr, cm = classification_report(y_true, y_pred), confusion_matrix(y_true, y_pred)
        return acc, prec, rec, auc, cr, cm
>>
    [generators] is a list of references, [steps] the items of the dict in
    insertion order. *)
Definition Accumulated : Type := list Z * list float * list float.

Definition evaluate_step (generators : list nat) (idx : nat) (task : list string)
  (acc : Accumulated) : M Accumulated :=
  g <- lift (py_index generators (Z.of_nat idx)) ;;
  batch <- next_batch g ;;
  out <- zero_shot_classification (fst batch) task ;;
  ret (acc.1.1 ++ snd batch, acc.1.2 ++ snd out, acc.2 ++ fst out).

Definition evaluate_sweep (generators : list nat) (task : list string)
  (entry : nat * (string * Z)) (acc : Accumulated) : M Accumulated :=
  range_ <- lift (py_range [snd (snd entry)]) ;;
  acc' <- for_each range_ (λ _, evaluate_step generators (fst entry) task) acc ;;
  g <- lift (py_index generators (Z.of_nat (fst entry))) ;;
  reset_source g ;;
  ret acc'.

Definition Metrics : Type := float * float * float * float * string * list (list Z).

(** The two nested loops: [y_true], [y_pred] and [y_score] at line 121. *)
Definition evaluate_accumulate (generators : list nat) (steps : list (string * Z))
  (task : list string) : M Accumulated :=
  for_each (imap pair steps) (evaluate_sweep generators task) ([], [], []).

Definition evaluate (generators : list nat) (steps : list (string * Z)) (task : list string)
  : M Metrics :=
  y <- evaluate_accumulate generators steps task ;;
  let y_true := y.1.1 in
  let y_pred := y.1.2 in
  let y_score := y.2 in
  acc <- lift (accuracy_score y_true y_pred) ;;
  prec <- lift (precision_score y_true y_pred) ;;
  rec <- lift (recall_score y_true y_pred) ;;
  auc <- lift (roc_auc_score y_true y_score) ;;
  cr <- lift (classification_report y_true y_pred) ;;
  cm <- lift (confusion_matrix y_true y_pred) ;;
  ret (acc, prec, rec, auc, cr, cm).

(** Lines 125-143, [save_results]. *)
Definition save_results (m : Metrics) : M unit :=
  s <- get_self ;;
  let directory := "results/finetune/" +:+ medical_type s +:+ "/clip" in
  let filepath := directory +:+ "/" +:+ "classification_results.txt" in
  write_file filepath (ResultsFile m.1.1.1.1.1 m.1.1.1.1.2 m.1.1.1.2 m.1.1.2 m.1.2 m.2).

End Methods.

(** ** Training *)

Section Training.
Context {N : Numerics} {L : Libraries} {D : DataSource}.

(** The local variable [texts] of [train_validate]: unbound ([None]) until
    the first assignment. *)
Definition Texts : Type := option (gmap string (list string)).

(** Lines 157 and 186: the captions of a label batch,
    [[f"a photo of {categories[int(labels[i].item())]} lungs." for i in range(len(labels))]]. *)
Definition caption (categories : list string) (label : Z) : result string :=
  result_bind (py_index categories label)
    (λ category, Ok ("a photo of " +:+ category +:+ " lungs.")).

Fixpoint captions (categories : list string) (labels : list Z) : result (list string) :=
  match labels with
  | [] => Ok []
  | label :: labels' =>
      result_bind (caption categories label) (λ c,
      result_bind (captions categories labels') (λ cs, Ok (c :: cs)))
  end.

(** Lines 156-158 and 185-187.
<<
                if self.option == "regular_captions":
                  texts = {"COVID": [...]}
                cls_prompts = process_class_prompts(texts)
>>
    There is no other assignment to [texts]. *)
Definition build_class_prompts (categories : list string) (labels : list Z) (texts : Texts)
  : M (Texts * gmap string tokens) :=
  s <- get_self ;;
  option <- lift (match option_ s with Some o => Ok o | None => Raise AttributeError end) ;;
  texts <- (if String.eqb option "regular_captions"
            then cs <- lift (captions categories labels) ;;
                 ret (Some ({[ "COVID" := cs ]} : gmap string (list string)))
            else ret texts) ;;
  match texts with
  | None => raise UnboundLocalError
  | Some t => ret (texts, process_class_prompts t)
  end.

(** Lines 167-168 and 195-196.
<<
                ground_truth = torch.arange(len(inputs),dtype=torch.long,device=self.device)
                total_loss = (self.loss_img(logits_per_image,ground_truth) + self.loss_txt(logits_per_text,ground_truth))/2
>>
    [self.loss_img] and [self.loss_txt] are both [nn.CrossEntropyLoss()]. *)
Definition arange (n : nat) : list Z := count_up 0 n.

Definition loss_img : list (list scalar) → list Z → scalar := cross_entropy.
Definition loss_txt : list (list scalar) → list Z → scalar := cross_entropy.

Definition total_loss (logits_per_image logits_per_text : list (list scalar))
  (ground_truth : list Z) : scalar :=
  scalar_halve (scalar_add (loss_img logits_per_image ground_truth)
                           (loss_txt logits_per_text ground_truth)).

(** Lines 160-168: the forward pass of one batch and its loss. *)
Definition batch_loss (cls_prompts : gmap string tokens) (inputs : pixels) : M (tokens * scalar) :=
  covid <- lift (py_getitem cls_prompts "COVID") ;;
  s <- get_self ;;
  output <- lift (medclip_forward (medclip_model s) covid inputs) ;;
  let logits_per_image := fst output in
  let logits_per_text := snd output in
  let ground_truth := arange (pixels_len inputs) in
  ret (covid, total_loss logits_per_image logits_per_text ground_truth).

(** [total_loss.backward()]: every parameter holds the gradient the backward
    pass leaves, in the parameter's own dtype. *)
Definition received_gradient (gs : list (option payload)) (i : nat) (p : Param) : Param :=
  {| data := data p;
     grad := (λ c, {| t_dtype := t_dtype (data p); t_content := c |}) <$> mjoin (gs !! i);
     half_layer := half_layer p |}.

Definition loss_backward (model : Model) (covid : tokens) (inputs : pixels) : Model :=
  with_parameters model (imap (received_gradient (backward model covid inputs)) (parameters model)).

(** [self.optimizer.step()]: a parameter without gradient is skipped; an
    updated parameter keeps its dtype. *)
Definition adam_step_parameter (o : adam_state) (i : nat) (p : Param) : Param :=
  match grad p with
  | Some g =>
      {| data := {| t_dtype := t_dtype (data p); t_content := adam_update o i (data p) g |};
         grad := grad p;
         half_layer := half_layer p |}
  | None => p
  end.

Definition optimizer_step (o : adam_state) (model : Model) : adam_state * Model :=
  (adam_advance o (parameters model),
   with_parameters model (imap (adam_step_parameter o) (parameters model))).

(** Lines 170-175.
<<
                if self.device == "cpu":
                    self.optimizer.step()
                else :
                    self.convert_models_to_fp32(self.medclip_model)
                    self.optimizer.step()
                    clip.model.convert_weights(self.medclip_model)
>> *)
Definition optimization_step (dev : Device) (o : adam_state) (model : Model)
  : adam_state * Model :=
  match dev with
  | cpu => optimizer_step o model
  | cuda =>
      let model := convert_models_to_fp32 model in
      let stepped := optimizer_step o model in
      (fst stepped, convert_weights (snd stepped))
  end.

(** Lines 152-176: the body of the training loop; it returns [texts] and
    [total_loss.item()]. *)
Definition train_batch (train_loader : nat) (categories : list string) (texts : Texts)
  : M (Texts * float) :=
  batch <- next_batch train_loader ;;
  let inputs := fst batch in
  let labels := snd batch in
  prompts <- build_class_prompts categories labels texts ;;
  modify_self (λ s, set_medclip_model (zero_grad (medclip_model s)) s) ;;
  fwd <- batch_loss (snd prompts) inputs ;;
  modify_self (λ s, set_medclip_model (loss_backward (medclip_model s) (fst fwd) inputs) s) ;;
  modify_self (λ s,
    let stepped := optimization_step (device s) (optimizer s) (medclip_model s) in
    set_medclip_model (snd stepped) (set_optimizer (fst stepped) s)) ;;
  ret (fst prompts, item (snd fwd)).

(** Lines 181-197: the body of the validation loop. *)
Definition validation_batch (validation_loader : nat) (categories : list string) (texts : Texts)
  : M (Texts * float) :=
  batch <- next_batch validation_loader ;;
  let inputs := fst batch in
  let labels := snd batch in
  prompts <- build_class_prompts categories labels texts ;;
  fwd <- batch_loss (snd prompts) inputs ;;
  ret (fst prompts, item (snd fwd)).

(** A loop over batches that collects the losses. *)
Definition collect_losses (body : Texts → M (Texts * float)) (acc : Texts * list float)
  : M (Texts * list float) :=
  r <- body (fst acc) ;;
  ret (fst r, snd acc ++ [snd r]).

(** Lines 149-177.  The loop header is
    [for step in tqdm(range(), desc=...)]: [range] is called without
    argument. *)
Definition training_pass (train_loader : nat) (categories : list string) (texts : Texts)
  : M (Texts * float) :=
  modify_self (λ s, set_medclip_model (set_training true (medclip_model s)) s) ;;
  range_ <- lift (py_range []) ;;
  r <- for_each range_ (λ _, collect_losses (train_batch train_loader categories)) (texts, []) ;;
  ret (fst r, np_mean (snd r)).

(** Lines 178-198. *)
Definition validation_pass (validation_loader : nat) (steps : gmap string Z)
  (categories : list string) (texts : Texts) : M (Texts * float) :=
  modify_self (λ s, set_medclip_model (set_training false (medclip_model s)) s) ;;
  n <- lift (py_getitem steps "Validation") ;;
  range_ <- lift (py_range [n]) ;;
  r <- for_each range_ (λ _, collect_losses (validation_batch validation_loader categories))
         (texts, []) ;;
  ret (fst r, np_mean (snd r)).

(** What one epoch measures (lines 177, 198-200). *)
Record EpochMetrics : Type := {
  avg_train_loss : float;
  avg_validation_loss : float;
  train_acc : float; train_prec : float; train_rec : float; train_auc : float;
  val_acc : float; val_prec : float; val_rec : float; val_auc : float;
}.

(** Lines 149-200: the sweeps of one epoch. *)
Definition epoch_passes (train_loader validation_loader : nat) (steps : gmap string Z)
  (categories : list string) (texts : Texts) : M (Texts * EpochMetrics) :=
  tr <- training_pass train_loader categories texts ;;
  va <- validation_pass validation_loader steps categories (fst tr) ;;
  n_train <- lift (py_getitem steps "Train") ;;
  t <- evaluate [train_loader] [("Train", n_train)] categories ;;
  n_val <- lift (py_getitem steps "Validation") ;;
  v <- evaluate [validation_loader] [("Validation", n_val)] categories ;;
  ret (fst va,
       {| avg_train_loss := snd tr; avg_validation_loss := snd va;
          train_acc := t.1.1.1.1.1; train_prec := t.1.1.1.1.2;
          train_rec := t.1.1.1.2; train_auc := t.1.1.2;
          val_acc := v.1.1.1.1.1; val_prec := v.1.1.1.1.2;
          val_rec := v.1.1.1.2; val_auc := v.1.1.2 |}).

(** Lines 201-210: [self.metric_history[key].append(value)]. *)
Definition history_append (key : string) (value : float) : M unit :=
  s <- get_self ;;
  h <- lift (py_getitem (metric_history s) key) ;;
  modify_self (set_metric_history (<[key := h ++ [value]]> (metric_history s))).

Definition append_metrics (m : EpochMetrics) : M unit :=
  history_append "train_loss" (avg_train_loss m) ;;
  history_append "val_loss" (avg_validation_loss m) ;;
  history_append "train_accuracy" (train_acc m) ;;
  history_append "val_accuracy" (val_acc m) ;;
  history_append "train_precision" (train_prec m) ;;
  history_append "val_precision" (val_prec m) ;;
  history_append "train_recall" (train_rec m) ;;
  history_append "val_recall" (val_rec m) ;;
  history_append "train_auc" (train_auc m) ;;
  history_append "val_auc" (val_auc m).

(** Lines 212-221: one figure per metric.  [plt.plot(x, y)] raises
    [ValueError] when [x] and [y] differ in length; here [x] is
    [range(1, epoch + 2)]. *)
Definition plot_curve (epoch : Z) (key : string) : M (list float) :=
  s <- get_self ;;
  ys <- lift (py_getitem (metric_history s) key) ;;
  if Z.of_nat (length ys) =? epoch + 1 then ret ys else raise ValueError.

Definition plot_metric (epoch : Z) (metric_name : string) (_ : unit) : M unit :=
  tr <- plot_curve epoch ("train_" +:+ metric_name) ;;
  va <- plot_curve epoch ("val_" +:+ metric_name) ;;
  write_file ("metrics_" +:+ metric_name +:+ "_epoch.png") (FigureFile tr va).

Definition plot_metrics (epoch : Z) : M unit :=
  for_each ["loss"; "accuracy"; "precision"; "recall"; "auc"] (plot_metric epoch) tt.

(** Lines 226-235.
<<
            if avg_validation_loss < self.best_val_loss:
                self.best_val_loss = avg_validation_loss
                torch.save(self.medclip_model.state_dict(), 'best_model.pth')
                self.early_stopping_counter = 0
            else:
                self.early_stopping_counter += 1
                if self.early_stopping_counter == self.early_stopping_patience:
                    self.early_stop = True
                    print("Early stopping triggered.")
                    break
>> *)
Definition checkpoint_or_stop (avg_validation_loss : float) : M flow :=
  s <- get_self ;;
  if PrimFloat.ltb avg_validation_loss (best_val_loss s) then
    modify_self (set_best_val_loss avg_validation_loss) ;;
    s <- get_self ;;
    write_file "best_model.pth" (CheckpointFile (state_dict (medclip_model s))) ;;
    modify_self (set_early_stopping_counter 0) ;;
    ret Continue
  else
    modify_self (λ s, set_early_stopping_counter (early_stopping_counter s + 1) s) ;;
    s <- get_self ;;
    if early_stopping_counter s =? early_stopping_patience s then
      modify_self (set_early_stop true) ;;
      ret Break
    else ret Continue.

(** Lines 201-235: what the loop does with the measurements of an epoch. *)
Definition epoch_bookkeeping (epoch : Z) (m : EpochMetrics) : M flow :=
  append_metrics m ;;
  plot_metrics epoch ;;
  checkpoint_or_stop (avg_validation_loss m).

(** Line 236: [self.medclip_model.load_state_dict(torch.load(model_save_path))].
    [torch.load] raises [FileNotFoundError] when nothing is at the path and
    [pickle.UnpicklingError] on a file that [torch.save] did not write. *)
Definition torch_load (path : string) : M (list Tensor) :=
  λ w, match disk w !! path with
       | None => (w, Raise FileNotFoundError)
       | Some (CheckpointFile sd) => (w, Ok sd)
       | Some _ => (w, Raise UnpicklingError)
       end.

Definition reload_checkpoint (path : string) : M unit :=
  sd <- torch_load path ;;
  s <- get_self ;;
  let loaded := load_state_dict (medclip_model s) sd in
  modify_self (set_medclip_model (fst loaded)) ;;
  lift (snd loaded).

Definition model_save_path (s : Classifier) : string :=
  "results/finetune/" +:+ medical_type s +:+ "/medclip/best_model.pth".

(** Lines 148-235: the epoch loop.  [sweeps] is what lines 149-200 do in an
    epoch, ending with the measurements of that epoch; the rest of the body is
    [epoch_bookkeeping]. *)
Definition epoch_body (sweeps : Z → Texts → M (Texts * EpochMetrics)) (epoch : Z) (texts : Texts)
  : M (flow * Texts) :=
  r <- sweeps epoch texts ;;
  f <- epoch_bookkeeping epoch (snd r) ;;
  ret (f, fst r).

Definition epoch_loop (sweeps : Z → Texts → M (Texts * EpochMetrics)) (range_ : list Z)
  : M Texts :=
  for_break range_ (epoch_body sweeps) None.

(** Lines 145-236, [train_validate].  ([os.makedirs] creates the directory of
    [model_save_path]; directories are not part of [disk].) *)
Definition train_validate (train_loader validation_loader : nat) (steps : gmap string Z)
  (categories : list string) : M unit :=
  s <- get_self ;;
  let path := model_save_path s in
  range_ <- lift (py_range [epochs s]) ;;
  epoch_loop (λ _, epoch_passes train_loader validation_loader steps categories) range_ ;;
  reload_checkpoint path.

(** Lines 148-235: the header of the epoch loop and the loop, with the
    sweeps of lines 149-200 as a parameter. *)
Definition epochs_loop (sweeps : Z → Texts → M (Texts * EpochMetrics)) : M Texts :=
  s <- get_self ;;
  range_ <- lift (py_range [epochs s]) ;;
  epoch_loop sweeps range_.

(** Lines 145-236 with the sweeps as a parameter: [train_validate] is the
    instance whose sweeps are [epoch_passes]. *)
Definition train_validate_with (sweeps : Z → Texts → M (Texts * EpochMetrics)) : M unit :=
  s <- get_self ;;
  let path := model_save_path s in
  range_ <- lift (py_range [epochs s]) ;;
  epoch_loop sweeps range_ ;;
  reload_checkpoint path.

(** Line 248: the condition of the [assert] ([and] binds tighter than [or]). *)
Definition option_settings_valid (option : string) (number_of_captions : Z) : bool :=
  (String.eqb option "random_captions" && (1 <=? number_of_captions))
  || (String.eqb option "regular_captions" && (number_of_captions =? 1)).

(** Lines 238-252.
<<
    def run(self, generators, steps, option, number_of_captions, categories = ['normal', 'covid']):
        self.option = option
        self.number_of_captions = number_of_captions
        assert self.option == "random_captions" and self.number_of_captions >= 1 or self.option == "regular_captions" and self.number_of_captions == 1, "Invalid option settings"
        self.train_validate(generators[0],generators[1],steps,categories)
        acc, prec, rec, auc, cr, cm = self.evaluate([generators[2]], {"Test":steps["Test"]}, categories)
        print(...)
        self.save_results(acc, prec, rec, auc, cr, cm)
>> *)
Definition py_assert (condition : bool) : M unit :=
  if condition then ret tt else raise AssertionError.

Definition run (generators : list nat) (steps : gmap string Z) (option : string)
  (number_of_captions : Z) (categories : list string) : M unit :=
  modify_self (set_option_settings option number_of_captions) ;;
  py_assert (option_settings_valid option number_of_captions) ;;
  train_loader <- lift (py_index generators 0) ;;
  validation_loader <- lift (py_index generators 1) ;;
  train_validate train_loader validation_loader steps categories ;;
  test_loader <- lift (py_index generators 2) ;;
  n_test <- lift (py_getitem steps "Test") ;;
  m <- evaluate [test_loader] [("Test", n_test)] categories ;;
  save_results m.

End Training.

(** ** A reference instantiation

    Small executable stand-ins for the third-party operations, used to run
    the embedded methods on concrete inputs: images are integers, a model has
    three parameters (a linear weight, a normalisation weight, and a linear
    weight that takes no part in the forward pass), and a data source cycles
    through its batches like a Keras iterator. *)

Module Reference.

Definition of_Z (z : Z) : float := PrimFloat.of_uint63 (Uint63.of_Z z).

Definition fsum (xs : list float) : float := foldr PrimFloat.add 0%float xs.

#[global] Instance numerics : Numerics := {|
  pixels := list Z;
  pixels_len := length;
  payload := Z;
  to_half := λ z, 2 * (z / 2);
  scalar := float;
  scalar_add := PrimFloat.add;
  scalar_halve := λ x, PrimFloat.div x 2%float;
  item := λ x, x;
  tokens := list string;
  adam_state := nat;
|}.

Definition full (z : Z) : Tensor := {| t_dtype := float32; t_content := z |}.

Definition linear_weight : Param := {| data := full 7; grad := None; half_layer := true |}.
Definition norm_weight : Param := {| data := full 3; grad := None; half_layer := false |}.
Definition pooler_weight : Param := {| data := full 5; grad := None; half_layer := true |}.

(** The similarity of image [i] and caption [j] of a batch. *)
Definition similarity (i j : nat) : float :=
  if Nat.eqb i j then 2%float else 0.5%float.

Definition similarities (rows cols : nat) : list (list float) :=
  (λ i, similarity i <$> seq 0 cols) <$> seq 0 rows.

(** A stand-in for the cross entropy: the mean over the rows of what the
    other logits of the row exceed the target's by. *)
Definition row_loss (row : list float) (target : Z) : float :=
  PrimFloat.sub (fsum row)
    (PrimFloat.mul (of_Z (Z.of_nat (length row))) (default 0%float (row !! Z.to_nat target))).

Definition mean (xs : list float) : float :=
  PrimFloat.div (fsum xs) (of_Z (Z.of_nat (length xs))).

Definition pair_order (pos neg : float) : float :=
  if PrimFloat.ltb neg pos then 1%float
  else if PrimFloat.eqb neg pos then 0.5%float else 0%float.

Definition scores_of (class : Z) (y_true : list Z) (y_score : list float) : list float :=
  snd <$> filter (λ p, fst p = class) (zip y_true y_score).

Definition agreement (y_true : list Z) (y_pred : list float) : list float :=
  zip_with (λ t p, if PrimFloat.eqb (of_Z t) p then 1%float else 0%float) y_true y_pred.

#[global] Instance libraries : Libraries := {|
  pretrained := {| parameters := [linear_weight; norm_weight; pooler_weight]; training := false |};
  tokenize := λ cs, cs;
  medclip_forward := λ _ covid inputs,
    Ok (similarities (length inputs) (length covid), similarities (length covid) (length inputs));
  cross_entropy := λ logits target, mean (zip_with row_loss logits target);
  backward := λ _ _ _, [Some 1; Some 1; None];
  adam_init := λ _, 0%nat;
  adam_update := λ _ _ d g, t_content d - t_content g;
  adam_advance := λ o _, S o;
  prompt_classifier := λ _ inputs _, Ok ((λ x, if Z.even x then 0.25%float else 0.75%float) <$> inputs);
  np_round := λ x, if PrimFloat.ltb 0.5%float x then 1%float else 0%float;
  np_mean := mean;
  sklearn_undefined_auc := RaisesValueError;
  accuracy_score := λ y_true y_pred, Ok (mean (agreement y_true y_pred));
  precision_score := λ y_true y_pred,
    Ok (mean (agreement (filter (λ t, t = 1) y_true) (filter (λ p, PrimFloat.eqb p 1%float = true) y_pred)));
  recall_score := λ y_true y_pred,
    Ok (mean (snd <$> filter (λ p, fst p = 1) (zip y_true (agreement y_true y_pred))));
  roc_auc_value := λ y_true y_score,
    Ok (mean (pos ← scores_of 1 y_true y_score; pair_order pos <$> scores_of 0 y_true y_score));
  classification_report := λ _ _, Ok "report";
  confusion_matrix := λ y_true _, Ok [[Z.of_nat (length y_true)]];
|}.

(** The same stand-ins with the behaviour of scikit-learn from 1.6 on. *)
Definition libraries_from_1_6 : Libraries := {|
  pretrained := @pretrained _ libraries;
  tokenize := @tokenize _ libraries;
  medclip_forward := @medclip_forward _ libraries;
  cross_entropy := @cross_entropy _ libraries;
  backward := @backward _ libraries;
  adam_init := @adam_init _ libraries;
  adam_update := @adam_update _ libraries;
  adam_advance := @adam_advance _ libraries;
  prompt_classifier := @prompt_classifier _ libraries;
  np_round := @np_round _ libraries;
  np_mean := @np_mean _ libraries;
  sklearn_undefined_auc := ReturnsNan;
  accuracy_score := @accuracy_score _ libraries;
  precision_score := @precision_score _ libraries;
  recall_score := @recall_score _ libraries;
  roc_auc_value := @roc_auc_value _ libraries;
  classification_report := @classification_report _ libraries;
  confusion_matrix := @confusion_matrix _ libraries;
|}.

(** A data source that cycles through its batches. *)
Record Cyclic : Type := {
  batches : list (list Z * list Z);
  cursor : nat;
}.

Definition cyclic_next (c : Cyclic) : Cyclic * result (list Z * list Z) :=
  match batches c !! cursor c with
  | Some b => ({| batches := batches c; cursor := (S (cursor c)) `mod` length (batches c) |}, Ok b)
  | None => (c, Raise StopIteration)
  end.

Definition cyclic_reset (c : Cyclic) : Cyclic :=
  {| batches := batches c; cursor := 0 |}.

#[global] Instance data_source : DataSource := {|
  source := Cyclic;
  source_next := cyclic_next;
  source_reset := cyclic_reset;
|}.

(** Two training batches, two validation batches and one test batch of two
    images each; an odd image is labelled 1. *)
Definition train_source : Cyclic := {| batches := [([1; 2], [1; 0]); ([3; 4], [1; 0])]; cursor := 0 |}.
Definition validation_source : Cyclic := {| batches := [([5; 6], [1; 0]); ([7; 8], [1; 0])]; cursor := 0 |}.
Definition test_source : Cyclic := {| batches := [([9; 10], [1; 0])]; cursor := 0 |}.

(** A validation set in which every label is 1. *)
Definition positive_source : Cyclic := {| batches := [([5; 7], [1; 1]); ([9; 11], [1; 1])]; cursor := 0 |}.

Definition steps : gmap string Z :=
  <["Train" := 2]> (<["Validation" := 2]> (<["Test" := 1]> ∅)).

Definition categories : list string := ["normal"; "covid"].

(** The world after [TrainMedClipClassifier("ucsd", epochs=3)] on a machine
    with or without accelerator, with an empty disk. *)
Definition fresh (cuda_available : bool) : World :=
  {| self := init "ucsd" 3 cuda_available;
     sources := [train_source; validation_source; test_source];
     disk := ∅;
     calls := [] |}.

(** The same once [run] has stored the prompt policy. *)
Definition configured (cuda_available : bool) (option : string) (n : Z) : World :=
  with_self (set_option_settings option n (self (fresh cuda_available))) (fresh cuda_available).

(** The model of the accelerated classifier once the first training batch
    has been through [zero_grad] and [backward]. *)
Definition model_after_backward : Model :=
  loss_backward (zero_grad (medclip_model (self (fresh true))))
    ["a photo of covid lungs."; "a photo of normal lungs."] [1; 2].

(** A world whose validation set has only the label 1. *)
Definition all_positive : World :=
  {| self := self (configured true "regular_captions" 1);
     sources := [train_source; positive_source; test_source];
     disk := ∅;
     calls := [] |}.

(** The measurements of an epoch whose validation loss is [loss]. *)
Definition measuring (loss : float) : EpochMetrics :=
  {| avg_train_loss := loss; avg_validation_loss := loss;
     train_acc := 1; train_prec := 1; train_rec := 1; train_auc := 1;
     val_acc := 1; val_prec := 1; val_rec := 1; val_auc := 1 |}.

(** Stand-in sweeps for running the epoch loop on examples: the sweeps of
    epoch [e] return the measurements [ms !! e] and do nothing else. *)
Definition scripted_sweeps (ms : list EpochMetrics) (epoch : Z) (texts : Texts)
  : M (Texts * EpochMetrics) :=
  match ms !! Z.to_nat epoch with
  | Some m => ret (texts, m)
  | None => raise StopIteration
  end.

(** A disk on which an earlier run has left a checkpoint at
    [model_save_path]. *)
Definition stale_checkpoint : list Tensor :=
  [full 100; full 200; full 300].

Definition stale_world : World :=
  with_disk {[ model_save_path (self (fresh true)) := CheckpointFile stale_checkpoint ]}
    (fresh true).

(** The same disk, and a classifier made with [epochs=0]. *)
Definition evaluation_only : World :=
  {| self := init "ucsd" 0 true;
     sources := [train_source; validation_source; test_source];
     disk := {[ model_save_path (init "ucsd" 0 true) := CheckpointFile stale_checkpoint ]};
     calls := [] |}.

End Reference.

(** ** The vocabulary of the properties

    The predicates and the pure functions in which Part II speaks about the
    methods. *)

Section Vocabulary.
Context {N : Numerics} {L : Libraries} {D : DataSource}.

(** The prompt set [zero_shot_classification] builds. *)
Definition covid_prompt : gmap string tokens :=
  {[ "COVID" := tokenize ["a photo of covid lungs."] ]}.

(** [self.number_of_captions = n], alone. *)
Definition set_number_of_captions (n : option Z) (s : Classifier) : Classifier :=
  {| medical_type := medical_type s; device := device s; medclip_model := medclip_model s;
     optimizer := optimizer s; epochs := epochs s; metric_history := metric_history s;
     early_stopping_patience := early_stopping_patience s;
     early_stopping_counter := early_stopping_counter s;
     best_val_loss := best_val_loss s; early_stop := early_stop s;
     option_ := option_ s; number_of_captions := n |}.

Definition with_number_of_captions (n : option Z) (w : World) : World :=
  with_self (set_number_of_captions n (self w)) w.

(** A computation that neither reads nor writes [self.number_of_captions]. *)
Definition ignores_number_of_captions {A} (m : M A) : Prop :=
  ∀ n w, m (with_number_of_captions n w)
         = (with_number_of_captions n (fst (m w)), snd (m w)).

Definition data_dtype (p : Param) : dtype := t_dtype (data p).

(** The cycle read as converting every parameter: before the optimizer step
    every parameter is in full precision, and after the cycle every parameter
    is in reduced precision. *)
Definition cycle_converts_every_parameter (o : adam_state) (model : Model) : Prop :=
  Forall (λ p, data_dtype p = float32) (parameters (convert_models_to_fp32 model))
  ∧ Forall (λ p, data_dtype p = float16) (parameters (snd (optimization_step cuda o model))).

(** The transpose of a matrix given by its rows. *)
Definition column {A} (rows : list (list A)) (j : nat) : list A :=
  omap (λ row, row !! j) rows.

Definition transpose {A} (rows : list (list A)) : list (list A) :=
  column rows <$> seq 0 (length (default [] (head rows))).

(** A full sweep over the source [g]: [n] calls of [next], then [reset]. *)
Definition sweep_calls (g : nat) (n : nat) : list (nat * call) :=
  replicate n (g, Next) ++ [(g, Reset)].

(** The pass [m] over [g] with [n] configured steps makes the calls of a full
    sweep. *)
Definition sweeps_then_resets {A} (m : M A) (g : nat) (n : Z) (w : World) : Prop :=
  calls (fst (m w)) = calls w ++ sweep_calls g (Z.to_nat n).

(** [m] makes exactly the calls [cs] whenever it returns. *)
Definition makes_calls {A} (m : M A) (cs : list (nat * call)) : Prop :=
  ∀ w w' a, m w = (w', Ok a) → calls w' = calls w ++ cs.

(** The ten keys of [self.metric_history], in the order lines 201-210 append
    to them, with the value an epoch appends. *)
Definition tracked_keys : list string :=
  ["train_loss"; "val_loss"; "train_accuracy"; "val_accuracy"; "train_precision";
   "val_precision"; "train_recall"; "val_recall"; "train_auc"; "val_auc"].

Definition appended (m : EpochMetrics) : list (string * float) :=
  [("train_loss", avg_train_loss m); ("val_loss", avg_validation_loss m);
   ("train_accuracy", train_acc m); ("val_accuracy", val_acc m);
   ("train_precision", train_prec m); ("val_precision", val_prec m);
   ("train_recall", train_rec m); ("val_recall", val_rec m);
   ("train_auc", train_auc m); ("val_auc", val_auc m)].

(** Every tracked key has a history of length [n]. *)
Definition history_lengths (n : nat) (s : Classifier) : Prop :=
  Forall (λ key, ∃ h, metric_history s !! key = Some h ∧ length h = n) tracked_keys.

(** [s'] has, under every tracked key, the history of [s] with the value of
    [m] for that key appended. *)
Definition appended_once (m : EpochMetrics) (s s' : Classifier) : Prop :=
  Forall (λ kv, ∃ h, metric_history s !! fst kv = Some h
                     ∧ metric_history s' !! fst kv = Some (h ++ [snd kv]))
         (appended m).

Definition append_to (H : gmap string (list float)) (kv : string * float)
  : gmap string (list float) :=
  alter (λ h, h ++ [snd kv]) (fst kv) H.

(** The figures of lines 212-221. *)
Definition metric_names : list string := ["loss"; "accuracy"; "precision"; "recall"; "auc"].

Definition figure_path (metric_name : string) : string :=
  "metrics_" +:+ metric_name +:+ "_epoch.png".

(** The curve [plt.plot] accepts for [key] at [epoch]. *)
Definition curve (epoch : Z) (key : string) (s : Classifier) : result (list float) :=
  match metric_history s !! key with
  | Some ys => if Z.of_nat (length ys) =? epoch + 1 then Ok ys else Raise ValueError
  | None => Raise KeyError
  end.

Definition curves_fit (epoch : Z) (s : Classifier) (metric_name : string) : Prop :=
  is_ok (curve epoch ("train_" +:+ metric_name) s) = true
  ∧ is_ok (curve epoch ("val_" +:+ metric_name) s) = true.

(** How lines 226-235 change the early-stopping state, given the validation
    loss of the epoch; [f] tells whether the loop breaks. *)
Definition stopping_step (loss : float) (s s' : Classifier) (f : flow) : Prop :=
  if PrimFloat.ltb loss (best_val_loss s) then
    best_val_loss s' = loss ∧ early_stopping_counter s' = 0
    ∧ early_stop s' = early_stop s ∧ f = Continue
  else
    best_val_loss s' = best_val_loss s
    ∧ early_stopping_counter s' = early_stopping_counter s + 1
    ∧ if early_stopping_counter s + 1 =? early_stopping_patience s
      then early_stop s' = true ∧ f = Break
      else early_stop s' = early_stop s ∧ f = Continue.

(** What an epoch leaves alone. *)
Definition epoch_frame (w w' : World) : Prop :=
  early_stopping_patience (self w') = early_stopping_patience (self w)
  ∧ medical_type (self w') = medical_type (self w)
  ∧ medclip_model (self w') = medclip_model (self w)
  ∧ ∀ path, path ∉ figure_path <$> metric_names → path ≠ "best_model.pth" →
            disk w' !! path = disk w !! path.

(** A label that indexes [categories]: Python accepts [-len <= label < len]. *)
Definition in_range (categories : list string) (label : Z) : bool :=
  (- Z.of_nat (length categories) <=? label) && (label <? Z.of_nat (length categories)).

(** What a world has learned or persisted: [self] up to the training mode of
    the model, and the disk.  The data sources and the record of calls are
    left out. *)
Definition learned (w : World) : Classifier * gmap string file :=
  (set_medclip_model (set_training false (medclip_model (self w))) (self w), disk w).

(** The precision a device keeps its model in: full precision on the cpu,
    reduced precision for the layers of the clip conversion otherwise. *)
Definition precision_invariant (dev : Device) (model : Model) : Prop :=
  match dev with
  | cpu => Forall (λ p, data_dtype p = float32) (parameters model)
  | cuda => Forall (λ p, half_layer p = true → data_dtype p = float16) (parameters model)
  end.

(** The counter stays below the patience until the flag is set, and equals
    it from then on. *)
Definition stopping_invariant (s : Classifier) : Prop :=
  0 <= early_stopping_counter s
  ∧ if early_stop s
    then early_stopping_counter s = early_stopping_patience s
    else early_stopping_counter s < early_stopping_patience s.

(** [m] keeps a property of [self] and the disk, whether it returns or
    raises. *)
Definition preserves {A} (Q : Classifier → gmap string file → Prop) (m : M A) : Prop :=
  ∀ w, Q (self w) (disk w) → Q (self (fst (m w))) (disk (fst (m w))).

(** [self] up to the training mode of the model. *)
Definition up_to_mode (s : Classifier) : Classifier :=
  set_medclip_model (set_training false (medclip_model s)) s.

(** The classifier made with another [epochs] argument. *)
Definition set_epochs (n : Z) (s : Classifier) : Classifier :=
  {| medical_type := medical_type s; device := device s; medclip_model := medclip_model s;
     optimizer := optimizer s; epochs := n; metric_history := metric_history s;
     early_stopping_patience := early_stopping_patience s;
     early_stopping_counter := early_stopping_counter s;
     best_val_loss := best_val_loss s; early_stop := early_stop s;
     option_ := option_ s; number_of_captions := number_of_captions s |}.

Definition with_epochs (n : Z) (w : World) : World :=
  with_self (set_epochs n (self w)) w.

(** What the sweeps of an epoch (lines 149-200) leave alone: the histories,
    the early-stopping state and the disk.  The model, the optimizer, the
    data sources and the record of calls are free. *)
Definition bookkeeping_frame (w w' : World) : Prop :=
  metric_history (self w') = metric_history (self w)
  ∧ early_stopping_patience (self w') = early_stopping_patience (self w)
  ∧ early_stopping_counter (self w') = early_stopping_counter (self w)
  ∧ best_val_loss (self w') = best_val_loss (self w)
  ∧ early_stop (self w') = early_stop (self w)
  ∧ medical_type (self w') = medical_type (self w)
  ∧ disk w' = disk w.

(** The sweeps of epoch [e] return the measurements [ms !! e], within that
    frame. *)
Definition sweeps_measure (sweeps : Z → Texts → M (Texts * EpochMetrics))
  (ms : list EpochMetrics) : Prop :=
  ∀ (e : nat) (m : EpochMetrics) (texts : Texts) (w : World),
    ms !! e = Some m →
    ∃ w' texts', sweeps (Z.of_nat e) texts w = (w', Ok (texts', m)) ∧ bookkeeping_frame w w'.

(** What the iterations of the epoch loop leave alone. *)
Definition loop_frame (w w' : World) : Prop :=
  early_stopping_patience (self w') = early_stopping_patience (self w)
  ∧ medical_type (self w') = medical_type (self w)
  ∧ ∀ path, path ∉ figure_path <$> metric_names → path ≠ "best_model.pth" →
            disk w' !! path = disk w !! path.


End Vocabulary.

(** * Part II: properties *)

(** Unfolding of the monad's operations. *)
Ltac run_monad :=
  repeat (unfold bind, ret, lift, raise, get_self, modify_self, write_file, py_assert in *;
          simpl in *).

(** ** The monad: sequencing and frames *)

Section Frames.
Context {N : Numerics} {L : Libraries} {D : DataSource}.

Lemma bind_returns {A B} (m : M A) (k : A → M B) (w w' : World) (b : B) :
  bind m k w = (w', Ok b) → ∃ w1 a, m w = (w1, Ok a) ∧ k a w1 = (w', Ok b).
Proof.
  unfold bind. destruct (m w) as [w1 [a | e]]; [| discriminate]. eauto.
Qed.

Lemma lift_returns {A} (r : result A) (w w' : World) (a : A) :
  lift r w = (w', Ok a) → w' = w ∧ r = Ok a.
Proof. unfold lift. intros [= <- ->]. split; reflexivity. Qed.

Lemma preserves_bind {A B} Q (m : M A) (k : A → M B) :
  preserves Q m → (∀ a, preserves Q (k a)) → preserves Q (bind m k).
Proof.
  intros Hm Hk w HQ. unfold bind. specialize (Hm w HQ).
  destruct (m w) as [w1 [a | e]]; simpl in *; [| exact Hm].
  exact (Hk a w1 Hm).
Qed.

Lemma preserves_pure {A} Q (m : M A) : (∀ w, fst (m w) = w) → preserves Q m.
Proof. intros Hm w HQ. rewrite Hm. exact HQ. Qed.

Lemma preserves_for_each {A S} Q (xs : list A) (body : A → S → M S) (s : S) :
  (∀ x s, preserves Q (body x s)) → preserves Q (for_each xs body s).
Proof.
  intros Hbody. revert s. induction xs as [| x xs IH]; intros s; simpl.
  - apply preserves_pure. reflexivity.
  - apply preserves_bind; [apply Hbody | intros s'; apply IH].
Qed.

Lemma preserves_next_batch Q (g : nat) : preserves Q (next_batch g).
Proof. intros w HQ. unfold next_batch. destruct (sources w !! g); exact HQ. Qed.

Lemma preserves_reset_source Q (g : nat) : preserves Q (reset_source g).
Proof. intros w HQ. unfold reset_source. destruct (sources w !! g); exact HQ. Qed.

End Frames.

(** ** Classification: the prompt is fixed *)

Section Classification.
Context {N : Numerics} {L : Libraries} {D : DataSource}.

Lemma process_class_prompts_singleton (task : string) (cs : list string) :
  process_class_prompts {[ task := cs ]} = {[ task := tokenize cs ]}.
Proof. unfold process_class_prompts. apply map_fmap_singleton. Qed.

(** What [zero_shot_classification] computes: the scores are the classifier's
    output on the image batch and the fixed prompt, under the model of [self]
    put in evaluation mode; the labels are the rounded scores. *)
Lemma zero_shot_classification_spec (image_batch : pixels) (categories : list string) (w : World) :
  zero_shot_classification image_batch categories w =
    let model := set_training false (medclip_model (self w)) in
    (with_self (set_medclip_model model (self w)) w,
     match prompt_classifier model image_batch covid_prompt with
     | Ok top_probs => Ok (top_probs, np_round <$> top_probs)
     | Raise e => Raise e
     end).
Proof.
  unfold zero_shot_classification, covid_prompt. run_monad.
  rewrite process_class_prompts_singleton.
  destruct (prompt_classifier _ _ _); reflexivity.
Qed.

(** C10.  The scores and labels returned by [zero_shot_classification], and
    everything [evaluate] returns and does, are the same for any two values of
    the [categories] / [task] argument: the argument is never read, and the
    only prompt is "a photo of covid lungs.", so that the output is a function
    of the image batch and the model alone. *)
Theorem classification_ignores_task
  (image_batch : pixels) (task1 task2 : list string)
  (generators : list nat) (steps : list (string * Z)) (w : World) :
  zero_shot_classification image_batch task1 w = zero_shot_classification image_batch task2 w
  ∧ evaluate generators steps task1 w = evaluate generators steps task2 w
  ∧ snd (zero_shot_classification image_batch task1 w) =
      result_bind
        (prompt_classifier (set_training false (medclip_model (self w))) image_batch
           {[ "COVID" := tokenize ["a photo of covid lungs."] ]})
        (λ top_probs, Ok (top_probs, np_round <$> top_probs)).
Proof.
  split; [| split].
  - rewrite !zero_shot_classification_spec. reflexivity.
  - reflexivity.
  - rewrite zero_shot_classification_spec. simpl.
    unfold covid_prompt. destruct (prompt_classifier _ _ _); reflexivity.
Qed.

End Classification.

(** ** The prompt policy *)

Section PromptPolicy.
Context {N : Numerics} {L : Libraries} {D : DataSource}.

Lemma ignores_bind {A B} (m : M A) (k : A → M B) :
  ignores_number_of_captions m → (∀ a, ignores_number_of_captions (k a)) →
  ignores_number_of_captions (bind m k).
Proof.
  intros Hm Hk n w. unfold bind. rewrite Hm.
  destruct (m w) as [w' [a | e]]; simpl; [apply Hk | reflexivity].
Qed.

Lemma ignores_ret {A} (a : A) : ignores_number_of_captions (ret a).
Proof. intros n w. reflexivity. Qed.

Lemma ignores_raise {A} (e : exn) : ignores_number_of_captions (raise e : M A).
Proof. intros n w. reflexivity. Qed.

Lemma ignores_lift {A} (r : result A) : ignores_number_of_captions (lift r).
Proof. intros n w. reflexivity. Qed.

Lemma ignores_next_batch (g : nat) : ignores_number_of_captions (next_batch g).
Proof. intros n w. unfold next_batch. simpl. destruct (sources w !! g); reflexivity. Qed.

Lemma ignores_set_model (f : Classifier → Model) :
  (∀ n s, f (set_number_of_captions n s) = f s) →
  ignores_number_of_captions (modify_self (λ s, set_medclip_model (f s) s)).
Proof.
  intros Hf n w. unfold modify_self, with_number_of_captions, with_self. simpl.
  rewrite Hf. reflexivity.
Qed.

Lemma ignores_build_class_prompts categories labels texts :
  ignores_number_of_captions (build_class_prompts categories labels texts).
Proof.
  intros n w. unfold build_class_prompts. run_monad.
  destruct (option_ (self w)) as [o |]; simpl; [| reflexivity].
  destruct (String.eqb o "regular_captions"); simpl.
  - destruct (captions categories labels); reflexivity.
  - destruct texts; reflexivity.
Qed.

Lemma ignores_batch_loss cls_prompts inputs :
  ignores_number_of_captions (batch_loss cls_prompts inputs).
Proof.
  intros n w. unfold batch_loss. run_monad.
  destruct (py_getitem cls_prompts "COVID"); simpl; [| reflexivity].
  destruct (medclip_forward _ _ _); reflexivity.
Qed.

Lemma validation_batch_ignores_number_of_captions validation_loader categories texts :
  ignores_number_of_captions (validation_batch validation_loader categories texts).
Proof.
  unfold validation_batch.
  apply ignores_bind; [apply ignores_next_batch | intros batch].
  apply ignores_bind; [apply ignores_build_class_prompts | intros prompts].
  apply ignores_bind; [apply ignores_batch_loss | intros fwd].
  apply ignores_ret.
Qed.

Lemma train_batch_ignores_number_of_captions train_loader categories texts :
  ignores_number_of_captions (train_batch train_loader categories texts).
Proof.
  unfold train_batch.
  apply ignores_bind; [apply ignores_next_batch | intros batch].
  apply ignores_bind; [apply ignores_build_class_prompts | intros prompts].
  apply ignores_bind; [apply ignores_set_model; reflexivity | intros _].
  apply ignores_bind; [apply ignores_batch_loss | intros fwd].
  apply ignores_bind; [apply ignores_set_model; reflexivity | intros _].
  apply ignores_bind; [| intros _; apply ignores_ret].
  intros n w. reflexivity.
Qed.

(** The run stops at the [assert] with nothing done but the two assignments. *)
Lemma run_invalid_settings generators steps option n categories w :
  option_settings_valid option n = false →
  run generators steps option n categories w
  = (with_self (set_option_settings option n (self w)) w, Raise AssertionError).
Proof. intros H. unfold run. run_monad. rewrite H. reflexivity. Qed.

(** C3.  The precondition of [run]: "regular_captions" with 1 caption passes,
    "regular_captions" with 2 fails, "random_captions" with 0 fails,
    "random_captions" with 3 passes.  The check is made once, by [run], before
    anything else: when it fails [run] raises [AssertionError] having made no
    call on a data source, written no file and left the model alone, and when
    it passes [run] goes on to [train_validate]; the body of a training or
    validation batch does not look at the caption count. *)
Theorem run_checks_option_settings_first :
  option_settings_valid "regular_captions" 1 = true
  ∧ option_settings_valid "regular_captions" 2 = false
  ∧ option_settings_valid "random_captions" 0 = false
  ∧ option_settings_valid "random_captions" 3 = true
  ∧ (∀ generators steps option n categories w,
       run generators steps option n categories w
       = if option_settings_valid option n
         then (train_loader <- lift (py_index generators 0) ;;
               validation_loader <- lift (py_index generators 1) ;;
               train_validate train_loader validation_loader steps categories ;;
               test_loader <- lift (py_index generators 2) ;;
               n_test <- lift (py_getitem steps "Test") ;;
               m <- evaluate [test_loader] [("Test", n_test)] categories ;;
               save_results m)
                (with_self (set_option_settings option n (self w)) w)
         else (with_self (set_option_settings option n (self w)) w, Raise AssertionError))
  ∧ (∀ loader categories texts,
       ignores_number_of_captions (train_batch loader categories texts)
       ∧ ignores_number_of_captions (validation_batch loader categories texts)).
Proof.
  repeat split; try reflexivity.
  - intros generators steps option n categories w.
    destruct (option_settings_valid option n) eqn:Hvalid.
    + unfold run. run_monad. rewrite Hvalid. reflexivity.
    + apply run_invalid_settings, Hvalid.
  - apply train_batch_ignores_number_of_captions.
  - apply validation_batch_ignores_number_of_captions.
Qed.

(** Under the fixed policy there is one caption per label, each of the form
    "a photo of {category} lungs." for the category the label indexes. *)
Lemma captions_spec (categories : list string) (labels : list Z) (cs : list string) :
  captions categories labels = Ok cs →
  Forall2 (λ label c, ∃ category, py_index categories label = Ok category
                                  ∧ c = "a photo of " +:+ category +:+ " lungs.")
          labels cs.
Proof.
  revert cs. induction labels as [| label labels IH]; intros cs H; simpl in H.
  - inversion H. constructor.
  - unfold caption in H.
    destruct (py_index categories label) as [category |] eqn:Hc; simpl in H; [| discriminate].
    destruct (captions categories labels) as [cs' |]; simpl in H; [| discriminate].
    inversion H; subst. constructor; [eauto | apply IH; reflexivity].
Qed.

Lemma build_class_prompts_regular categories labels texts n w cs :
  captions categories labels = Ok cs →
  build_class_prompts categories labels texts
    (with_self (set_option_settings "regular_captions" n (self w)) w)
  = (with_self (set_option_settings "regular_captions" n (self w)) w,
     Ok (Some {[ "COVID" := cs ]}, {[ "COVID" := tokenize cs ]})).
Proof.
  intros H. unfold build_class_prompts. run_monad. rewrite H. simpl.
  rewrite process_class_prompts_singleton. reflexivity.
Qed.

(** C6, the randomized policy.  With [self.option = "random_captions"] (and
    any caption count) nothing assigns [texts]: on the first batch
    [process_class_prompts(texts)] raises [UnboundLocalError], and no caption
    is produced. *)
Theorem random_captions_leave_texts_unbound categories labels n w :
  build_class_prompts categories labels None
    (with_self (set_option_settings "random_captions" n (self w)) w)
  = (with_self (set_option_settings "random_captions" n (self w)) w, Raise UnboundLocalError).
Proof. reflexivity. Qed.

End PromptPolicy.

(** ** Evaluation: the AUC of a single class *)

Section DegenerateAuc.
Context {N : Numerics} {L : Libraries} {D : DataSource}.

Lemma remove_dups_constant (c : Z) (ys : list Z) :
  Forall (λ y, y = c) ys → (length (remove_dups ys) ≤ 1)%nat.
Proof.
  intros H.
  assert (Hsub : remove_dups ys ⊆ [c]).
  { intros y Hy. rewrite elem_of_remove_dups in Hy.
    rewrite Forall_forall in H. rewrite (H y Hy). left. }
  assert (Hlen := NoDup_submseteq _ _ (NoDup_remove_dups ys) Hsub).
  apply submseteq_length in Hlen. exact Hlen.
Qed.

Lemma remove_dups_of_nil (ys : list Z) : length (remove_dups ys) = 0%nat → ys = [].
Proof.
  intros Hlen. destruct ys as [| y ys]; [reflexivity |].
  assert (Hy : y ∈ remove_dups (y :: ys)) by (apply elem_of_remove_dups; left).
  destruct (remove_dups (y :: ys)); [inversion Hy | discriminate].
Qed.

(** [roc_auc_score] on labels of a single class. *)
Lemma roc_auc_score_single_class (c : Z) (y_true : list Z) (y_score : list float) :
  Forall (λ y, y = c) y_true →
  roc_auc_score y_true y_score
  = match y_true, sklearn_undefined_auc with
    | _ :: _, ReturnsNan => Ok nan
    | _, _ => Raise ValueError
    end.
Proof.
  intros H. unfold roc_auc_score.
  pose proof (remove_dups_constant c y_true H) as Hlen.
  destruct (length (remove_dups y_true)) as [| [| n]] eqn:Hclasses; [| | lia].
  - rewrite (remove_dups_of_nil _ Hclasses). reflexivity.
  - destruct y_true; [discriminate Hclasses |].
    destruct sklearn_undefined_auc; reflexivity.
Qed.

(** C7.  When the true labels accumulated by [evaluate] are all of one class,
    [evaluate] passes on what [roc_auc_score] does, which nothing catches or
    replaces: if [evaluate] returns at all, the installed scikit-learn is one
    that reports the undefined metric as [nan], and the AUC returned is that
    [nan]; no number stands in for it.  With a scikit-learn that raises,
    [evaluate] raises, and the exception is the [ValueError] of
    [roc_auc_score] when the three metrics computed before it return; with
    one that returns [nan], on at least one label and with the other five
    metrics returning, [evaluate] returns with [nan] as the AUC. *)
Theorem evaluate_single_class_undefined
  (generators : list nat) (steps : list (string * Z)) (task : list string)
  (w w' : World) (y_true : list Z) (y_pred y_score : list float) (c : Z) :
  evaluate_accumulate generators steps task w = (w', Ok (y_true, y_pred, y_score)) →
  Forall (λ label, label = c) y_true →
  (∀ w'' m, evaluate generators steps task w = (w'', Ok m) →
            sklearn_undefined_auc = ReturnsNan ∧ PrimFloat.is_nan m.1.1.2 = true)
  ∧ (sklearn_undefined_auc = RaisesValueError →
     ∃ e, evaluate generators steps task w = (w', Raise e)
          ∧ (is_ok (accuracy_score y_true y_pred) = true →
             is_ok (precision_score y_true y_pred) = true →
             is_ok (recall_score y_true y_pred) = true →
             e = ValueError))
  ∧ (sklearn_undefined_auc = ReturnsNan →
     y_true ≠ [] →
     is_ok (accuracy_score y_true y_pred) = true →
     is_ok (precision_score y_true y_pred) = true →
     is_ok (recall_score y_true y_pred) = true →
     is_ok (classification_report y_true y_pred) = true →
     is_ok (confusion_matrix y_true y_pred) = true →
     ∃ m, evaluate generators steps task w = (w', Ok m) ∧ m.1.1.2 = nan).
Proof.
  intros Hacc Hone. unfold evaluate, bind. rewrite Hacc. run_monad.
  rewrite !(roc_auc_score_single_class c y_true y_score Hone).
  split; [| split].
  - intros w'' m.
    destruct (accuracy_score y_true y_pred) as [a |]; simpl; [| discriminate].
    destruct (precision_score y_true y_pred) as [p |]; simpl; [| discriminate].
    destruct (recall_score y_true y_pred) as [r |]; simpl; [| discriminate].
    destruct y_true as [| label labels]; simpl; [discriminate |].
    destruct sklearn_undefined_auc; simpl; [discriminate |].
    destruct (classification_report _ y_pred) as [cr |]; simpl; [| discriminate].
    destruct (confusion_matrix _ y_pred) as [cm |]; simpl; [| discriminate].
    intros [= _ <-]. split; reflexivity.
  - intros Hversion. rewrite Hversion.
    destruct (accuracy_score y_true y_pred) as [a | e1]; simpl;
      [| eexists; split; [reflexivity | discriminate]].
    destruct (precision_score y_true y_pred) as [p | e2]; simpl;
      [| eexists; split; [reflexivity | discriminate]].
    destruct (recall_score y_true y_pred) as [r | e3]; simpl;
      [| eexists; split; [reflexivity | discriminate]].
    destruct y_true; eexists; split; reflexivity.
  - intros Hversion Hsome. rewrite Hversion.
    destruct y_true as [| label labels]; [contradiction |].
    destruct (accuracy_score _ y_pred) as [a |]; simpl; [| discriminate].
    destruct (precision_score _ y_pred) as [p |]; simpl; [| discriminate].
    destruct (recall_score _ y_pred) as [r |]; simpl; [| discriminate].
    destruct (classification_report _ y_pred) as [cr |]; simpl; [| discriminate].
    destruct (confusion_matrix _ y_pred) as [cm |]; simpl; [| discriminate].
    intros _ _ _ _ _. eexists. split; reflexivity.
Qed.

End DegenerateAuc.

(** A validation set whose labels are all 1, evaluated with the reference
    stand-ins: [evaluate] raises [ValueError] with a scikit-learn up to 1.5,
    and returns [nan] as the AUC with a later one. *)
Lemma evaluate_single_class_undefined_witness :
  snd (@evaluate _ Reference.libraries _ [1%nat] [("Validation", 2)] Reference.categories
         Reference.all_positive) = Raise ValueError
  ∧ ∃ m, snd (@evaluate _ Reference.libraries_from_1_6 _ [1%nat] [("Validation", 2)]
                Reference.categories Reference.all_positive) = Ok m
         ∧ m.1.1.2 = nan.
Proof.
  assert (Hone : Forall (λ label, label = 1) [1; 1; 1; 1]) by repeat constructor.
  split.
  - assert (Hacc : @evaluate_accumulate _ Reference.libraries _ [1%nat] [("Validation", 2)]
                     Reference.categories Reference.all_positive
                   = (fst (@evaluate_accumulate _ Reference.libraries _ [1%nat]
                             [("Validation", 2)] Reference.categories Reference.all_positive),
                      Ok ([1; 1; 1; 1], [1%float; 1%float; 1%float; 1%float],
                          [0.75%float; 0.75%float; 0.75%float; 0.75%float])))
      by (vm_compute; reflexivity).
    destruct (proj1 (proj2 (@evaluate_single_class_undefined _ Reference.libraries _
                              _ _ _ _ _ _ _ _ 1 Hacc Hone)) eq_refl) as [e [He Hv]].
    rewrite He. simpl. f_equal. apply Hv; reflexivity.
  - assert (Hacc : @evaluate_accumulate _ Reference.libraries_from_1_6 _ [1%nat]
                     [("Validation", 2)] Reference.categories Reference.all_positive
                   = (fst (@evaluate_accumulate _ Reference.libraries_from_1_6 _ [1%nat]
                             [("Validation", 2)] Reference.categories Reference.all_positive),
                      Ok ([1; 1; 1; 1], [1%float; 1%float; 1%float; 1%float],
                          [0.75%float; 0.75%float; 0.75%float; 0.75%float])))
      by (vm_compute; reflexivity).
    destruct (proj2 (proj2 (@evaluate_single_class_undefined _ Reference.libraries_from_1_6 _
                              _ _ _ _ _ _ _ _ 1 Hacc Hone))
                eq_refl ltac:(discriminate) eq_refl eq_refl eq_refl eq_refl eq_refl)
      as [m [Hm Hauc]].
    exists m. rewrite Hm. split; [reflexivity | exact Hauc].
Defined.


(** ** The precision cycle around the optimizer step *)

Section PrecisionCycle.
Context {N : Numerics} {L : Libraries} {D : DataSource}.

Lemma convert_models_to_fp32_with_gradient (model : Model) :
  Forall (λ p, ∀ g, grad p = Some g → data_dtype p = float32 ∧ t_dtype g = float32)
         (parameters (convert_models_to_fp32 model)).
Proof.
  unfold convert_models_to_fp32. simpl. apply Forall_fmap, Forall_forall.
  intros p _ g. unfold convert_parameter_to_fp32, data_dtype.
  destruct (grad p) as [g0 |] eqn:Hg; simpl.
  - intros [= <-]. split; reflexivity.
  - rewrite Hg. discriminate.
Qed.

Lemma adam_step_parameter_dtype (o : adam_state) (i : nat) (p : Param) :
  data_dtype (adam_step_parameter o i p) = data_dtype p
  ∧ grad (adam_step_parameter o i p) = grad p
  ∧ half_layer (adam_step_parameter o i p) = half_layer p.
Proof. unfold adam_step_parameter, data_dtype. destruct (grad p) eqn:Hg; simpl; auto. Qed.

Lemma optimizer_step_lookup (o : adam_state) (model : Model) (i : nat) :
  parameters (snd (optimizer_step o model)) !! i
  = adam_step_parameter o i <$> parameters model !! i.
Proof. unfold optimizer_step. simpl. apply list_lookup_imap. Qed.

Lemma optimizer_step_dtypes (o : adam_state) (model : Model) :
  data_dtype <$> parameters (snd (optimizer_step o model)) = data_dtype <$> parameters model.
Proof.
  apply list_eq. intros i. rewrite !list_lookup_fmap, optimizer_step_lookup.
  destruct (parameters model !! i) as [p |]; simpl; [| reflexivity].
  f_equal. apply adam_step_parameter_dtype.
Qed.

Lemma without_gradient_untouched (o : adam_state) (model : Model) (i : nat) (p : Param) :
  parameters model !! i = Some p → grad p = None →
  parameters (snd (optimizer_step o (convert_models_to_fp32 model))) !! i = Some p.
Proof.
  intros Hp Hg. rewrite optimizer_step_lookup. unfold convert_models_to_fp32. simpl.
  rewrite list_lookup_fmap, Hp. simpl.
  unfold convert_parameter_to_fp32. rewrite Hg. unfold adam_step_parameter. rewrite Hg.
  reflexivity.
Qed.

Lemma convert_weights_covered (model : Model) :
  Forall (λ p, half_layer p = true → data_dtype p = float16) (parameters (convert_weights model)).
Proof.
  unfold convert_weights. simpl. apply Forall_fmap, Forall_forall.
  intros p _. unfold compose, convert_parameter_to_fp16, data_dtype.
  destruct (half_layer p) eqn:Hh; simpl; [reflexivity | rewrite Hh; discriminate].
Qed.

Lemma convert_weights_other (model : Model) (i : nat) (p : Param) :
  parameters model !! i = Some p → half_layer p = false →
  parameters (convert_weights model) !! i = Some p.
Proof.
  intros Hp Hh. unfold convert_weights. simpl. rewrite list_lookup_fmap, Hp. simpl.
  unfold convert_parameter_to_fp16. rewrite Hh. reflexivity.
Qed.

(** A training batch that returns has run [optimization_step] once, on the
    model as the backward pass left it. *)
Lemma train_batch_steps_once train_loader categories texts (w w' : World) r :
  train_batch train_loader categories texts w = (w', Ok r) →
  ∃ covid inputs,
    medclip_model (self w')
    = snd (optimization_step (device (self w)) (optimizer (self w))
             (loss_backward (zero_grad (medclip_model (self w))) covid inputs)).
Proof.
  unfold train_batch, next_batch, build_class_prompts, batch_loss. run_monad.
  destruct (sources w !! train_loader) as [src |]; [| discriminate].
  destruct (source_next src) as [src' [[inputs labels] | e]]; simpl; [| discriminate].
  destruct (option_ (self w)) as [o |]; simpl; [| discriminate].
  destruct (String.eqb o "regular_captions"); simpl.
  - destruct (captions categories labels) as [cs |]; simpl; [| discriminate].
    destruct (py_getitem _ "COVID") as [covid |]; simpl; [| discriminate].
    destruct (medclip_forward _ covid inputs) as [out |]; simpl; [| discriminate].
    intros [= <- _]. exists covid, inputs. reflexivity.
  - destruct texts as [t |]; simpl; [| discriminate].
    destruct (py_getitem _ "COVID") as [covid |]; simpl; [| discriminate].
    destruct (medclip_forward _ covid inputs) as [out |]; simpl; [| discriminate].
    intros [= <- _]. exists covid, inputs. reflexivity.
Qed.

(** C9, as the code has it.  On accelerated hardware the optimizer step of a
    training batch is preceded by [convert_models_to_fp32] and followed by
    [clip.model.convert_weights], once each.  At the optimizer step every
    parameter that holds a gradient is in full precision, and so is the
    gradient; a parameter without gradient is not put in full precision and is
    not updated.  After the cycle the parameters of the layers covered by the
    clip conversion are in reduced precision; the other parameters are as the
    optimizer step left them.  On the cpu the optimizer step runs alone and no
    parameter changes its dtype.  A training batch that returns has run this
    step exactly once. *)
Theorem precision_cycle (o : adam_state) (model : Model) :
  let full := convert_models_to_fp32 model in
  let stepped := optimizer_step o full in
  let cycled := optimization_step cuda o model in
  cycled = (fst stepped, convert_weights (snd stepped))
  ∧ Forall (λ p, ∀ g, grad p = Some g → data_dtype p = float32 ∧ t_dtype g = float32)
           (parameters full)
  ∧ (∀ i p, parameters model !! i = Some p → grad p = None →
            parameters (snd stepped) !! i = Some p)
  ∧ Forall (λ p, half_layer p = true → data_dtype p = float16) (parameters (snd cycled))
  ∧ (∀ i p, parameters (snd stepped) !! i = Some p → half_layer p = false →
            parameters (snd cycled) !! i = Some p)
  ∧ optimization_step cpu o model = optimizer_step o model
  ∧ data_dtype <$> parameters (snd (optimization_step cpu o model))
    = data_dtype <$> parameters model
  ∧ (∀ train_loader categories texts (w w' : World) r,
       train_batch train_loader categories texts w = (w', Ok r) →
       ∃ covid inputs,
         medclip_model (self w')
         = snd (optimization_step (device (self w)) (optimizer (self w))
                  (loss_backward (zero_grad (medclip_model (self w))) covid inputs))).
Proof.
  intros full stepped cycled.
  split; [reflexivity |].
  split; [apply convert_models_to_fp32_with_gradient |].
  split; [intros i p; apply without_gradient_untouched |].
  split; [apply convert_weights_covered |].
  split; [intros i p; apply convert_weights_other |].
  split; [reflexivity |].
  split; [apply optimizer_step_dtypes |].
  apply train_batch_steps_once.
Qed.

End PrecisionCycle.

(** In the reference model after the backward pass, the third parameter holds
    no gradient and is still in reduced precision when the optimizer steps,
    and the normalisation weight is in full precision after the cycle. *)
Lemma precision_cycle_counterexample :
  ¬ Forall (λ p, data_dtype p = float32)
      (parameters (convert_models_to_fp32 Reference.model_after_backward))
  ∧ ¬ Forall (λ p, data_dtype p = float16)
      (parameters (snd (optimization_step cuda 0%nat Reference.model_after_backward)))
  ∧ ¬ cycle_converts_every_parameter 0%nat Reference.model_after_backward.
Proof.
  assert (H32 : ¬ Forall (λ p, data_dtype p = float32)
                  (parameters (convert_models_to_fp32 Reference.model_after_backward))).
  { intros H. vm_compute in H. rewrite !Forall_cons in H.
    destruct H as (_ & _ & H & _). discriminate H. }
  assert (H16 : ¬ Forall (λ p, data_dtype p = float16)
                  (parameters (snd (optimization_step cuda 0%nat Reference.model_after_backward)))).
  { intros H. vm_compute in H. rewrite !Forall_cons in H.
    destruct H as (_ & H & _). discriminate H. }
  split; [exact H32 | split; [exact H16 |]].
  intros [H _]. exact (H32 H).
Qed.

Lemma precision_cycle_witness :
  ∃ covid inputs,
    medclip_model (self (fst (train_batch 0 Reference.categories None
                                (Reference.configured true "regular_captions" 1))))
    = snd (optimization_step cuda 0%nat
             (loss_backward (zero_grad (medclip_model (self (Reference.fresh true)))) covid inputs)).
Proof.
  destruct (train_batch 0 Reference.categories None
              (Reference.configured true "regular_captions" 1)) as [w' [r | e]] eqn:Hrun.
  - destruct (@precision_cycle Reference.numerics Reference.libraries Reference.data_source
                0%nat pretrained) as (_ & _ & _ & _ & _ & _ & _ & Hbatch).
    exact (Hbatch _ _ _ _ _ _ Hrun).
  - apply (f_equal (λ r, is_ok (snd r))) in Hrun. vm_compute in Hrun.
    discriminate Hrun.
Defined.

(** ** The loss of a batch *)

Section LossStep.
Context {N : Numerics} {L : Libraries} {D : DataSource}.

Lemma count_up_seq (start : Z) (n : nat) :
  count_up start n = (λ i, start + Z.of_nat i) <$> seq 0 n.
Proof.
  revert start. induction n as [| n IH]; intros start; simpl; [reflexivity |].
  f_equal; [lia |]. rewrite IH, <- fmap_S_seq, <- list_fmap_compose.
  apply list_fmap_ext. intros _ i _. simpl. lia.
Qed.

(** The ground truth of a batch of [B] images is [[0; 1; ...; B-1]]. *)
Lemma arange_seq (B : nat) : arange B = Z.of_nat <$> seq 0 B.
Proof. unfold arange. rewrite count_up_seq. apply list_fmap_ext. intros _ i _. lia. Qed.

Lemma total_loss_swap (a b : list (list scalar)) (target : list Z) :
  (∀ x y, scalar_add x y = scalar_add y x) →
  total_loss a b target = total_loss b a target.
Proof. intros Hcomm. unfold total_loss, loss_img, loss_txt. rewrite Hcomm. reflexivity. Qed.

(** C2.  For a batch of [B] images whose forward pass gives the logits
    [L_img] and [L_txt], the loss of the batch (training or validation) is
    half the sum of the cross entropy of [L_img] against [[0; ...; B-1]] and
    of the cross entropy of [L_txt] against the same vector.  Tensor addition
    being commutative, exchanging the two matrices gives the same loss; in
    particular so when [L_txt] is the transpose of [L_img]. *)
Theorem batch_loss_is_symmetric_mean
  (cls_prompts : gmap string tokens) (covid : tokens) (inputs : pixels) (w : World)
  (L_img L_txt : list (list scalar)) :
  (∀ x y, scalar_add x y = scalar_add y x) →
  cls_prompts !! "COVID" = Some covid →
  medclip_forward (medclip_model (self w)) covid inputs = Ok (L_img, L_txt) →
  let B := pixels_len inputs in
  let ground_truth := Z.of_nat <$> seq 0 B in
  batch_loss cls_prompts inputs w
  = (w, Ok (covid, scalar_halve (scalar_add (cross_entropy L_img ground_truth)
                                            (cross_entropy L_txt ground_truth))))
  ∧ total_loss L_img L_txt ground_truth = total_loss L_txt L_img ground_truth
  ∧ total_loss L_img (transpose L_img) ground_truth
    = total_loss (transpose L_img) L_img ground_truth.
Proof.
  intros Hcomm Hcovid Hforward B ground_truth.
  split; [| split; apply total_loss_swap, Hcomm].
  unfold batch_loss, py_getitem. run_monad. rewrite Hcovid. simpl.
  rewrite Hforward. simpl. rewrite arange_seq. reflexivity.
Qed.

End LossStep.

(** Addition of binary64 numbers is commutative. *)
Lemma SFadd_comm (prec emax : Z) (x y : SpecFloat.spec_float) :
  SpecFloat.SFadd prec emax x y = SpecFloat.SFadd prec emax y x.
Proof.
  destruct x as [sx | sx | | sx mx ex], y as [sy | sy | | sy my ey]; simpl;
    try reflexivity; try (destruct sx, sy; reflexivity).
  rewrite (Z.min_comm ey ex). f_equal. apply Z.add_comm.
Qed.

Lemma float_add_comm (x y : float) : PrimFloat.add x y = PrimFloat.add y x.
Proof.
  apply FloatAxioms.Prim2SF_inj. rewrite !FloatAxioms.add_spec. apply SFadd_comm.
Qed.

Lemma batch_loss_is_symmetric_mean_witness :
  batch_loss {[ "COVID" := ["a photo of covid lungs."; "a photo of normal lungs."] ]} [1; 2]
    (Reference.configured true "regular_captions" 1)
  = (Reference.configured true "regular_captions" 1,
     Ok (["a photo of covid lungs."; "a photo of normal lungs."], (-1.5)%float))
  ∧ total_loss [[2%float; 0.5%float]; [0.5%float; 2%float]]
      (transpose [[2%float; 0.5%float]; [0.5%float; 2%float]]) [0; 1]
    = total_loss (transpose [[2%float; 0.5%float]; [0.5%float; 2%float]])
        [[2%float; 0.5%float]; [0.5%float; 2%float]] [0; 1].
Proof.
  destruct (@batch_loss_is_symmetric_mean Reference.numerics Reference.libraries
              Reference.data_source
              {[ "COVID" := ["a photo of covid lungs."; "a photo of normal lungs."] ]}
              ["a photo of covid lungs."; "a photo of normal lungs."] [1; 2]
              (Reference.configured true "regular_captions" 1)
              [[2%float; 0.5%float]; [0.5%float; 2%float]]
              [[2%float; 0.5%float]; [0.5%float; 2%float]]
              float_add_comm) as (Hloss & _ & Hswap).
  - apply lookup_singleton_eq.
  - reflexivity.
  - split; [rewrite Hloss; vm_compute; reflexivity | exact Hswap].
Defined.

(** ** The calls made on the data sources *)

Section Sweeps.
Context {N : Numerics} {L : Libraries} {D : DataSource}.

Lemma makes_calls_bind {A B} (m : M A) (k : A → M B) cs1 cs2 :
  makes_calls m cs1 → (∀ a, makes_calls (k a) cs2) → makes_calls (bind m k) (cs1 ++ cs2).
Proof.
  intros Hm Hk w w' b. unfold bind.
  destruct (m w) as [w1 [a | e]] eqn:Hrun; [| discriminate].
  intros Hrun2. rewrite (Hk a _ _ _ Hrun2), (Hm _ _ _ Hrun), app_assoc. reflexivity.
Qed.

Lemma makes_calls_pure {A} (m : M A) :
  (∀ w, fst (m w) = w) → makes_calls m [].
Proof.
  intros Hm w w' a Hrun. rewrite app_nil_r. rewrite <- (Hm w), Hrun. reflexivity.
Qed.

Lemma makes_calls_self {A} (m : M A) :
  (∀ w, calls (fst (m w)) = calls w) → makes_calls m [].
Proof.
  intros Hm w w' a Hrun. rewrite app_nil_r. rewrite <- (Hm w), Hrun. reflexivity.
Qed.

Lemma makes_calls_next_batch (g : nat) : makes_calls (next_batch g) [(g, Next)].
Proof.
  intros w w' b. unfold next_batch.
  destruct (sources w !! g); [| discriminate]. intros [= <- _]. reflexivity.
Qed.

Lemma makes_calls_reset_source (g : nat) : makes_calls (reset_source g) [(g, Reset)].
Proof.
  intros w w' b. unfold reset_source.
  destruct (sources w !! g); [| discriminate]. intros [= <- _]. reflexivity.
Qed.

Lemma makes_calls_for_each {A S} (xs : list A) (body : A → S → M S) (s : S) cs :
  (∀ x s, makes_calls (body x s) cs) →
  makes_calls (for_each xs body s) (mjoin (replicate (length xs) cs)).
Proof.
  intros Hbody. revert s. induction xs as [| x xs IH]; intros s; simpl.
  - apply makes_calls_pure. reflexivity.
  - apply makes_calls_bind; [apply Hbody | intros s'; apply IH].
Qed.

Lemma makes_calls_for_range {S} (start : Z) (n : nat) (body : Z → S → M S) (s : S) c :
  (∀ x s, makes_calls (body x s) [c]) →
  makes_calls (for_each (count_up start n) body s) (replicate n c).
Proof.
  intros Hbody. revert start s. induction n as [| n IH]; intros start s; simpl.
  - apply makes_calls_pure. reflexivity.
  - apply (makes_calls_bind _ _ [c] (replicate n c)); [apply Hbody | intros s'; apply IH].
Qed.

Lemma length_count_up (start : Z) (n : nat) : length (count_up start n) = n.
Proof. revert start. induction n as [| n IH]; intros start; simpl; [| rewrite IH]; reflexivity. Qed.

Lemma makes_calls_zero_shot image_batch task :
  makes_calls (zero_shot_classification image_batch task) [].
Proof. apply makes_calls_self. intros w. rewrite zero_shot_classification_spec. reflexivity. Qed.

Lemma makes_calls_lift_ok {A B} (a : A) (k : A → M B) cs :
  makes_calls (k a) cs → makes_calls (bind (lift (Ok a)) k) cs.
Proof. intros Hk w w' b Hrun. apply (Hk w w' b). exact Hrun. Qed.

Lemma makes_calls_evaluate_step generators idx task acc g :
  py_index generators (Z.of_nat idx) = Ok g →
  makes_calls (evaluate_step generators idx task acc) [(g, Next)].
Proof.
  intros Hg. unfold evaluate_step. rewrite Hg.
  apply makes_calls_lift_ok.
  change [(g, Next)] with ([(g, Next)] ++ [] ++ []).
  apply makes_calls_bind; [apply makes_calls_next_batch | intros batch].
  apply makes_calls_bind; [apply makes_calls_zero_shot | intros out].
  apply makes_calls_pure. reflexivity.
Qed.

(** One entry of [steps] in [evaluate]: the source [generators[idx]] is swept
    [step] times and then reset. *)
Lemma makes_calls_evaluate_sweep generators task idx data_type step acc g :
  py_index generators (Z.of_nat idx) = Ok g →
  makes_calls (evaluate_sweep generators task (idx, (data_type, step)) acc)
              (sweep_calls g (Z.to_nat step)).
Proof.
  intros Hg. unfold evaluate_sweep. simpl.
  apply makes_calls_lift_ok.
  unfold sweep_calls.
  apply makes_calls_bind.
  - apply makes_calls_for_range. intros _ s. apply makes_calls_evaluate_step, Hg.
  - intros acc'. rewrite Hg. apply makes_calls_lift_ok.
    change [(g, Reset)] with ([(g, Reset)] ++ @nil (nat * call)).
    apply makes_calls_bind; [apply makes_calls_reset_source | intros _].
    apply makes_calls_pure. reflexivity.
Qed.

Lemma py_index_nat {A} (l : list A) (i : nat) (a : A) :
  py_index l (Z.of_nat i) = Ok a → l !! i = Some a.
Proof.
  unfold py_index.
  destruct (Z.ltb_spec (Z.of_nat i) 0) as [Hneg |]; [lia |].
  destruct (_ || _); [discriminate |].
  rewrite Nat2Z.id. destruct (l !! i); [intros [= ->]; reflexivity | discriminate].
Qed.

Lemma evaluate_sweep_calls generators task idx entry acc w w' a :
  evaluate_sweep generators task (idx, entry) acc w = (w', Ok a) →
  ∃ g, generators !! idx = Some g
       ∧ calls w' = calls w ++ sweep_calls g (Z.to_nat (snd entry)).
Proof.
  intros Hrun. destruct entry as [data_type step]. simpl.
  destruct (py_index generators (Z.of_nat idx)) as [g | e] eqn:Hg.
  - exists g. split; [apply py_index_nat, Hg |].
    exact (makes_calls_evaluate_sweep _ _ _ _ _ _ _ Hg _ _ _ Hrun).
  - exfalso. revert Hrun. unfold evaluate_sweep. simpl. unfold bind at 1. simpl.
    generalize (count_up 0 (Z.to_nat step)). intros range_.
    unfold bind at 1.
    destruct (for_each range_ _ acc w) as [w1 [acc' |]]; [| discriminate].
    unfold bind at 1. rewrite Hg. simpl. discriminate.
Qed.

Lemma evaluate_accumulate_calls generators task steps k acc w w' a :
  for_each (imap (λ i, pair (k + i)%nat) steps) (evaluate_sweep generators task) acc w
  = (w', Ok a) →
  calls w' = calls w ++ mjoin (zip_with (λ g entry, sweep_calls g (Z.to_nat (snd entry)))
                                        (drop k generators) steps).
Proof.
  revert k acc w. induction steps as [| entry steps IH]; intros k acc w; simpl.
  - intros [= <- _]. rewrite zip_with_nil_r. simpl. rewrite app_nil_r. reflexivity.
  - unfold bind at 1.
    destruct (evaluate_sweep generators task ((k + 0)%nat, entry) acc w)
      as [w1 [acc1 | e]] eqn:Hsweep; [| discriminate].
    rewrite Nat.add_0_r in Hsweep.
    destruct (evaluate_sweep_calls _ _ _ _ _ _ _ _ Hsweep) as (g & Hg & Hcalls).
    rewrite (imap_ext _ (λ i, pair (S k + i)%nat)) by (intros; simpl; f_equal; lia).
    intros Hrest. rewrite (IH _ _ _ Hrest), Hcalls.
    rewrite (drop_S _ _ _ Hg). simpl. rewrite app_assoc. reflexivity.
Qed.

Lemma evaluate_world generators steps task w :
  fst (evaluate generators steps task w) = fst (evaluate_accumulate generators steps task w).
Proof.
  unfold evaluate, bind at 1.
  destruct (evaluate_accumulate generators steps task w) as [w1 [y | e]]; [| reflexivity].
  run_monad.
  destruct (accuracy_score _ _); simpl; [| reflexivity].
  destruct (precision_score _ _); simpl; [| reflexivity].
  destruct (recall_score _ _); simpl; [| reflexivity].
  destruct (roc_auc_score _ _); simpl; [| reflexivity].
  destruct (classification_report _ _); simpl; [| reflexivity].
  destruct (confusion_matrix _ _); reflexivity.
Qed.

Lemma build_class_prompts_world categories labels texts w :
  fst (build_class_prompts categories labels texts w) = w.
Proof.
  unfold build_class_prompts. run_monad.
  destruct (option_ (self w)) as [o |]; simpl; [| reflexivity].
  destruct (String.eqb o "regular_captions"); simpl.
  - destruct (captions categories labels); reflexivity.
  - destruct texts; reflexivity.
Qed.

Lemma batch_loss_world cls_prompts inputs w :
  fst (batch_loss cls_prompts inputs w) = w.
Proof.
  unfold batch_loss. run_monad.
  destruct (py_getitem cls_prompts "COVID"); simpl; [| reflexivity].
  destruct (medclip_forward _ _ _); reflexivity.
Qed.

Lemma makes_calls_validation_batch validation_loader categories texts :
  makes_calls (validation_batch validation_loader categories texts) [(validation_loader, Next)].
Proof.
  unfold validation_batch.
  change [(validation_loader, Next)] with ([(validation_loader, Next)] ++ [] ++ [] ++ []).
  apply makes_calls_bind; [apply makes_calls_next_batch | intros batch].
  apply makes_calls_bind; [apply makes_calls_pure, build_class_prompts_world | intros prompts].
  apply makes_calls_bind; [apply makes_calls_pure, batch_loss_world | intros fwd].
  apply makes_calls_pure. reflexivity.
Qed.

(** The validation loop of [train_validate]: [next] is called
    [steps["Validation"]] times, and nothing else is called. *)
Lemma validation_pass_calls validation_loader steps categories texts n w w' r :
  steps !! "Validation" = Some n →
  validation_pass validation_loader steps categories texts w = (w', Ok r) →
  calls w' = calls w ++ replicate (Z.to_nat n) (validation_loader, Next).
Proof.
  intros Hn. revert w w' r.
  change (makes_calls (validation_pass validation_loader steps categories texts)
            (replicate (Z.to_nat n) (validation_loader, Next))).
  unfold validation_pass, py_getitem. rewrite Hn. simpl.
  change (replicate (Z.to_nat n) (validation_loader, Next))
    with ([] ++ replicate (Z.to_nat n) (validation_loader, Next)).
  apply makes_calls_bind; [apply makes_calls_self; reflexivity | intros _].
  apply makes_calls_lift_ok, makes_calls_lift_ok.
  rewrite <- (app_nil_r (replicate _ _)).
  apply makes_calls_bind; [| intros r; apply makes_calls_pure; reflexivity].
  apply makes_calls_for_range. intros _ acc. unfold collect_losses.
  rewrite <- (app_nil_r [_]).
  apply makes_calls_bind; [apply makes_calls_validation_batch | intros r].
  apply makes_calls_pure. reflexivity.
Qed.

(** C5, as the code has it.  Every sweep of [evaluate] that completes has
    called [next] on its source exactly the configured number of times and
    then [reset], one source after the other.  The validation loop of
    [train_validate] calls [next] exactly [steps["Validation"]] times and does
    not call [reset]: the source is next reset by the sweep of [evaluate] that
    follows. *)
Theorem sweeps_call_next_step_times :
  (∀ generators steps task w w' y,
     evaluate_accumulate generators steps task w = (w', Ok y) →
     calls (fst (evaluate generators steps task w))
     = calls w ++ mjoin (zip_with (λ g entry, sweep_calls g (Z.to_nat (snd entry)))
                                  generators steps))
  ∧ (∀ validation_loader steps categories texts n w w' r,
       steps !! "Validation" = Some n →
       validation_pass validation_loader steps categories texts w = (w', Ok r) →
       calls w' = calls w ++ replicate (Z.to_nat n) (validation_loader, Next)).
Proof.
  split.
  - intros generators steps task w w' y Hrun.
    rewrite evaluate_world, Hrun. simpl.
    unfold evaluate_accumulate in Hrun.
    rewrite (imap_ext _ (λ i, pair (0 + i)%nat)) in Hrun by reflexivity.
    apply evaluate_accumulate_calls in Hrun. exact Hrun.
  - apply validation_pass_calls.
Qed.

End Sweeps.

(** The validation loop on the reference sources, two steps: it returns
    having called [next] twice and [reset] not at all.  (The training loop
    raises [TypeError] at [range()] before its first [next].) *)
Lemma validation_pass_does_not_reset :
  is_ok (snd (validation_pass 1 Reference.steps Reference.categories None
                (Reference.configured true "regular_captions" 1))) = true
  ∧ calls (fst (validation_pass 1 Reference.steps Reference.categories None
                  (Reference.configured true "regular_captions" 1)))
    = [(1%nat, Next); (1%nat, Next)]
  ∧ ¬ sweeps_then_resets (validation_pass 1 Reference.steps Reference.categories None)
        1 2 (Reference.configured true "regular_captions" 1)
  ∧ snd (training_pass 0 Reference.categories None
           (Reference.configured true "regular_captions" 1)) = Raise TypeError
  ∧ ¬ sweeps_then_resets (training_pass 0 Reference.categories None)
        0 2 (Reference.configured true "regular_captions" 1).
Proof.
  split; [vm_compute; reflexivity |].
  split; [vm_compute; reflexivity |].
  split; [| split; [reflexivity |]].
  - unfold sweeps_then_resets. vm_compute. discriminate.
  - unfold sweeps_then_resets. vm_compute. discriminate.
Qed.

Lemma sweeps_call_next_step_times_witness :
  calls (fst (evaluate [1%nat] [("Validation", 2)] Reference.categories
                (Reference.configured true "regular_captions" 1)))
  = [(1%nat, Next); (1%nat, Next); (1%nat, Reset)]
  ∧ calls (fst (validation_pass 1 Reference.steps Reference.categories None
                  (Reference.configured true "regular_captions" 1)))
    = [(1%nat, Next); (1%nat, Next)].
Proof.
  destruct (@sweeps_call_next_step_times Reference.numerics Reference.libraries
              Reference.data_source) as [Hevaluate Hvalidation].
  split.
  - destruct (evaluate_accumulate [1%nat] [("Validation", 2)] Reference.categories
                (Reference.configured true "regular_captions" 1)) as [w' [y | e]] eqn:Hrun.
    + rewrite (Hevaluate _ _ _ _ _ _ Hrun). reflexivity.
    + apply (f_equal (λ r, is_ok (snd r))) in Hrun. vm_compute in Hrun.
      discriminate Hrun.
  - destruct (validation_pass 1 Reference.steps Reference.categories None
                (Reference.configured true "regular_captions" 1)) as [w' [r | e]] eqn:Hrun.
    + assert (Hn : Reference.steps !! "Validation" = Some 2) by (vm_compute; reflexivity).
      simpl. rewrite (Hvalidation _ _ _ _ _ _ _ _ Hn Hrun). reflexivity.
    + apply (f_equal (λ r, is_ok (snd r))) in Hrun. vm_compute in Hrun.
      discriminate Hrun.
Defined.

(** ** The orchestrator: metric history, early stopping, checkpoints *)

Section Orchestrator.
Context {N : Numerics} {L : Libraries} {D : DataSource}.

Lemma history_append_spec (key : string) (v : float) (w : World) (h : list float) :
  metric_history (self w) !! key = Some h →
  history_append key v w
  = (with_self (set_metric_history (append_to (metric_history (self w)) (key, v)) (self w)) w,
     Ok tt).
Proof.
  intros Hh. unfold history_append, py_getitem. run_monad. rewrite Hh. simpl.
  unfold append_to. simpl. do 3 f_equal.
  apply map_eq. intros k. rewrite lookup_insert, lookup_alter.
  destruct (decide (key = k)) as [<- |]; [rewrite Hh |]; reflexivity.
Qed.

Lemma lookup_append_to_ne (H : gmap string (list float)) (kv : string * float) (key : string) :
  fst kv ≠ key → append_to H kv !! key = H !! key.
Proof. intros Hne. unfold append_to. apply lookup_alter_ne, Hne. Qed.

Lemma lookup_append_to_eq (H : gmap string (list float)) (key : string) (v : float) :
  append_to H (key, v) !! key = (λ h, h ++ [v]) <$> H !! key.
Proof. unfold append_to. apply lookup_alter_eq. Qed.

Lemma bind_history_append {B} (key : string) (v : float) (k : unit → M B) (w : World) h :
  metric_history (self w) !! key = Some h →
  bind (history_append key v) k w
  = k tt (with_self (set_metric_history (append_to (metric_history (self w)) (key, v)) (self w)) w).
Proof. intros Hh. unfold bind. rewrite (history_append_spec _ _ _ _ Hh). reflexivity. Qed.

(** Lines 201-210 on a history that has the ten keys. *)
Lemma append_metrics_spec (m : EpochMetrics) (w : World) :
  Forall (λ key, is_Some (metric_history (self w) !! key)) tracked_keys →
  append_metrics m w
  = (with_self (set_metric_history (foldl append_to (metric_history (self w)) (appended m))
                  (self w)) w,
     Ok tt).
Proof.
  intros Hkeys. unfold tracked_keys in Hkeys. rewrite !Forall_cons in Hkeys.
  destruct Hkeys as ([h0 H0] & [h1 H1] & [h2 H2] & [h3 H3] & [h4 H4] & [h5 H5] & [h6 H6]
                     & [h7 H7] & [h8 H8] & [h9 H9] & _).
  unfold append_metrics.
  erewrite bind_history_append by exact H0.
  erewrite bind_history_append
    by (simpl; rewrite !lookup_append_to_ne by (simpl; congruence); exact H1).
  erewrite bind_history_append
    by (simpl; rewrite !lookup_append_to_ne by (simpl; congruence); exact H2).
  erewrite bind_history_append
    by (simpl; rewrite !lookup_append_to_ne by (simpl; congruence); exact H3).
  erewrite bind_history_append
    by (simpl; rewrite !lookup_append_to_ne by (simpl; congruence); exact H4).
  erewrite bind_history_append
    by (simpl; rewrite !lookup_append_to_ne by (simpl; congruence); exact H5).
  erewrite bind_history_append
    by (simpl; rewrite !lookup_append_to_ne by (simpl; congruence); exact H6).
  erewrite bind_history_append
    by (simpl; rewrite !lookup_append_to_ne by (simpl; congruence); exact H7).
  erewrite bind_history_append
    by (simpl; rewrite !lookup_append_to_ne by (simpl; congruence); exact H8).
  erewrite history_append_spec
    by (simpl; rewrite !lookup_append_to_ne by (simpl; congruence); exact H9).
  reflexivity.
Qed.

Lemma lookup_foldl_append_to_notin (kvs : list (string * float)) H (key : string) :
  key ∉ kvs.*1 → foldl append_to H kvs !! key = H !! key.
Proof.
  revert H. induction kvs as [| kv kvs IH]; intros H Hnotin; simpl; [reflexivity |].
  rewrite fmap_cons, not_elem_of_cons in Hnotin. destruct Hnotin as [Hne Hnotin].
  rewrite IH by exact Hnotin. apply lookup_append_to_ne. congruence.
Qed.

Lemma lookup_foldl_append_to_in (kvs : list (string * float)) H (key : string) (v : float) :
  NoDup kvs.*1 → (key, v) ∈ kvs →
  foldl append_to H kvs !! key = (λ h, h ++ [v]) <$> H !! key.
Proof.
  revert H. induction kvs as [| kv kvs IH]; intros H Hnodup Hin; simpl.
  - inversion Hin.
  - rewrite fmap_cons, NoDup_cons in Hnodup. destruct Hnodup as [Hfresh Hnodup].
    apply elem_of_cons in Hin as [<- | Hin].
    + rewrite lookup_foldl_append_to_notin by exact Hfresh. apply lookup_append_to_eq.
    + rewrite IH by assumption. rewrite lookup_append_to_ne; [reflexivity |].
      intros Heq. apply Hfresh. rewrite Heq.
      apply (list_elem_of_fmap_2 fst) in Hin. exact Hin.
Qed.

Lemma tracked_keys_NoDup : NoDup tracked_keys.
Proof. apply (bool_decide_unpack _). vm_compute. exact I. Qed.

Lemma appended_keys (m : EpochMetrics) : (appended m).*1 = tracked_keys.
Proof. reflexivity. Qed.

Lemma history_lengths_keys (n : nat) (s : Classifier) :
  history_lengths n s → Forall (λ key, is_Some (metric_history s !! key)) tracked_keys.
Proof. intros H. eapply Forall_impl; [exact H |]. intros key (h & Hh & _). eauto. Qed.

(** Lines 201-210 append exactly one value to each of the ten histories and
    touch nothing else. *)
Lemma append_metrics_appends (m : EpochMetrics) (w : World) :
  Forall (λ key, is_Some (metric_history (self w) !! key)) tracked_keys →
  ∃ H', append_metrics m w = (with_self (set_metric_history H' (self w)) w, Ok tt)
        ∧ appended_once m (self w) (set_metric_history H' (self w)).
Proof.
  intros Hkeys. eexists. split; [apply append_metrics_spec, Hkeys |].
  unfold appended_once. apply Forall_forall. intros [key v] Hin. cbn [fst snd].
  assert (Hkey : key ∈ tracked_keys).
  { rewrite <- (appended_keys m). apply (list_elem_of_fmap_2 fst) in Hin. exact Hin. }
  rewrite Forall_forall in Hkeys. destruct (Hkeys key Hkey) as [h Hh].
  exists h. split; [exact Hh |]. unfold set_metric_history. cbn [metric_history].
  rewrite (lookup_foldl_append_to_in _ _ key v); [rewrite Hh; reflexivity | | exact Hin].
  rewrite appended_keys. apply tracked_keys_NoDup.
Qed.

Lemma appended_once_lengths (m : EpochMetrics) (s s' : Classifier) (n : nat) :
  appended_once m s s' → history_lengths n s → history_lengths (S n) s'.
Proof.
  unfold appended_once, history_lengths. rewrite <- (appended_keys m).
  rewrite !Forall_fmap. intros Happ Hlen.
  eapply Forall_impl; [apply Forall_and; split; [exact Happ | exact Hlen] |].
  intros [key v]. simpl. intros [(h & Hh & Hh') (h0 & Hh0 & Hlen0)].
  exists (h ++ [v]). split; [exact Hh' |].
  rewrite Hh in Hh0. injection Hh0 as ->. rewrite length_app. simpl. lia.
Qed.

Lemma plot_curve_spec (epoch : Z) (key : string) (w : World) :
  plot_curve epoch key w = (w, curve epoch key (self w)).
Proof.
  unfold plot_curve, curve, py_getitem. run_monad.
  destruct (metric_history (self w) !! key) as [ys |]; simpl; [| reflexivity].
  destruct (Z.of_nat (length ys) =? epoch + 1); reflexivity.
Qed.

Lemma plot_metric_spec (epoch : Z) (metric_name : string) (w : World) :
  plot_metric epoch metric_name tt w
  = match curve epoch ("train_" +:+ metric_name) (self w) with
    | Raise e => (w, Raise e)
    | Ok tr =>
        match curve epoch ("val_" +:+ metric_name) (self w) with
        | Raise e => (w, Raise e)
        | Ok va =>
            (with_disk (<[figure_path metric_name := FigureFile tr va]> (disk w)) w, Ok tt)
        end
    end.
Proof.
  unfold plot_metric, bind. rewrite plot_curve_spec.
  destruct (curve epoch ("train_" +:+ metric_name) (self w)) as [tr | e]; [| reflexivity].
  rewrite plot_curve_spec.
  destruct (curve epoch ("val_" +:+ metric_name) (self w)) as [va | e]; reflexivity.
Qed.

(** Plotting succeeds exactly when every curve has [epoch + 1] points; it
    writes the figures and nothing else. *)
Lemma plots_succeed (names : list string) (epoch : Z) (w : World) :
  Forall (curves_fit epoch (self w)) names →
  ∃ d', for_each names (plot_metric epoch) tt w = (with_disk d' w, Ok tt)
        ∧ ∀ path, path ∉ figure_path <$> names → d' !! path = disk w !! path.
Proof.
  revert w. induction names as [| name names IH]; intros w Hfit; simpl.
  - exists (disk w). split; [destruct w; reflexivity | reflexivity].
  - rewrite Forall_cons in Hfit. destruct Hfit as [[Htr Hva] Hfit].
    unfold bind. rewrite plot_metric_spec.
    destruct (curve epoch ("train_" +:+ name) (self w)) as [tr |]; [| discriminate].
    destruct (curve epoch ("val_" +:+ name) (self w)) as [va |]; [| discriminate].
    destruct (IH (with_disk (<[figure_path name := FigureFile tr va]> (disk w)) w) Hfit)
      as (d' & Hrun & Hframe).
    exists d'. split; [exact Hrun |].
    intros path Hpath. rewrite not_elem_of_cons in Hpath. destruct Hpath as [Hne Hpath].
    rewrite (Hframe path Hpath). simpl. apply lookup_insert_ne. congruence.
Qed.

Lemma plots_succeeded (names : list string) (epoch : Z) (w w' : World) (u : unit) :
  for_each names (plot_metric epoch) tt w = (w', Ok u) →
  Forall (curves_fit epoch (self w)) names ∧ self w' = self w.
Proof.
  revert w. induction names as [| name names IH]; intros w; simpl.
  - intros [= <- _]. split; [constructor | reflexivity].
  - unfold bind. rewrite plot_metric_spec. unfold curves_fit at 1.
    destruct (curve epoch ("train_" +:+ name) (self w)) as [tr |] eqn:Htr; [| discriminate].
    destruct (curve epoch ("val_" +:+ name) (self w)) as [va |] eqn:Hva; [| discriminate].
    destruct u. intros Hrun. apply IH in Hrun as [Hfit Hself]. simpl in *.
    split; [| exact Hself].
    constructor; [unfold curves_fit; rewrite Htr, Hva; split; reflexivity | exact Hfit].
Qed.

Lemma curve_fits (epoch : Z) (key : string) (s : Classifier) :
  is_ok (curve epoch key s) = true
  ↔ ∃ h, metric_history s !! key = Some h ∧ Z.of_nat (length h) = epoch + 1.
Proof.
  unfold curve. destruct (metric_history s !! key) as [ys |]; simpl.
  - destruct (Z.eqb_spec (Z.of_nat (length ys)) (epoch + 1)) as [Heq | Hne]; simpl.
    + split; [eauto | reflexivity].
    + split; [discriminate | intros (h & [= <-] & Hlen); contradiction].
  - split; [discriminate | intros (h & Hh & _); discriminate].
Qed.

(** The five figures use the ten tracked histories. *)
Lemma curves_fit_tracked (epoch : Z) (s : Classifier) :
  Forall (curves_fit epoch s) metric_names
  ↔ Forall (λ key, ∃ h, metric_history s !! key = Some h ∧ Z.of_nat (length h) = epoch + 1)
           tracked_keys.
Proof.
  unfold metric_names, tracked_keys, curves_fit. rewrite !Forall_cons, !Forall_nil.
  cbn [String.append]. rewrite !curve_fits. tauto.
Qed.

Lemma history_lengths_fit (n : nat) (s : Classifier) :
  history_lengths (S n) s ↔ Forall (curves_fit (Z.of_nat n) s) metric_names.
Proof.
  rewrite curves_fit_tracked. unfold history_lengths.
  apply Forall_iff. intros key. split; intros (h & Hh & Hlen); exists h; (split; [exact Hh | lia]).
Qed.

(** Lines 226-235 in closed form. *)
Lemma checkpoint_or_stop_spec (loss : float) (w : World) :
  checkpoint_or_stop loss w
  = let s := self w in
    if PrimFloat.ltb loss (best_val_loss s) then
      (with_disk (<["best_model.pth" := CheckpointFile (state_dict (medclip_model s))]> (disk w))
         (with_self (set_early_stopping_counter 0 (set_best_val_loss loss s)) w),
       Ok Continue)
    else if early_stopping_counter s + 1 =? early_stopping_patience s then
      (with_self (set_early_stop true
                    (set_early_stopping_counter (early_stopping_counter s + 1) s)) w,
       Ok Break)
    else
      (with_self (set_early_stopping_counter (early_stopping_counter s + 1) s) w, Ok Continue).
Proof.
  unfold checkpoint_or_stop. run_monad.
  destruct (PrimFloat.ltb loss (best_val_loss (self w))); simpl; [reflexivity |].
  destruct (early_stopping_counter (self w) + 1 =? early_stopping_patience (self w));
    reflexivity.
Qed.

Lemma history_append_returned (key : string) (v : float) (w w' : World) (u : unit) :
  history_append key v w = (w', Ok u) → is_Some (metric_history (self w) !! key).
Proof.
  unfold history_append, py_getitem. run_monad.
  destruct (metric_history (self w) !! key); [eauto | discriminate].
Qed.

Lemma bind_history_append_returned {B} (key : string) (v : float) (k : unit → M B)
  (w w' : World) (b : B) :
  bind (history_append key v) k w = (w', Ok b) →
  is_Some (metric_history (self w) !! key)
  ∧ k tt (with_self (set_metric_history (append_to (metric_history (self w)) (key, v)) (self w)) w)
    = (w', Ok b).
Proof.
  intros Hrun.
  assert (Hkey : is_Some (metric_history (self w) !! key)).
  { unfold bind in Hrun.
    destruct (history_append key v w) as [w1 [[] | e]] eqn:Happ; [| discriminate].
    exact (history_append_returned _ _ _ _ _ Happ). }
  split; [exact Hkey |]. destruct Hkey as [h Hh].
  rewrite (bind_history_append _ _ _ _ _ Hh) in Hrun. exact Hrun.
Qed.

(** Lines 201-210 raise [KeyError] unless the ten keys are there. *)
Lemma append_metrics_returned (m : EpochMetrics) (w w' : World) (u : unit) :
  append_metrics m w = (w', Ok u) →
  Forall (λ key, is_Some (metric_history (self w) !! key)) tracked_keys.
Proof.
  unfold append_metrics. intros Hrun.
  apply bind_history_append_returned in Hrun as [H0 Hrun].
  apply bind_history_append_returned in Hrun as [H1 Hrun].
  apply bind_history_append_returned in Hrun as [H2 Hrun].
  apply bind_history_append_returned in Hrun as [H3 Hrun].
  apply bind_history_append_returned in Hrun as [H4 Hrun].
  apply bind_history_append_returned in Hrun as [H5 Hrun].
  apply bind_history_append_returned in Hrun as [H6 Hrun].
  apply bind_history_append_returned in Hrun as [H7 Hrun].
  apply bind_history_append_returned in Hrun as [H8 Hrun].
  apply history_append_returned in Hrun as H9.
  cbn [self with_self metric_history set_metric_history] in *.
  rewrite !lookup_append_to_ne in * by (simpl; congruence).
  unfold tracked_keys. repeat (constructor; [assumption |]). constructor.
Qed.

Lemma history_lengths_same (n : nat) (s s' : Classifier) :
  metric_history s' = metric_history s → history_lengths n s → history_lengths n s'.
Proof. unfold history_lengths. intros ->. auto. Qed.

Lemma appended_once_same (m : EpochMetrics) (s s1 s2 : Classifier) :
  metric_history s2 = metric_history s1 → appended_once m s s1 → appended_once m s s2.
Proof. unfold appended_once. intros ->. auto. Qed.

Lemma checkpoint_or_stop_step (loss : float) (w : World) :
  ∃ w' f, checkpoint_or_stop loss w = (w', Ok f)
          ∧ metric_history (self w') = metric_history (self w)
          ∧ early_stopping_patience (self w') = early_stopping_patience (self w)
          ∧ medical_type (self w') = medical_type (self w)
          ∧ medclip_model (self w') = medclip_model (self w)
          ∧ (∀ path, path ≠ "best_model.pth" → disk w' !! path = disk w !! path)
          ∧ (PrimFloat.ltb loss (best_val_loss (self w)) = true →
             disk w' !! "best_model.pth"
             = Some (CheckpointFile (state_dict (medclip_model (self w)))))
          ∧ stopping_step loss (self w) (self w') f.
Proof.
  rewrite checkpoint_or_stop_spec. unfold stopping_step. cbv zeta.
  destruct (PrimFloat.ltb loss (best_val_loss (self w))) eqn:Hlt.
  - eexists _, _. split; [reflexivity |]. simpl.
    do 4 (split; [reflexivity |]).
    split; [intros path Hne; apply lookup_insert_ne; congruence |].
    split; [intros _; apply lookup_insert_eq |].
    repeat split; reflexivity.
  - destruct (early_stopping_counter (self w) + 1 =? early_stopping_patience (self w)) eqn:Hp.
    + eexists _, _. split; [reflexivity |]. simpl.
      do 4 (split; [reflexivity |]).
      split; [intros path Hne; reflexivity |].
      split; [discriminate |].
      repeat split; reflexivity.
    + eexists _, _. split; [reflexivity |]. simpl.
      do 4 (split; [reflexivity |]).
      split; [intros path Hne; reflexivity |].
      split; [discriminate |].
      repeat split; reflexivity.
Qed.

(** Lines 201-235 at epoch [k] of a run, that is on histories of length
    [k]: they return. *)
Lemma epoch_bookkeeping_step (k : nat) (m : EpochMetrics) (w : World) :
  history_lengths k (self w) →
  ∃ w' f, epoch_bookkeeping (Z.of_nat k) m w = (w', Ok f)
          ∧ history_lengths (S k) (self w')
          ∧ appended_once m (self w) (self w')
          ∧ epoch_frame w w'
          ∧ (PrimFloat.ltb (avg_validation_loss m) (best_val_loss (self w)) = true →
             disk w' !! "best_model.pth"
             = Some (CheckpointFile (state_dict (medclip_model (self w)))))
          ∧ stopping_step (avg_validation_loss m) (self w) (self w') f.
Proof.
  intros Hlen.
  destruct (append_metrics_appends m w (history_lengths_keys _ _ Hlen)) as (H1 & Happ & Honce).
  pose proof (appended_once_lengths _ _ _ _ Honce Hlen) as Hlen1.
  set (w1 := with_self (set_metric_history H1 (self w)) w) in *.
  destruct (plots_succeed metric_names (Z.of_nat k) w1) as (d' & Hplot & Hdisk).
  { apply history_lengths_fit. exact Hlen1. }
  destruct (checkpoint_or_stop_step (avg_validation_loss m) (with_disk d' w1))
    as (w' & f & Hstop & Hhist & Hpat & Hmt & Hmodel & Hdisk' & Hsaved & Hstep).
  exists w', f.
  split.
  { unfold epoch_bookkeeping, plot_metrics, bind. rewrite Happ. cbv beta iota.
    fold w1 metric_names. rewrite Hplot. exact Hstop. }
  split; [exact (history_lengths_same _ _ _ Hhist Hlen1) |].
  split; [exact (appended_once_same _ _ _ _ Hhist Honce) |].
  split; [| split; [exact Hsaved | exact Hstep]].
  unfold epoch_frame. split; [exact Hpat |]. split; [exact Hmt |]. split; [exact Hmodel |].
  intros path Hfig Hne. rewrite (Hdisk' path Hne). simpl. exact (Hdisk path Hfig).
Qed.

(** Lines 201-235 at any epoch: if they return, every tracked history has
    gained one value and has [epoch + 1] values. *)
Lemma epoch_bookkeeping_returned (epoch : Z) (m : EpochMetrics) (w w' : World) (f : flow) :
  epoch_bookkeeping epoch m w = (w', Ok f) →
  appended_once m (self w) (self w')
  ∧ Forall (λ key, ∃ h, metric_history (self w') !! key = Some h
                        ∧ Z.of_nat (length h) = epoch + 1) tracked_keys.
Proof.
  unfold epoch_bookkeeping, plot_metrics, bind. fold metric_names.
  destruct (append_metrics m w) as [w1 [[] | e]] eqn:Happ; [| discriminate].
  pose proof (append_metrics_returned _ _ _ _ Happ) as Hkeys.
  destruct (append_metrics_appends m w Hkeys) as (H1 & Happ' & Honce).
  rewrite Happ' in Happ. injection Happ as <-.
  destruct (for_each metric_names (plot_metric epoch) tt
              (with_self (set_metric_history H1 (self w)) w))
    as [w2 [[] | e]] eqn:Hplot; [| discriminate].
  apply plots_succeeded in Hplot as [Hfit Hself].
  intros Hstop.
  destruct (checkpoint_or_stop_step (avg_validation_loss m) w2)
    as (w3 & f3 & Hstop3 & Hhist & _).
  rewrite Hstop3 in Hstop. injection Hstop as <- <-.
  rewrite Hself in Hhist. split.
  - exact (appended_once_same _ _ _ _ Hhist Honce).
  - apply curves_fit_tracked in Hfit. rewrite Hhist. exact Hfit.
Qed.

(** *** The epoch loop, for any sweeps

    Lines 148 and 201-235 are studied for sweeps (lines 149-200) that are a
    parameter: [sweeps_measure sweeps ms] says that the sweeps of epoch [e]
    return the measurements [ms !! e] and leave the histories, the
    early-stopping state and the disk alone. *)

Lemma epoch_frame_refl (w : World) : epoch_frame w w.
Proof. unfold epoch_frame. auto. Qed.

Lemma epoch_frame_trans (w1 w2 w3 : World) :
  epoch_frame w1 w2 → epoch_frame w2 w3 → epoch_frame w1 w3.
Proof.
  intros (Hp & Hm & Hmod & Hd) (Hp' & Hm' & Hmod' & Hd').
  unfold epoch_frame. rewrite Hp', Hm', Hmod'. repeat split; try assumption.
  intros path Hfig Hne. rewrite (Hd' path Hfig Hne). exact (Hd path Hfig Hne).
Qed.

Lemma loop_frame_refl (w : World) : loop_frame w w.
Proof. unfold loop_frame. auto. Qed.

Lemma loop_frame_trans (w1 w2 w3 : World) :
  loop_frame w1 w2 → loop_frame w2 w3 → loop_frame w1 w3.
Proof.
  intros (Hp & Hm & Hd) (Hp' & Hm' & Hd').
  unfold loop_frame. rewrite Hp', Hm'. repeat split; try assumption.
  intros path Hfig Hne. rewrite (Hd' path Hfig Hne). exact (Hd path Hfig Hne).
Qed.

Lemma count_up_S (k : nat) (n : nat) :
  count_up (Z.of_nat k) (S n) = Z.of_nat k :: count_up (Z.of_nat (S k)) n.
Proof. simpl. do 2 f_equal. lia. Qed.

Lemma for_break_cons {A S} (x : A) (xs : list A) (body : A → S → M (flow * S)) (s : S)
  (w w' : World) (f : flow) (s' : S) :
  body x s w = (w', Ok (f, s')) →
  for_break (x :: xs) body s w
  = match f with Break => (w', Ok s') | Continue => for_break xs body s' w' end.
Proof. intros Hbody. simpl. unfold bind. rewrite Hbody. destruct f; reflexivity. Qed.

(** Unless the loop breaks, the stop flag keeps its value; it breaks exactly
    when it sets the flag. *)
Lemma stopping_step_flag (loss : float) (s s' : Classifier) (f : flow) :
  stopping_step loss s s' f → early_stop s = false →
  (f = Break ∧ early_stop s' = true) ∨ (f = Continue ∧ early_stop s' = false).
Proof.
  unfold stopping_step. intros Hstep Hflag.
  destruct (PrimFloat.ltb loss (best_val_loss s)).
  - destruct Hstep as (_ & _ & Hsame & ->). right. split; [reflexivity | congruence].
  - destruct Hstep as (_ & _ & Hstep).
    destruct (early_stopping_counter s + 1 =? early_stopping_patience s).
    + destruct Hstep as [-> ->]. left. split; reflexivity.
    + destruct Hstep as [Hsame ->]. right. split; [reflexivity | congruence].
Qed.

Lemma stopping_step_break (loss : float) (s s' : Classifier) :
  stopping_step loss s s' Break → early_stop s' = true.
Proof.
  unfold stopping_step. destruct (PrimFloat.ltb loss (best_val_loss s)).
  - intros (_ & _ & _ & [=]).
  - intros (_ & _ & Hstep).
    destruct (early_stopping_counter s + 1 =? early_stopping_patience s).
    + destruct Hstep as [Hset _]. exact Hset.
    + destruct Hstep as [_ [=]].
Qed.


(** The header of line 148. *)
Lemma epochs_loop_spec (sweeps : Z → Texts → M (Texts * EpochMetrics)) (w : World) :
  epochs_loop sweeps w
  = for_break (count_up (Z.of_nat 0) (Z.to_nat (epochs (self w)))) (epoch_body sweeps) None w.
Proof. reflexivity. Qed.


Lemma train_validate_with_loop (sweeps : Z → Texts → M (Texts * EpochMetrics)) (w : World) :
  train_validate_with sweeps w
  = match epochs_loop sweeps w with
    | (w1, Ok _) => reload_checkpoint (model_save_path (self w)) w1
    | (w1, Raise e) => (w1, Raise e)
    end.
Proof. reflexivity. Qed.

(** [train_validate] is the instance whose sweeps are lines 149-200. *)
Lemma train_validate_instance train_loader validation_loader steps categories :
  train_validate train_loader validation_loader steps categories
  = train_validate_with (λ _, epoch_passes train_loader validation_loader steps categories).
Proof. reflexivity. Qed.

(** Lines 149-200 as they are satisfy the frame asked of the sweeps: they
    stop at [range()], having changed the training mode of the model only. *)
Lemma epoch_passes_frame train_loader validation_loader steps categories texts (w : World) :
  bookkeeping_frame w
    (fst (epoch_passes train_loader validation_loader steps categories texts w)).
Proof. unfold bookkeeping_frame. repeat split; reflexivity. Qed.

Section EpochLoop.
Variable sweeps : Z → Texts → M (Texts * EpochMetrics).
Variable ms : list EpochMetrics.
Hypothesis Hsweeps : sweeps_measure sweeps ms.

(** One iteration of the loop at epoch [k] of a run. *)
Lemma epoch_step (k : nat) (m : EpochMetrics) (texts : Texts) (w : World) :
  ms !! k = Some m → history_lengths k (self w) →
  ∃ w' f texts', epoch_body sweeps (Z.of_nat k) texts w = (w', Ok (f, texts'))
                 ∧ history_lengths (S k) (self w')
                 ∧ appended_once m (self w) (self w')
                 ∧ loop_frame w w'
                 ∧ stopping_step (avg_validation_loss m) (self w) (self w') f.
Proof.
  intros Hm Hlen.
  destruct (Hsweeps k m texts w Hm)
    as (w0 & texts' & Hsweep & Hhist & Hpat & Hcount & Hbest & Hflag & Hmt & Hdisk).
  pose proof (history_lengths_same _ _ _ Hhist Hlen) as Hlen0.
  destruct (epoch_bookkeeping_step k m w0 Hlen0)
    as (w' & f & Hrun & Hlen' & Honce & (Hp & Hm' & _ & Hd) & _ & Hstep).
  exists w', f, texts'. split.
  { unfold epoch_body, bind. rewrite Hsweep. cbn [fst snd]. rewrite Hrun. reflexivity. }
  split; [exact Hlen' |]. split.
  { unfold appended_once in *. rewrite Hhist in Honce. exact Honce. }
  split.
  { unfold loop_frame. rewrite Hp, Hm', Hpat, Hmt.
    split; [reflexivity |]. split; [reflexivity |].
    intros path Hfig Hne. rewrite (Hd path Hfig Hne), Hdisk. reflexivity. }
  unfold stopping_step in *. rewrite Hbest, Hcount, Hpat, Hflag in Hstep. exact Hstep.
Qed.

(** From histories of length [k], the loop over the epochs [k .. k+n-1]
    returns, after some [j ≤ n] epochs; it has run them all unless the stop
    flag is set. *)
Lemma loop_runs (n : nat) :
  ∀ (k : nat) (texts : Texts) (w : World),
    history_lengths k (self w) → (k + n ≤ length ms)%nat →
    ∃ w' texts' j, (j ≤ n)%nat
            ∧ for_break (count_up (Z.of_nat k) n) (epoch_body sweeps) texts w
              = (w', Ok texts')
            ∧ history_lengths (k + j) (self w')
            ∧ loop_frame w w'
            ∧ (j = n ∨ early_stop (self w') = true).
Proof.
  induction n as [| n IH]; intros k texts w Hlen Hbound.
  - exists w, texts, 0%nat. rewrite Nat.add_0_r.
    split; [lia | split; [reflexivity | split; [exact Hlen |]]].
    split; [apply loop_frame_refl | left; reflexivity].
  - destruct (lookup_lt_is_Some_2 ms k) as [m Hm]; [lia |].
    destruct (epoch_step k m texts w Hm Hlen)
      as (w1 & f & t1 & Hbody & Hlen1 & _ & Hframe & Hstep).
    rewrite count_up_S, (for_break_cons _ _ _ _ _ _ _ _ Hbody).
    destruct f.
    + destruct (IH (S k) t1 w1 Hlen1) as (w' & t' & j & Hj & Hrun & Hlen' & Hframe' & Hend);
        [lia |].
      exists w', t', (S j). split; [lia |]. split; [exact Hrun |].
      split; [replace (k + S j)%nat with (S k + j)%nat by lia; exact Hlen' |].
      split; [exact (loop_frame_trans _ _ _ Hframe Hframe') |].
      destruct Hend as [-> | Hset]; [left; reflexivity | right; exact Hset].
    + exists w1, t1, 1%nat. split; [lia |]. split; [reflexivity |].
      split; [replace (k + 1)%nat with (S k) by lia; exact Hlen1 |].
      split; [exact Hframe | right; exact (stopping_step_break _ _ _ Hstep)].
Qed.






End EpochLoop.

Lemma init_history_lengths (medical_type : string) (epochs : Z) (cuda_available : bool) :
  history_lengths 0 (init medical_type epochs cuda_available).
Proof.
  unfold history_lengths, tracked_keys.
  repeat (constructor; [exists []; split; [vm_compute; reflexivity | reflexivity] |]).
  constructor.
Qed.

(** C8.  A classifier starts with the ten tracked keys and empty histories.
    In every epoch whose bookkeeping is reached and returns, each of the ten
    histories gains exactly one value, at its end, and then has [epoch + 1]
    values (epochs counted from 0).  And in the loop of line 148 started on
    empty histories, for any sweeps that return their measurements and leave
    the histories and the early-stopping state alone, every epoch's
    bookkeeping does return: after the [e] epochs the loop executes, the ten
    histories have [e] values each, and [e] is the budget [self.epochs]
    unless the loop stopped early. *)
Theorem metric_history_grows_by_one_per_epoch :
  (∀ medical_type epochs cuda_available,
     history_lengths 0 (init medical_type epochs cuda_available))
  ∧ (∀ epoch m w w' f,
       epoch_bookkeeping epoch m w = (w', Ok f) →
       appended_once m (self w) (self w')
       ∧ Forall (λ key, ∃ h, metric_history (self w') !! key = Some h
                             ∧ Z.of_nat (length h) = epoch + 1) tracked_keys)
  ∧ (∀ sweeps ms w,
       sweeps_measure sweeps ms →
       (Z.to_nat (epochs (self w)) ≤ length ms)%nat →
       history_lengths 0 (self w) →
       ∃ w' texts e, epochs_loop sweeps w = (w', Ok texts)
                     ∧ (e ≤ Z.to_nat (epochs (self w)))%nat
                     ∧ history_lengths e (self w')
                     ∧ (e = Z.to_nat (epochs (self w)) ∨ early_stop (self w') = true)).
Proof.
  split; [exact init_history_lengths |].
  split; [exact epoch_bookkeeping_returned |].
  intros sweeps ms w Hsweeps Hbudget Hlen.
  destruct (loop_runs sweeps ms Hsweeps (Z.to_nat (epochs (self w))) 0 None w Hlen ltac:(lia))
    as (w' & texts & e & He & Hrun & Hlen' & _ & Hend).
  exists w', texts, e. rewrite epochs_loop_spec.
  split; [exact Hrun |]. split; [exact He |]. split; [exact Hlen' | exact Hend].
Qed.


(** *** The checkpoint that is written and the checkpoint that is read *)

Lemma model_save_path_not_written (s : Classifier) :
  (model_save_path s ∉ figure_path <$> metric_names)
  ∧ model_save_path s ≠ "best_model.pth".
Proof.
  unfold model_save_path, metric_names, figure_path. cbn [String.append fmap list_fmap].
  split; [| discriminate].
  rewrite !not_elem_of_cons. repeat (split; [discriminate |]). apply not_elem_of_nil.
Qed.

Lemma torch_load_world (path : string) (w : World) : fst (torch_load path w) = w.
Proof. unfold torch_load. destruct (disk w !! path) as [[] |]; reflexivity. Qed.

(** Line 236 in closed form. *)
Lemma reload_checkpoint_spec (path : string) (w : World) :
  reload_checkpoint path w
  = match disk w !! path with
    | None => (w, Raise FileNotFoundError)
    | Some (CheckpointFile sd) =>
        (with_self (set_medclip_model (fst (load_state_dict (medclip_model (self w)) sd))
                      (self w)) w,
         snd (load_state_dict (medclip_model (self w)) sd))
    | Some _ => (w, Raise UnpicklingError)
    end.
Proof.
  unfold reload_checkpoint, torch_load. run_monad.
  destruct (disk w !! path) as [[sd | |] |]; simpl; reflexivity.
Qed.

(** [train_validate] by cases on the epoch budget. *)
Lemma train_validate_spec train_loader validation_loader steps categories w :
  train_validate train_loader validation_loader steps categories w
  = if 0 <? epochs (self w)
    then (with_self (set_medclip_model (set_training true (medclip_model (self w))) (self w)) w,
          Raise TypeError)
    else reload_checkpoint (model_save_path (self w)) w.
Proof.
  unfold train_validate, epoch_loop. run_monad.
  destruct (Z.ltb_spec 0 (epochs (self w))) as [Hpos | Hnone].
  - destruct (Z.to_nat (epochs (self w))) as [| n] eqn:Hn; [lia |].
    simpl. unfold bind, epoch_body, epoch_passes, training_pass. run_monad. reflexivity.
  - replace (Z.to_nat (epochs (self w))) with 0%nat by lia. reflexivity.
Qed.

(** What lines 201-235 write: the figures and 'best_model.pth'. *)
Lemma epoch_bookkeeping_writes (path : string) (v : option file) (mt : string)
  (epoch : Z) (m : EpochMetrics) :
  path ∉ figure_path <$> metric_names → path ≠ "best_model.pth" →
  preserves (λ s d, medical_type s = mt ∧ d !! path = v) (epoch_bookkeeping epoch m).
Proof.
  intros Hfig Hne. unfold epoch_bookkeeping.
  apply preserves_bind; [| intros _; apply preserves_bind; [| intros _]].
  - unfold append_metrics.
    repeat (apply preserves_bind; [| intros _]);
      (intros w Hw; unfold history_append, py_getitem; run_monad;
       destruct (metric_history (self w) !! _); exact Hw).
  - unfold plot_metrics. fold metric_names. revert Hfig.
    generalize metric_names. intros names Hfig.
    induction names as [| name names IH]; simpl.
    + apply preserves_pure. reflexivity.
    + rewrite fmap_cons, not_elem_of_cons in Hfig. destruct Hfig as [Hname Hfig].
      apply preserves_bind; [| intros []; exact (IH Hfig)].
      intros w Hw. rewrite plot_metric_spec.
      destruct (curve epoch _ (self w)); [| exact Hw].
      destruct (curve epoch _ (self w)); [| exact Hw].
      destruct Hw as [Htype Hfile]. split; [exact Htype |].
      simpl. rewrite lookup_insert_ne by congruence. exact Hfile.
  - intros w Hw. rewrite checkpoint_or_stop_spec. cbv zeta.
    destruct (PrimFloat.ltb _ _); simpl.
    + destruct Hw as [Htype Hfile]. split; [exact Htype |].
      rewrite lookup_insert_ne by congruence. exact Hfile.
    + destruct (_ =? _); exact Hw.
Qed.

(** C1, what the code does.  An epoch that improves on the best validation
    loss saves the model to the literal 'best_model.pth' (line 228); the
    bookkeeping of an epoch, whether it returns or raises, writes nothing at
    [model_save_path].  Line 236 loads [model_save_path].  So
    [train_validate] with no epoch to run is that load alone: it raises
    [FileNotFoundError] when nothing is at [model_save_path], whatever has
    been saved at 'best_model.pth'; and for any sweeps that leave the disk
    alone, the file the loop of line 148 leaves at [model_save_path], which
    line 236 then loads, is the one that was there before the run. *)
Theorem reload_reads_what_the_run_never_writes :
  (∀ loss w,
     PrimFloat.ltb loss (best_val_loss (self w)) = true →
     disk (fst (checkpoint_or_stop loss w)) !! "best_model.pth"
     = Some (CheckpointFile (state_dict (medclip_model (self w)))))
  ∧ (∀ epoch m w,
       model_save_path (self (fst (epoch_bookkeeping epoch m w))) = model_save_path (self w)
       ∧ disk (fst (epoch_bookkeeping epoch m w)) !! model_save_path (self w)
         = disk w !! model_save_path (self w))
  ∧ (∀ train_loader validation_loader steps categories w,
       epochs (self w) <= 0 →
       train_validate train_loader validation_loader steps categories w
       = reload_checkpoint (model_save_path (self w)) w
       ∧ (disk w !! model_save_path (self w) = None →
          train_validate train_loader validation_loader steps categories w
          = (w, Raise FileNotFoundError)))
  ∧ (∀ sweeps ms w,
       sweeps_measure sweeps ms →
       (Z.to_nat (epochs (self w)) ≤ length ms)%nat →
       history_lengths 0 (self w) →
       ∃ w1 texts,
         epochs_loop sweeps w = (w1, Ok texts)
         ∧ disk w1 !! model_save_path (self w) = disk w !! model_save_path (self w)
         ∧ train_validate_with sweeps w = reload_checkpoint (model_save_path (self w)) w1).
Proof.
  split; [| split; [| split]].
  - intros loss w Hbetter. rewrite checkpoint_or_stop_spec. cbv zeta. rewrite Hbetter.
    simpl. apply lookup_insert_eq.
  - intros epoch m w.
    destruct (model_save_path_not_written (self w)) as [Hfig Hne]. split.
    + destruct (epoch_bookkeeping_writes _ (disk w !! model_save_path (self w))
                  (medical_type (self w)) epoch m Hfig Hne w (conj eq_refl eq_refl))
        as [Htype _].
      unfold model_save_path. rewrite Htype. reflexivity.
    + exact (proj2 (epoch_bookkeeping_writes _ (disk w !! model_save_path (self w))
                      (medical_type (self w)) epoch m Hfig Hne w (conj eq_refl eq_refl))).
  - intros train_loader validation_loader steps categories w Hepochs.
    rewrite train_validate_spec.
    destruct (Z.ltb_spec 0 (epochs (self w))) as [| _]; [lia |].
    split; [reflexivity |].
    intros Hnone. rewrite reload_checkpoint_spec, Hnone. reflexivity.
  - intros sweeps ms w Hsweeps Hbudget Hlen.
    destruct (loop_runs sweeps ms Hsweeps (Z.to_nat (epochs (self w))) 0 None w Hlen
                ltac:(lia)) as (w1 & texts & e & _ & Hrun & _ & (_ & _ & Hdisk) & _).
    exists w1, texts. rewrite <- epochs_loop_spec in Hrun.
    split; [exact Hrun |].
    destruct (model_save_path_not_written (self w)) as [Hfig Hne].
    split; [exact (Hdisk _ Hfig Hne) |].
    rewrite train_validate_with_loop, Hrun. reflexivity.
Qed.

(** [train_validate] itself, with at least one epoch to run: the header of
    the training loop calls [range()] and the method raises [TypeError] before
    the first batch; the model has been put in training mode and nothing else
    has happened. *)
Lemma train_validate_raises_at_range train_loader validation_loader steps categories w :
  0 < epochs (self w) →
  train_validate train_loader validation_loader steps categories w
  = (with_self (set_medclip_model (set_training true (medclip_model (self w))) (self w)) w,
     Raise TypeError).
Proof.
  intros Hepochs. unfold train_validate, epoch_loop. run_monad.
  destruct (Z.to_nat (epochs (self w))) as [| n] eqn:Hn; [lia |].
  simpl. unfold bind, epoch_body, epoch_passes, training_pass. run_monad. reflexivity.
Qed.

End Orchestrator.

(** ** The epoch loop on the reference classifier *)

Lemma scripted_sweeps_measure (ms : list EpochMetrics) :
  sweeps_measure (Reference.scripted_sweeps ms) ms.
Proof.
  intros k m texts w Hm. exists w, texts.
  unfold Reference.scripted_sweeps. rewrite Nat2Z.id, Hm.
  split; [reflexivity |]. unfold bookkeeping_frame. repeat split; reflexivity.
Qed.


(** After the first epoch of a fresh classifier every history has one value;
    after the loop over a budget of three epochs, three. *)
Lemma metric_history_grows_by_one_per_epoch_witness :
  Forall (λ key, ∃ h, metric_history
                        (self (fst (epoch_bookkeeping 0 (Reference.measuring 0.5)
                                      (Reference.fresh true)))) !! key = Some h
                      ∧ Z.of_nat (length h) = 0 + 1) tracked_keys
  ∧ ∃ w' texts e,
      epochs_loop (Reference.scripted_sweeps
                     [Reference.measuring 0.75; Reference.measuring 0.5;
                      Reference.measuring 0.25]) (Reference.fresh true) = (w', Ok texts)
      ∧ history_lengths e (self w')
      ∧ (e = 3%nat ∨ early_stop (self w') = true).
Proof.
  destruct (@metric_history_grows_by_one_per_epoch Reference.numerics Reference.libraries
              Reference.data_source) as (_ & Hepoch & Hrun).
  split.
  - destruct (epoch_bookkeeping 0 (Reference.measuring 0.5) (Reference.fresh true))
      as [w' [f | e]] eqn:Hstep.
    + exact (proj2 (Hepoch _ _ _ _ _ Hstep)).
    + apply (f_equal (λ r, is_ok (snd r))) in Hstep. vm_compute in Hstep.
      discriminate Hstep.
  - destruct (Hrun _ [Reference.measuring 0.75; Reference.measuring 0.5;
                      Reference.measuring 0.25] (Reference.fresh true)
                (scripted_sweeps_measure _))
      as (w' & texts & e & Hrun' & _ & Hlen & Hend).
    + simpl. lia.
    + apply init_history_lengths.
    + exists w', texts, e. split; [exact Hrun' | split; [exact Hlen | exact Hend]].
Defined.

(** A classifier made with [epochs=0], after an epoch's bookkeeping step has
    saved an improving model: the checkpoint is at 'best_model.pth', nothing
    is at [model_save_path], and [train_validate] raises
    [FileNotFoundError]. *)
Lemma reload_reads_what_the_run_never_writes_witness :
  is_Some (disk (fst (checkpoint_or_stop 0.5 (with_epochs 0 (Reference.fresh true))))
           !! "best_model.pth")
  ∧ train_validate 0 1 Reference.steps Reference.categories
      (fst (checkpoint_or_stop 0.5 (with_epochs 0 (Reference.fresh true))))
    = (fst (checkpoint_or_stop 0.5 (with_epochs 0 (Reference.fresh true))),
       Raise FileNotFoundError).
Proof.
  destruct (@reload_reads_what_the_run_never_writes Reference.numerics Reference.libraries
              Reference.data_source) as (Hsaved & _ & Hreload & _).
  split.
  - rewrite (Hsaved 0.5%float (with_epochs 0 (Reference.fresh true)) eq_refl). eauto.
  - assert (Hepochs : epochs (self (fst (checkpoint_or_stop 0.5
                                           (with_epochs 0 (Reference.fresh true))))) <= 0)
      by (apply Z.leb_le; vm_compute; reflexivity).
    assert (Hnone : disk (fst (checkpoint_or_stop 0.5 (with_epochs 0 (Reference.fresh true))))
                    !! model_save_path (self (fst (checkpoint_or_stop 0.5
                                                     (with_epochs 0 (Reference.fresh true)))))
                    = None) by (vm_compute; reflexivity).
    exact (proj2 (Hreload 0%nat 1%nat Reference.steps Reference.categories _ Hepochs) Hnone).
Defined.

(** The same when a checkpoint of an earlier run is at [model_save_path]: it
    is that one the model ends with, not the one just saved. *)
Lemma stale_checkpoint_is_reloaded :
  let saved := fst (checkpoint_or_stop 0.5 Reference.evaluation_only) in
  let returned := fst (train_validate 0 1 Reference.steps Reference.categories saved) in
  disk saved !! "best_model.pth"
  = Some (CheckpointFile (state_dict (medclip_model (self Reference.evaluation_only))))
  ∧ snd (train_validate 0 1 Reference.steps Reference.categories saved) = Ok tt
  ∧ t_content <$> state_dict (medclip_model (self returned)) = [100; 200; 300]
  ∧ t_content <$> state_dict (medclip_model (self Reference.evaluation_only)) = [6; 3; 4].
Proof. vm_compute. repeat split; reflexivity. Qed.

(** [train_validate] on the reference classifier, three epochs to run: it
    raises [TypeError] and no data source has been called. *)
Lemma train_validate_raises_at_range_witness :
  snd (train_validate 0 1 Reference.steps Reference.categories
         (Reference.configured true "regular_captions" 1)) = Raise TypeError
  ∧ calls (fst (train_validate 0 1 Reference.steps Reference.categories
                  (Reference.configured true "regular_captions" 1))) = [].
Proof.
  rewrite (train_validate_raises_at_range 0 1 Reference.steps Reference.categories
             (Reference.configured true "regular_captions" 1)).
  - split; reflexivity.
  - reflexivity.
Defined.

(** * Part III: further properties of the methods *)

(** ** [train_validate] and [run] as they are *)

Section WholeMethods.
Context {N : Numerics} {L : Libraries} {D : DataSource}.

(** X2.  Whatever the epoch budget, [train_validate] calls no data source
    and writes no file, and it leaves the optimizer, the histories and the
    early-stopping state alone.  With no epoch to run it is the reload of
    line 236 and nothing else. *)
Theorem train_validate_touches_no_source train_loader validation_loader steps categories w :
  calls (fst (train_validate train_loader validation_loader steps categories w)) = calls w
  ∧ sources (fst (train_validate train_loader validation_loader steps categories w)) = sources w
  ∧ disk (fst (train_validate train_loader validation_loader steps categories w)) = disk w
  ∧ set_medclip_model (medclip_model (self w))
      (self (fst (train_validate train_loader validation_loader steps categories w)))
    = self w
  ∧ (epochs (self w) <= 0 →
     train_validate train_loader validation_loader steps categories w
     = reload_checkpoint (model_save_path (self w)) w).
Proof.
  rewrite train_validate_spec.
  assert (Hself : ∀ s : Classifier, set_medclip_model (medclip_model s) s = s)
    by (intros []; reflexivity).
  destruct (Z.ltb_spec 0 (epochs (self w))) as [Hpos | Hnone].
  - simpl. split; [reflexivity |]. split; [reflexivity |]. split; [reflexivity |].
    split; [exact (Hself (self w)) | lia].
  - rewrite reload_checkpoint_spec.
    destruct (disk w !! model_save_path (self w)) as [[sd | |] |]; simpl.
    + destruct (load_state_dict (medclip_model (self w)) sd); simpl;
        (split; [reflexivity |]; split; [reflexivity |]; split; [reflexivity |];
         split; [exact (Hself (self w)) | reflexivity]).
    + split; [reflexivity |]. split; [reflexivity |]. split; [reflexivity |].
      split; [exact (Hself (self w)) | reflexivity].
    + split; [reflexivity |]. split; [reflexivity |]. split; [reflexivity |].
      split; [exact (Hself (self w)) | reflexivity].
    + split; [reflexivity |]. split; [reflexivity |]. split; [reflexivity |].
      split; [exact (Hself (self w)) | reflexivity].
Qed.

Lemma py_index_of_nat {A} (l : list A) (i : nat) :
  py_index l (Z.of_nat i)
  = match l !! i with Some a => Ok a | None => Raise IndexError end.
Proof.
  unfold py_index.
  destruct (Z.ltb_spec (Z.of_nat i) 0) as [Hneg |]; [lia |].
  destruct (Z.ltb_spec (Z.of_nat i) 0) as [Hneg |]; [lia |]. simpl.
  rewrite Nat2Z.id.
  destruct (Z.leb_spec (Z.of_nat (length l)) (Z.of_nat i)) as [Hout | Hin].
  - rewrite (lookup_ge_None_2 l i) by lia. reflexivity.
  - reflexivity.
Qed.

(** X3.  With at least one epoch to run, [run] never returns: it raises
    [AssertionError] on invalid option settings, else [IndexError] when there
    are fewer than two generators, else the [TypeError] of the training loop.
    It has then called no data source and written no file: the test set is
    never evaluated and no result is saved. *)
Theorem run_never_reaches_the_test_set generators steps option n categories w :
  0 < epochs (self w) →
  snd (run generators steps option n categories w)
  = Raise (if negb (option_settings_valid option n) then AssertionError
           else if (length generators <? 2)%nat then IndexError
           else TypeError)
  ∧ calls (fst (run generators steps option n categories w)) = calls w
  ∧ sources (fst (run generators steps option n categories w)) = sources w
  ∧ disk (fst (run generators steps option n categories w)) = disk w.
Proof.
  intros Hepochs. unfold run. run_monad.
  destruct (option_settings_valid option n); simpl; [| repeat split; reflexivity].
  rewrite (py_index_of_nat generators 0 : py_index generators 0 = _).
  rewrite (py_index_of_nat generators 1 : py_index generators 1 = _).
  destruct generators as [| g0 [| g1 generators]]; simpl; try (repeat split; reflexivity).
  rewrite train_validate_spec. simpl.
  destruct (Z.ltb_spec 0 (epochs (self w))) as [_ | Hnone]; [| lia].
  simpl. repeat split; reflexivity.
Qed.

End WholeMethods.

Lemma run_never_reaches_the_test_set_witness :
  snd (run [0; 1; 2]%nat Reference.steps "regular_captions" 1 Reference.categories
         (Reference.fresh true)) = Raise TypeError
  ∧ snd (run [0]%nat Reference.steps "regular_captions" 1 Reference.categories
           (Reference.fresh true)) = Raise IndexError
  ∧ disk (fst (run [0; 1; 2]%nat Reference.steps "regular_captions" 1 Reference.categories
                 (Reference.fresh true))) = ∅.
Proof.
  assert (Hepochs : 0 < epochs (self (Reference.fresh true))) by reflexivity.
  split; [| split].
  - exact (proj1 (run_never_reaches_the_test_set [0; 1; 2]%nat Reference.steps
                    "regular_captions" 1 Reference.categories _ Hepochs)).
  - exact (proj1 (run_never_reaches_the_test_set [0]%nat Reference.steps
                    "regular_captions" 1 Reference.categories _ Hepochs)).
  - exact (proj2 (proj2 (proj2 (run_never_reaches_the_test_set [0; 1; 2]%nat Reference.steps
                    "regular_captions" 1 Reference.categories _ Hepochs)))).
Defined.

(** ** Checkpoints: saving and reloading *)

Section Checkpoints.
Context {N : Numerics} {L : Libraries} {D : DataSource}.

Lemma tensor_copy_same_dtype (dst src : Tensor) :
  t_dtype dst = t_dtype src → tensor_copy_ dst src = src.
Proof.
  unfold tensor_copy_, tensor_float, tensor_half. intros Hsame.
  destruct src as [d c]. simpl in *. rewrite Hsame. destruct d; reflexivity.
Qed.

Lemma load_same_dtypes (ps : list Param) (sd : list Tensor) :
  Forall2 (λ p t, data_dtype p = t_dtype t) ps sd →
  data <$> zip_with parameter_load ps sd = sd
  ∧ grad <$> zip_with parameter_load ps sd = grad <$> ps
  ∧ half_layer <$> zip_with parameter_load ps sd = half_layer <$> ps.
Proof.
  induction 1 as [| p t ps sd Hdtype _ (IHd & IHg & IHh)]; [auto |].
  split; [| split].
  - simpl. f_equal; [apply tensor_copy_same_dtype, Hdtype | exact IHd].
  - simpl. f_equal. exact IHg.
  - simpl. f_equal. exact IHh.
Qed.

(** A checkpoint with one tensor per parameter: every parameter is loaded
    and [load_state_dict] returns. *)
Lemma load_state_dict_complete (model : Model) (sd : list Tensor) :
  length sd = length (parameters model) →
  load_state_dict model sd
  = (with_parameters model (zip_with parameter_load (parameters model) sd), Ok tt).
Proof.
  intros Hlen. unfold load_state_dict.
  rewrite Hlen, Nat.eqb_refl, drop_all, app_nil_r. reflexivity.
Qed.

(** What [load_state_dict] copies, whether it returns or raises: the
    parameters whose tensor the checkpoint has. *)
Lemma load_state_dict_lookup (model : Model) (sd : list Tensor) (i : nat) (p : Param) :
  parameters model !! i = Some p →
  parameters (fst (load_state_dict model sd)) !! i
  = Some (match sd !! i with Some t => parameter_load p t | None => p end).
Proof.
  intros Hp. unfold load_state_dict. simpl.
  pose proof (lookup_lt_Some _ _ _ Hp) as Hi.
  destruct (sd !! i) as [t |] eqn:Ht.
  - pose proof (lookup_lt_Some _ _ _ Ht) as Hi'.
    rewrite lookup_app_l by (rewrite length_zip_with; lia).
    rewrite lookup_zip_with, Hp. simpl. rewrite Ht. reflexivity.
  - apply lookup_ge_None in Ht.
    rewrite lookup_app_r by (rewrite length_zip_with; lia).
    rewrite length_zip_with, lookup_drop, <- Hp. f_equal. lia.
Qed.

Lemma load_state_dict_length (model : Model) (sd : list Tensor) :
  length (parameters (fst (load_state_dict model sd))) = length (parameters model).
Proof.
  unfold load_state_dict. simpl. rewrite length_app, length_zip_with, length_drop. lia.
Qed.

(** [copy_] keeps the dtype of the destination: a load, complete or partial,
    changes no dtype. *)
Lemma load_state_dict_dtypes (model : Model) (sd : list Tensor) :
  data_dtype <$> parameters (fst (load_state_dict model sd)) = data_dtype <$> parameters model
  ∧ half_layer <$> parameters (fst (load_state_dict model sd))
    = half_layer <$> parameters model.
Proof.
  split; apply list_eq; intros i; rewrite !list_lookup_fmap;
    (destruct (parameters model !! i) as [p |] eqn:Hp;
     [rewrite (load_state_dict_lookup _ sd _ _ Hp); simpl; f_equal;
      destruct (sd !! i); [| reflexivity]
     | rewrite (lookup_ge_None_2 (parameters (fst (load_state_dict model sd))) i)
         by (rewrite load_state_dict_length; apply lookup_ge_None; exact Hp);
       reflexivity]).
  - unfold data_dtype, parameter_load, tensor_copy_. simpl.
    destruct (t_dtype (data p)); reflexivity.
  - reflexivity.
Qed.

(** X4.  Line 236 on a checkpoint whose tensors have the dtypes of the
    model's parameters: the reload returns, the data of every parameter is
    then the checkpoint's, and the gradients, the training mode, the rest of
    [self], the disk and the data sources are as before. *)
Theorem reload_restores_the_checkpoint (path : string) (sd : list Tensor) (w : World) :
  disk w !! path = Some (CheckpointFile sd) →
  Forall2 (λ p t, data_dtype p = t_dtype t) (parameters (medclip_model (self w))) sd →
  ∃ w', reload_checkpoint path w = (w', Ok tt)
        ∧ state_dict (medclip_model (self w')) = sd
        ∧ grad <$> parameters (medclip_model (self w'))
          = grad <$> parameters (medclip_model (self w))
        ∧ training (medclip_model (self w')) = training (medclip_model (self w))
        ∧ set_medclip_model (medclip_model (self w)) (self w') = self w
        ∧ disk w' = disk w ∧ sources w' = sources w ∧ calls w' = calls w.
Proof.
  intros Hfile Hdtypes. rewrite reload_checkpoint_spec, Hfile.
  rewrite load_state_dict_complete by (symmetry; exact (Forall2_length _ _ _ Hdtypes)).
  destruct (load_same_dtypes _ _ Hdtypes) as (Hdata & Hgrad & _).
  eexists. split; [reflexivity |]. simpl.
  split; [exact Hdata |]. split; [exact Hgrad |]. split; [reflexivity |].
  split; [destruct (self w); reflexivity |]. repeat split; reflexivity.
Qed.


End Checkpoints.

(** The checkpoint an improving epoch saves, reloaded into the model that
    saved it. *)
Lemma reload_restores_the_checkpoint_witness :
  ∃ w', reload_checkpoint "best_model.pth"
          (fst (checkpoint_or_stop 0.5 (Reference.fresh true))) = (w', Ok tt)
        ∧ t_content <$> state_dict (medclip_model (self w')) = [6; 3; 4].
Proof.
  destruct (reload_restores_the_checkpoint "best_model.pth"
              (state_dict (medclip_model (self (Reference.fresh true))))
              (fst (checkpoint_or_stop 0.5 (Reference.fresh true))))
    as (w' & Hrun & Hsd & _).
  - vm_compute. reflexivity.
  - vm_compute. repeat constructor.
  - exists w'. split; [exact Hrun |]. rewrite Hsd. reflexivity.
Defined.


(** ** Precision: what the conversions and a training batch keep *)

Section PrecisionKept.
Context {N : Numerics} {L : Libraries} {D : DataSource}.

Lemma tensor_float_full (t : Tensor) : t_dtype t = float32 → tensor_float t = t.
Proof. destruct t as [d c]. simpl. intros ->. reflexivity. Qed.

Lemma convert_parameter_to_fp32_twice (p : Param) :
  convert_parameter_to_fp32 (convert_parameter_to_fp32 p) = convert_parameter_to_fp32 p.
Proof. unfold convert_parameter_to_fp32. destruct (grad p) eqn:Hg; simpl; [reflexivity | rewrite Hg; reflexivity]. Qed.

Lemma convert_parameter_to_fp32_full (p : Param) :
  data_dtype p = float32 → (∀ g, grad p = Some g → t_dtype g = float32) →
  convert_parameter_to_fp32 p = p.
Proof.
  unfold convert_parameter_to_fp32, data_dtype. intros Hdata Hgrad.
  destruct p as [d [g |] h]; simpl in *; [| reflexivity].
  rewrite (tensor_float_full d Hdata), (tensor_float_full g (Hgrad g eq_refl)). reflexivity.
Qed.

(** X6.  [convert_models_to_fp32] is idempotent, keeps the numbers held by
    every parameter and the number of parameters, and changes nothing in a
    model whose parameters and gradients are already in full precision (the
    model of the cpu branch, which does not call it). *)
Theorem convert_models_to_fp32_idempotent (model : Model) :
  convert_models_to_fp32 (convert_models_to_fp32 model) = convert_models_to_fp32 model
  ∧ (λ p, t_content (data p)) <$> parameters (convert_models_to_fp32 model)
    = (λ p, t_content (data p)) <$> parameters model
  ∧ length (parameters (convert_models_to_fp32 model)) = length (parameters model)
  ∧ (Forall (λ p, data_dtype p = float32 ∧ ∀ g, grad p = Some g → t_dtype g = float32)
       (parameters model) →
     convert_models_to_fp32 model = model).
Proof.
  unfold convert_models_to_fp32, with_parameters. simpl.
  split; [| split; [| split]].
  - f_equal. rewrite <- list_fmap_compose. apply list_fmap_ext.
    intros _ p _. apply convert_parameter_to_fp32_twice.
  - rewrite <- list_fmap_compose. apply list_fmap_ext. intros _ p _. simpl.
    unfold convert_parameter_to_fp32. destruct (grad p); reflexivity.
  - apply length_fmap.
  - intros Hfull. destruct model as [ps mode]. simpl in *. f_equal.
    rewrite <- (list_fmap_id ps) at 2. apply Forall_fmap_ext_1.
    eapply Forall_impl; [exact Hfull |]. intros p [Hdata Hgrad].
    apply convert_parameter_to_fp32_full; assumption.
Qed.

Lemma zero_grad_dtypes (model : Model) :
  data_dtype <$> parameters (zero_grad model) = data_dtype <$> parameters model
  ∧ half_layer <$> parameters (zero_grad model) = half_layer <$> parameters model.
Proof.
  unfold zero_grad. simpl. rewrite <- !list_fmap_compose.
  split; apply list_fmap_ext; intros _ p _; reflexivity.
Qed.

Lemma loss_backward_dtypes (model : Model) (covid : tokens) (inputs : pixels) :
  data_dtype <$> parameters (loss_backward model covid inputs) = data_dtype <$> parameters model.
Proof.
  unfold loss_backward. simpl. apply list_eq. intros i.
  rewrite !list_lookup_fmap, list_lookup_imap.
  destruct (parameters model !! i); reflexivity.
Qed.

(** A training batch that returns has changed the model and the optimizer of
    [self], and nothing else of it. *)
Lemma train_batch_self train_loader categories texts (w w' : World) r :
  train_batch train_loader categories texts w = (w', Ok r) →
  self w' = set_medclip_model (medclip_model (self w'))
              (set_optimizer (optimizer (self w')) (self w))
  ∧ disk w' = disk w.
Proof.
  unfold train_batch, next_batch, build_class_prompts, batch_loss. run_monad.
  destruct (sources w !! train_loader) as [src |]; [| discriminate].
  destruct (source_next src) as [src' [[inputs labels] | e]]; simpl; [| discriminate].
  destruct (option_ (self w)) as [o |]; simpl; [| discriminate].
  destruct (String.eqb o "regular_captions"); simpl.
  - destruct (captions categories labels) as [cs |]; simpl; [| discriminate].
    destruct (py_getitem _ "COVID") as [covid |]; simpl; [| discriminate].
    destruct (medclip_forward _ covid inputs) as [out |]; simpl; [| discriminate].
    intros [= <- _]. split; reflexivity.
  - destruct texts as [t |]; simpl; [| discriminate].
    destruct (py_getitem _ "COVID") as [covid |]; simpl; [| discriminate].
    destruct (medclip_forward _ covid inputs) as [out |]; simpl; [| discriminate].
    intros [= <- _]. split; reflexivity.
Qed.

Lemma precision_invariant_same (dev : Device) (model model' : Model) :
  data_dtype <$> parameters model' = data_dtype <$> parameters model →
  half_layer <$> parameters model' = half_layer <$> parameters model →
  precision_invariant dev model → precision_invariant dev model'.
Proof.
  intros Hdtypes Hlayers. unfold precision_invariant.
  assert (Hboth : (λ p, (half_layer p, data_dtype p)) <$> parameters model'
                  = (λ p, (half_layer p, data_dtype p)) <$> parameters model).
  { apply list_eq. intros i. rewrite !list_lookup_fmap.
    apply (f_equal (λ l, l !! i)) in Hdtypes, Hlayers. rewrite !list_lookup_fmap in *.
    destruct (parameters model' !! i), (parameters model !! i); simpl in *; congruence. }
  destruct dev.
  - intros H. apply (Forall_fmap data_dtype (λ d, d = float32)).
    rewrite Hdtypes. apply Forall_fmap. exact H.
  - intros H.
    apply (Forall_fmap (λ p, (half_layer p, data_dtype p))
             (λ hd, fst hd = true → snd hd = float16)).
    rewrite Hboth. apply Forall_fmap. exact H.
Qed.

(** X7.  Each device keeps its model in its own precision.  After
    [__init__] the model is in full precision on the cpu, and its layers
    covered by the clip conversion are in reduced precision otherwise; a
    training batch that returns and a reload of a checkpoint both keep it
    so, and keep the device. *)
Theorem device_precision_is_kept :
  (∀ medical_type epochs cuda_available,
     precision_invariant (device (init medical_type epochs cuda_available))
       (medclip_model (init medical_type epochs cuda_available)))
  ∧ (∀ train_loader categories texts (w w' : World) r,
       train_batch train_loader categories texts w = (w', Ok r) →
       precision_invariant (device (self w)) (medclip_model (self w)) →
       device (self w') = device (self w)
       ∧ precision_invariant (device (self w')) (medclip_model (self w')))
  ∧ (∀ path (w w' : World),
       reload_checkpoint path w = (w', Ok tt) →
       precision_invariant (device (self w)) (medclip_model (self w)) →
       device (self w') = device (self w)
       ∧ precision_invariant (device (self w')) (medclip_model (self w'))).
Proof.
  split; [| split].
  - intros medical_type epochs [|]; simpl.
    + apply convert_weights_covered.
    + unfold model_float. simpl. apply Forall_fmap, Forall_forall. intros p _. reflexivity.
  - intros train_loader categories texts w w' r Hrun Hinv.
    destruct (train_batch_self _ _ _ _ _ _ Hrun) as [Hself _].
    assert (Hdev : device (self w') = device (self w)) by (rewrite Hself; reflexivity).
    split; [exact Hdev |]. rewrite Hdev.
    destruct (train_batch_steps_once _ _ _ _ _ _ Hrun) as (covid & inputs & ->).
    destruct (device (self w)) eqn:Hd.
    + cbn [optimization_step]. unfold precision_invariant in *.
      apply (Forall_fmap data_dtype (λ d, d = float32)).
      rewrite optimizer_step_dtypes, loss_backward_dtypes, (proj1 (zero_grad_dtypes _)).
      apply Forall_fmap. exact Hinv.
    + apply convert_weights_covered.
  - intros path w w' Hrun Hinv. rewrite reload_checkpoint_spec in Hrun.
    destruct (disk w !! path) as [[sd | |] |]; try discriminate.
    injection Hrun as <- _. simpl. split; [reflexivity |].
    destruct (load_state_dict_dtypes (medclip_model (self w)) sd) as [Hd Hh].
    exact (precision_invariant_same _ _ _ Hd Hh Hinv).
Qed.

End PrecisionKept.

(** A training batch on the cpu classifier keeps the model in full
    precision. *)
Lemma device_precision_is_kept_witness :
  precision_invariant cpu
    (medclip_model (self (fst (train_batch 0 Reference.categories None
                                 (Reference.configured false "regular_captions" 1))))).
Proof.
  destruct (@device_precision_is_kept Reference.numerics Reference.libraries
              Reference.data_source) as (Hinit & Hbatch & _).
  destruct (train_batch 0 Reference.categories None
              (Reference.configured false "regular_captions" 1)) as [w' [r | e]] eqn:Hrun.
  - destruct (Hbatch _ _ _ _ _ _ Hrun (Hinit "ucsd" 3 false)) as [Hdev Hinv].
    simpl. rewrite Hdev in Hinv. exact Hinv.
  - apply (f_equal (λ r, is_ok (snd r))) in Hrun. vm_compute in Hrun. discriminate Hrun.
Defined.

(** ** What evaluation and validation leave alone *)

Section Inference.
Context {N : Numerics} {L : Libraries} {D : DataSource}.

(** The two properties at hand: nothing learned or persisted has changed,
    and the model is in evaluation mode. *)
Lemma preserves_learned_eval_mode (c : Classifier * gmap string file) :
  preserves (λ s d, (up_to_mode s, d) = c)
    (modify_self (λ s, set_medclip_model (set_training false (medclip_model s)) s))
  ∧ preserves (λ s _, training (medclip_model s) = false)
      (modify_self (λ s, set_medclip_model (set_training false (medclip_model s)) s)).
Proof. split; intros w HQ; [exact HQ | reflexivity]. Qed.

Lemma preserves_zero_shot Q image_batch task :
  preserves Q (modify_self (λ s, set_medclip_model (set_training false (medclip_model s)) s)) →
  preserves Q (zero_shot_classification image_batch task).
Proof.
  intros Hmode w HQ. rewrite zero_shot_classification_spec. exact (Hmode w HQ).
Qed.

Lemma preserves_evaluate Q generators steps task :
  preserves Q (modify_self (λ s, set_medclip_model (set_training false (medclip_model s)) s)) →
  preserves Q (evaluate generators steps task).
Proof.
  intros Hmode w. rewrite evaluate_world. revert w.
  apply preserves_for_each. intros entry acc. unfold evaluate_sweep.
  apply preserves_bind; [apply preserves_pure; reflexivity | intros range_].
  apply preserves_bind.
  - apply preserves_for_each. intros _ acc'. unfold evaluate_step.
    apply preserves_bind; [apply preserves_pure; reflexivity | intros g].
    apply preserves_bind; [apply preserves_next_batch | intros batch].
    apply preserves_bind; [apply preserves_zero_shot, Hmode | intros out].
    apply preserves_pure. reflexivity.
  - intros acc'.
    apply preserves_bind; [apply preserves_pure; reflexivity | intros g].
    apply preserves_bind; [apply preserves_reset_source | intros _].
    apply preserves_pure. reflexivity.
Qed.

Lemma preserves_validation_batch Q validation_loader categories texts :
  preserves Q (validation_batch validation_loader categories texts).
Proof.
  unfold validation_batch.
  apply preserves_bind; [apply preserves_next_batch | intros batch].
  apply preserves_bind; [apply preserves_pure, build_class_prompts_world | intros p].
  apply preserves_bind; [apply preserves_pure, batch_loss_world | intros fwd].
  apply preserves_pure. reflexivity.
Qed.

Lemma preserves_validation_loop Q validation_loader (steps : gmap string Z) categories texts :
  preserves Q
    (n <- lift (py_getitem steps "Validation") ;;
     range_ <- lift (py_range [n]) ;;
     r <- for_each range_ (λ _, collect_losses (validation_batch validation_loader categories))
            (texts, []) ;;
     ret (fst r, np_mean (snd r))).
Proof.
  apply preserves_bind; [apply preserves_pure; reflexivity | intros n].
  apply preserves_bind; [apply preserves_pure; reflexivity | intros range_].
  apply preserves_bind; [| intros r; apply preserves_pure; reflexivity].
  apply preserves_for_each. intros _ acc. unfold collect_losses.
  apply preserves_bind; [| intros r; apply preserves_pure; reflexivity].
  apply preserves_validation_batch.
Qed.

(** X8.  Evaluation and validation do not train: whether they return or
    raise, [evaluate] and the validation loop of [train_validate] leave the
    parameters (data and gradients), the optimizer, the metric histories, the
    early-stopping state and the disk as they were.  They only advance data
    sources and put the model in evaluation mode, which the validation loop
    always does. *)
Theorem inference_changes_nothing_learned :
  (∀ generators steps task w,
     learned (fst (evaluate generators steps task w)) = learned w)
  ∧ (∀ validation_loader steps categories texts w,
       learned (fst (validation_pass validation_loader steps categories texts w)) = learned w
       ∧ training (medclip_model
                     (self (fst (validation_pass validation_loader steps categories texts w))))
         = false).
Proof.
  split.
  - intros generators steps task w.
    exact (preserves_evaluate (λ s d, (up_to_mode s, d) = learned w) generators steps task
             (proj1 (preserves_learned_eval_mode _)) w eq_refl).
  - intros validation_loader steps categories texts w. split.
    + refine (preserves_bind (λ s d, (up_to_mode s, d) = learned w) _ _
                (proj1 (preserves_learned_eval_mode _)) _ w eq_refl).
      intros _. apply preserves_validation_loop.
    + exact (preserves_validation_loop (λ s _, training (medclip_model s) = false)
               validation_loader steps categories texts
               (with_self (set_medclip_model (set_training false (medclip_model (self w)))
                             (self w)) w) eq_refl).
Qed.

End Inference.

(** ** What [evaluate] accumulates *)

Section Accumulation.
Context {N : Numerics} {L : Libraries} {D : DataSource}.

(** A property of the local variables that every iteration keeps holds when
    the loop returns. *)
Lemma for_each_returns {A S} (R : A → Prop) (P : S → Prop) (xs : list A)
  (body : A → S → M S) :
  (∀ x s w w' s', R x → P s → body x s w = (w', Ok s') → P s') →
  Forall R xs →
  ∀ s w w' s', P s → for_each xs body s w = (w', Ok s') → P s'.
Proof.
  intros Hbody HR. induction HR as [| x xs Hx _ IH]; intros s w w' s' HP; simpl.
  - intros [= _ <-]. exact HP.
  - unfold bind. destruct (body x s w) as [w1 [s1 | e]] eqn:Hone; [| discriminate].
    apply IH. exact (Hbody _ _ _ _ _ Hx HP Hone).
Qed.

Lemma Forall_True {A} (xs : list A) : Forall (λ _, True) xs.
Proof. apply Forall_forall. intros; exact I. Qed.

Lemma evaluate_step_rounds generators idx task (acc acc' : Accumulated) w w' :
  acc.1.2 = np_round <$> acc.2 →
  evaluate_step generators idx task acc w = (w', Ok acc') →
  acc'.1.2 = np_round <$> acc'.2.
Proof.
  intros Hacc. unfold evaluate_step, bind.
  destruct (lift (py_index generators (Z.of_nat idx)) w) as [w1 [g | e]]; [| discriminate].
  destruct (next_batch g w1) as [w2 [batch | e]]; [| discriminate].
  rewrite zero_shot_classification_spec. simpl.
  destruct (prompt_classifier _ _ _) as [top_probs | e]; [| discriminate].
  intros [= _ <-]. simpl. rewrite Hacc, fmap_app. reflexivity.
Qed.

(** X9.  The predictions [evaluate] scores are the rounded scores: when the
    sweeps return, [y_pred] is [np.round] of [y_score], element by element;
    in particular the two lists have the same length. *)
Theorem predictions_are_rounded_scores generators steps task (w w' : World)
  (y_true : list Z) (y_pred y_score : list float) :
  evaluate_accumulate generators steps task w = (w', Ok (y_true, y_pred, y_score)) →
  y_pred = np_round <$> y_score ∧ length y_pred = length y_score.
Proof.
  intros Hrun.
  assert (Hround : y_pred = np_round <$> y_score).
  { unfold evaluate_accumulate in Hrun.
    apply (for_each_returns (λ _, True) (λ acc : Accumulated, acc.1.2 = np_round <$> acc.2)
             _ _) with (s' := (y_true, y_pred, y_score)) in Hrun;
      [exact Hrun | | apply Forall_True | reflexivity].
    intros entry acc w1 w2 acc' _ Hacc. unfold evaluate_sweep, bind.
    destruct (lift (py_range [snd (snd entry)]) w1) as [w3 [range_ | e]]; [| discriminate].
    destruct (for_each range_ _ acc w3) as [w4 [acc1 | e]] eqn:Hsweep; [| discriminate].
    apply (for_each_returns (λ _, True) (λ acc : Accumulated, acc.1.2 = np_round <$> acc.2)
             _ _) with (s' := acc1) in Hsweep;
      [| intros x s wa wb s1 _ Hs; apply evaluate_step_rounds; exact Hs
       | apply Forall_True | exact Hacc].
    destruct (lift (py_index generators _) w4) as [w5 [g | e]]; [| discriminate].
    destruct (reset_source g w5) as [w6 [[] | e]]; [| discriminate].
    intros [= _ <-]. exact Hsweep. }
  split; [exact Hround |]. rewrite Hround. apply length_fmap.
Qed.

Lemma evaluate_sweep_without_steps generators task (entry : nat * (string * Z))
  (acc acc' : Accumulated) w w' :
  snd (snd entry) <= 0 →
  evaluate_sweep generators task entry acc w = (w', Ok acc') → acc' = acc.
Proof.
  intros Hstep. unfold evaluate_sweep. simpl.
  replace (Z.to_nat (snd (snd entry))) with 0%nat by lia.
  unfold bind. simpl.
  destruct (py_index generators _) as [g |]; simpl; [| discriminate].
  destruct (reset_source g w) as [w1 [[] | e]]; [| discriminate].
  intros [= _ <-]. reflexivity.
Qed.

(** X10.  [evaluate] on no step at all (an empty [steps], or step counts
    that are zero or negative) never returns metrics: no batch is read,
    nothing is accumulated, and [roc_auc_score] on the empty label list
    raises unless something before it already has. *)
Theorem evaluate_without_steps_raises generators steps task (w : World) :
  Forall (λ entry : string * Z, snd entry <= 0) steps →
  is_ok (snd (evaluate generators steps task w)) = false
  ∧ ∀ w' y, evaluate_accumulate generators steps task w = (w', Ok y) → y = ([], [], []).
Proof.
  intros Hsteps.
  assert (Hempty : ∀ w' y, evaluate_accumulate generators steps task w = (w', Ok y) →
                           y = ([], [], [])).
  { intros w' y Hrun. unfold evaluate_accumulate in Hrun.
    apply (for_each_returns (λ entry : nat * (string * Z), snd (snd entry) <= 0)
             (λ acc : Accumulated, acc = ([], [], [])) _ _) with (s' := y) in Hrun;
      [exact Hrun | | | reflexivity].
    - intros entry acc w1 w2 acc' Hstep -> Hsweep.
      exact (evaluate_sweep_without_steps _ _ _ _ _ _ _ Hstep Hsweep).
    - apply Forall_lookup. intros i [j entry] Hi.
      rewrite list_lookup_imap in Hi.
      destruct (steps !! i) as [entry' |] eqn:Hentry; [| discriminate].
      injection Hi as <- <-. simpl.
      rewrite Forall_lookup in Hsteps. exact (Hsteps i _ Hentry). }
  split; [| exact Hempty].
  unfold evaluate, bind at 1.
  destruct (evaluate_accumulate generators steps task w) as [w' [y | e]] eqn:Hrun;
    [| reflexivity].
  rewrite (Hempty w' y eq_refl). run_monad.
  destruct (accuracy_score [] []); simpl; [| reflexivity].
  destruct (precision_score [] []); simpl; [| reflexivity].
  destruct (recall_score [] []); reflexivity.
Qed.

End Accumulation.

Lemma predictions_are_rounded_scores_witness :
  ∃ w' y_true y_score,
    evaluate_accumulate [2%nat] [("Test", 1)] Reference.categories (Reference.fresh true)
    = (w', Ok (y_true, np_round <$> y_score, y_score))
    ∧ y_score = [0.75%float; 0.25%float].
Proof.
  destruct (evaluate_accumulate [2%nat] [("Test", 1)] Reference.categories
              (Reference.fresh true)) as [w' [[[y_true y_pred] y_score] | e]] eqn:Hrun.
  - destruct (predictions_are_rounded_scores _ _ _ _ _ _ _ _ Hrun) as [-> _].
    exists w', y_true, y_score. split; [reflexivity |].
    apply (f_equal (λ r, match snd r with Ok y => snd y | Raise _ => [] end)) in Hrun.
    vm_compute in Hrun. symmetry. exact Hrun.
  - apply (f_equal (λ r, is_ok (snd r))) in Hrun. vm_compute in Hrun. discriminate Hrun.
Defined.

Lemma evaluate_without_steps_raises_witness :
  snd (evaluate [2%nat] [("Test", 0)] Reference.categories (Reference.fresh true))
  = Raise ValueError
  ∧ calls (fst (evaluate [2%nat] [("Test", 0)] Reference.categories (Reference.fresh true)))
    = [(2%nat, Reset)].
Proof.
  destruct (evaluate_without_steps_raises [2%nat] [("Test", 0)] Reference.categories
              (Reference.fresh true)) as [Hraises _].
  - repeat constructor. simpl. lia.
  - destruct (evaluate [2%nat] [("Test", 0)] Reference.categories (Reference.fresh true))
      as [w' [m | e]] eqn:Hrun; [discriminate Hraises |].
    pose proof (f_equal snd Hrun) as He. pose proof (f_equal (λ r, calls (fst r)) Hrun) as Hc.
    vm_compute in He. vm_compute in Hc. simpl. split; [symmetry; exact He | symmetry; exact Hc].
Defined.

(** ** Labels as indices into [categories] *)

Section LabelBounds.
Context {N : Numerics} {L : Libraries} {D : DataSource}.

Lemma py_index_in_range (categories : list string) (label : Z) :
  in_range categories label = true → ∃ category, py_index categories label = Ok category.
Proof.
  unfold in_range, py_index. intros H. apply andb_true_iff in H as [Hlow Hhigh].
  apply Z.leb_le in Hlow. apply Z.ltb_lt in Hhigh. cbv zeta.
  destruct (Z.ltb_spec label 0) as [Hneg | Hpos].
  - destruct (_ || _) eqn:Hout.
    { apply orb_true_iff in Hout as [Hout | Hout];
        [apply Z.ltb_lt in Hout | apply Z.leb_le in Hout]; lia. }
    destruct (lookup_lt_is_Some_2 categories (Z.to_nat (label + Z.of_nat (length categories))))
      as [c Hc]; [lia |].
    rewrite Hc. eauto.
  - destruct (_ || _) eqn:Hout.
    { apply orb_true_iff in Hout as [Hout | Hout];
        [apply Z.ltb_lt in Hout | apply Z.leb_le in Hout]; lia. }
    destruct (lookup_lt_is_Some_2 categories (Z.to_nat label)) as [c Hc]; [lia |].
    rewrite Hc. eauto.
Qed.

Lemma py_index_out_of_range (categories : list string) (label : Z) :
  in_range categories label = false → py_index categories label = Raise IndexError.
Proof.
  unfold in_range, py_index. intros H. cbv zeta.
  destruct (_ || _) eqn:Hout; [reflexivity |].
  apply orb_false_iff in Hout as [Hlow Hhigh].
  apply Z.ltb_ge in Hlow. apply Z.leb_gt in Hhigh.
  apply andb_false_iff in H as [H | H]; [apply Z.leb_gt in H | apply Z.ltb_ge in H];
    destruct (Z.ltb_spec label 0); lia.
Qed.

Lemma py_index_from_the_end (categories : list string) (label : Z) :
  in_range categories label = true → label < 0 →
  py_index categories label = py_index categories (label + Z.of_nat (length categories)).
Proof.
  unfold in_range, py_index. intros H Hneg. apply andb_true_iff in H as [Hlow _].
  apply Z.leb_le in Hlow. cbv zeta.
  assert (Hlabel : (label <? 0) = true) by (apply Z.ltb_lt; lia).
  assert (Hwrapped : (label + Z.of_nat (length categories) <? 0) = false)
    by (apply Z.ltb_ge; lia).
  rewrite Hlabel. cbv iota. rewrite !Hwrapped. reflexivity.
Qed.

Lemma captions_in_range (categories : list string) (labels : list Z) :
  forallb (in_range categories) labels = true →
  ∃ cs, captions categories labels = Ok cs ∧ length cs = length labels.
Proof.
  induction labels as [| label labels IH]; simpl; intros H.
  - exists []. split; reflexivity.
  - apply andb_true_iff in H as [Hlabel Hrest].
    destruct (py_index_in_range _ _ Hlabel) as [category Hc].
    destruct (IH Hrest) as (cs & Hcs & Hlen).
    unfold caption. rewrite Hc, Hcs. simpl. eexists. split; [reflexivity |].
    simpl. rewrite Hlen. reflexivity.
Qed.

Lemma captions_out_of_range (categories : list string) (labels : list Z) :
  forallb (in_range categories) labels = false →
  captions categories labels = Raise IndexError.
Proof.
  induction labels as [| label labels IH]; simpl; intros H; [discriminate |].
  unfold caption. destruct (in_range categories label) eqn:Hlabel.
  - destruct (py_index_in_range _ _ Hlabel) as [category Hc]. rewrite Hc. simpl.
    rewrite (IH H). reflexivity.
  - rewrite (py_index_out_of_range _ _ Hlabel). reflexivity.
Qed.

(** X11.  Under the fixed policy the labels of a batch are used as Python
    indices into [categories] (lines 157 and 186).  The prompts are built,
    one caption per label, exactly when every label lies in
    [-len(categories), len(categories)); otherwise the batch raises
    [IndexError].  A negative label in that range does not fail: it selects
    the category counted from the end.  Nothing of the classifier is touched
    either way, and the [texts] of the previous batch plays no part. *)
Theorem labels_must_index_categories (categories : list string) (labels : list Z)
  (texts : Texts) (w : World) :
  option_ (self w) = Some "regular_captions" →
  (if forallb (in_range categories) labels
   then ∃ cs, build_class_prompts categories labels texts w
              = (w, Ok (Some {[ "COVID" := cs ]}, {[ "COVID" := tokenize cs ]}))
              ∧ length cs = length labels
   else build_class_prompts categories labels texts w = (w, Raise IndexError))
  ∧ ∀ label, in_range categories label = true → label < 0 →
             caption categories label
             = caption categories (label + Z.of_nat (length categories)).
Proof.
  intros Hoption. split.
  - destruct (forallb (in_range categories) labels) eqn:Hrange.
    + destruct (captions_in_range _ _ Hrange) as (cs & Hcs & Hlen).
      exists cs. split; [| exact Hlen].
      unfold build_class_prompts. run_monad. rewrite Hoption. simpl. rewrite Hcs. simpl.
      rewrite process_class_prompts_singleton. reflexivity.
    + unfold build_class_prompts. run_monad. rewrite Hoption. simpl.
      rewrite (captions_out_of_range _ _ Hrange). reflexivity.
  - intros label Hrange Hneg. unfold caption.
    rewrite (py_index_from_the_end _ _ Hrange Hneg). reflexivity.
Qed.

End LabelBounds.

Lemma labels_must_index_categories_witness :
  build_class_prompts Reference.categories [1; -1; -2] None
    (Reference.configured true "regular_captions" 1)
  = (Reference.configured true "regular_captions" 1,
     Ok (Some {[ "COVID" := ["a photo of covid lungs."; "a photo of covid lungs.";
                             "a photo of normal lungs."] ]},
         {[ "COVID" := tokenize ["a photo of covid lungs."; "a photo of covid lungs.";
                                 "a photo of normal lungs."] ]}))
  ∧ build_class_prompts Reference.categories [1; 2] None
      (Reference.configured true "regular_captions" 1)
    = (Reference.configured true "regular_captions" 1, Raise IndexError).
Proof.
  split.
  - destruct (proj1 (labels_must_index_categories Reference.categories [1; -1; -2] None
                       (Reference.configured true "regular_captions" 1) eq_refl))
      as (cs & Hrun & _).
    rewrite Hrun.
    assert (Hsame : match snd (build_class_prompts Reference.categories [1; -1; -2] None
                                 (Reference.configured true "regular_captions" 1)) with
                    | Ok (Some t, _) => t !! "COVID"
                    | _ => None
                    end
                    = Some ["a photo of covid lungs."; "a photo of covid lungs.";
                            "a photo of normal lungs."]) by (vm_compute; reflexivity).
    rewrite Hrun in Hsame. cbn [snd] in Hsame.
    rewrite lookup_singleton_eq in Hsame. injection Hsame as ->. reflexivity.
  - exact (proj1 (labels_must_index_categories Reference.categories [1; 2] None
                    (Reference.configured true "regular_captions" 1) eq_refl)).
Defined.

(** ** A classifier whose histories are not empty *)

Section UsedClassifier.
Context {N : Numerics} {L : Libraries} {D : DataSource}.

(** Lines 201-221 at an epoch that is not the length of the histories: the
    first figure does not fit. *)
Lemma epoch_bookkeeping_misfit (k : nat) (epoch : Z) (m : EpochMetrics) (w : World) :
  history_lengths k (self w) → epoch ≠ Z.of_nat k →
  ∃ H', epoch_bookkeeping epoch m w
        = (with_self (set_metric_history H' (self w)) w, Raise ValueError)
        ∧ appended_once m (self w) (set_metric_history H' (self w)).
Proof.
  intros Hlen Hepoch.
  destruct (append_metrics_appends m w (history_lengths_keys _ _ Hlen)) as (H1 & Happ & Honce).
  pose proof (appended_once_lengths _ _ _ _ Honce Hlen) as Hlen1.
  exists H1. split; [| exact Honce].
  unfold epoch_bookkeeping, plot_metrics, bind at 1. rewrite Happ.
  unfold bind at 1. cbn [for_each]. unfold bind at 1. rewrite plot_metric_spec.
  unfold history_lengths, tracked_keys in Hlen1. rewrite Forall_cons in Hlen1.
  destruct Hlen1 as [(h & Hh & Hlength) _].
  unfold curve at 1. change ("train_" +:+ "loss") with "train_loss".
  cbn [self with_self] in *. rewrite Hh.
  destruct (Z.eqb_spec (Z.of_nat (length h)) (epoch + 1)) as [Hfit |]; [lia | reflexivity].
Qed.

(** X12.  The bookkeeping of an epoch expects histories that hold exactly
    one value per epoch of the current loop.  On a classifier whose histories
    already hold [k] values, the bookkeeping of an epoch other than [k]
    appends its ten values and then raises [ValueError] at the first figure:
    no figure and no checkpoint is written and the early-stopping state is
    not updated, but the appended values stay. *)
Theorem bookkeeping_needs_fresh_histories (k : nat) (m : EpochMetrics) (w : World) :
  history_lengths k (self w) →
  ∀ epoch, epoch ≠ Z.of_nat k →
    ∃ w', epoch_bookkeeping epoch m w = (w', Raise ValueError)
          ∧ appended_once m (self w) (self w')
          ∧ history_lengths (S k) (self w')
          ∧ disk w' = disk w
          ∧ best_val_loss (self w') = best_val_loss (self w)
          ∧ early_stopping_counter (self w') = early_stopping_counter (self w)
          ∧ early_stop (self w') = early_stop (self w).
Proof.
  intros Hlen epoch Hepoch.
  destruct (epoch_bookkeeping_misfit k epoch m w Hlen Hepoch) as (H' & Hrun & Honce).
  eexists. split; [exact Hrun |]. split; [exact Honce |].
  split; [exact (appended_once_lengths _ _ _ _ Honce Hlen) |].
  repeat split; reflexivity.
Qed.

End UsedClassifier.

(** The bookkeeping of epoch 0 on a classifier that has already completed
    the bookkeeping of an epoch. *)
Lemma bookkeeping_needs_fresh_histories_witness :
  ∃ w', epoch_bookkeeping 0 (Reference.measuring 0.25)
          (fst (epoch_bookkeeping 0 (Reference.measuring 0.5) (Reference.fresh true)))
        = (w', Raise ValueError)
        ∧ history_lengths 2 (self w').
Proof.
  assert (Hlen : history_lengths 1
                   (self (fst (epoch_bookkeeping 0 (Reference.measuring 0.5)
                                 (Reference.fresh true))))).
  { unfold history_lengths, tracked_keys.
    repeat (constructor; [eexists; split; [vm_compute; reflexivity | reflexivity] |]).
    constructor. }
  destruct (bookkeeping_needs_fresh_histories 1 (Reference.measuring 0.25) _ Hlen 0
              ltac:(lia)) as (w' & Hrun & _ & Hlen' & _).
  exists w'. split; [exact Hrun | exact Hlen'].
Defined.

(** ** The early-stopping state *)

Section StoppingState.
Context {N : Numerics} {L : Libraries} {D : DataSource}.

Lemma stopping_step_invariant (loss : float) (s s' : Classifier) (f : flow) :
  stopping_step loss s s' f →
  early_stopping_patience s' = early_stopping_patience s →
  stopping_invariant s → early_stop s = false → stopping_invariant s'.
Proof.
  unfold stopping_step, stopping_invariant. intros Hstep Hpatience [Hlow Hhigh] Hflag.
  rewrite Hflag in Hhigh. rewrite Hpatience.
  destruct (PrimFloat.ltb loss (best_val_loss s)).
  - destruct Hstep as (_ & -> & -> & _). rewrite Hflag. lia.
  - destruct Hstep as (_ & -> & Hstep).
    destruct (Z.eqb_spec (early_stopping_counter s + 1) (early_stopping_patience s))
      as [Hreached | Hbelow].
    + destruct Hstep as [-> _]. lia.
    + destruct Hstep as [-> _]. rewrite Hflag. lia.
Qed.

(** X13.  The early-stopping state stays consistent.  A new classifier has
    the counter at 0, below the patience, and the flag unset; and lines
    226-235 keep it so: from a state with the flag unset and the counter
    between 0 and the patience, whatever the validation loss, they leave the
    patience alone and the counter between 0 and the patience, with the flag
    set exactly when the counter has reached the patience, which is exactly
    when the loop breaks. *)
Theorem stopping_state_stays_consistent :
  (∀ medical_type epochs cuda_available,
     stopping_invariant (init medical_type epochs cuda_available)
     ∧ early_stop (init medical_type epochs cuda_available) = false)
  ∧ (∀ loss w,
       stopping_invariant (self w) → early_stop (self w) = false →
       ∃ w' f,
         checkpoint_or_stop loss w = (w', Ok f)
         ∧ stopping_invariant (self w')
         ∧ early_stopping_patience (self w') = early_stopping_patience (self w)
         ∧ 0 <= early_stopping_counter (self w') <= early_stopping_patience (self w)
         ∧ (early_stop (self w') = true
            ↔ early_stopping_counter (self w') = early_stopping_patience (self w))
         ∧ (f = Break ↔ early_stop (self w') = true)).
Proof.
  split.
  - intros medical_type epochs cuda_available. unfold stopping_invariant. simpl.
    split; [lia | reflexivity].
  - intros loss w Hinv Hflag.
    destruct (checkpoint_or_stop_step loss w)
      as (w' & f & Hrun & _ & Hpatience & _ & _ & _ & _ & Hstep).
    pose proof (stopping_step_invariant _ _ _ _ Hstep Hpatience Hinv Hflag) as Hinv'.
    exists w', f. split; [exact Hrun |]. split; [exact Hinv' |]. split; [exact Hpatience |].
    assert (Hbreak : f = Break ↔ early_stop (self w') = true).
    { destruct (stopping_step_flag _ _ _ _ Hstep Hflag) as [[-> ->] | [-> ->]];
        split; (reflexivity || discriminate). }
    unfold stopping_invariant in Hinv'. rewrite Hpatience in Hinv'.
    destruct Hinv' as [Hlow Hhigh].
    destruct (early_stop (self w')).
    + split; [lia |]. split; [split; [intros _; exact Hhigh | reflexivity] | exact Hbreak].
    + split; [lia |]. split; [split; [discriminate | lia] | exact Hbreak].
Qed.

(** A float is not below itself, and a NaN is below nothing. *)
Lemma SFltb_irrefl (f : SpecFloat.spec_float) : SpecFloat.SFltb f f = false.
Proof.
  destruct f as [s | s | | s m e]; unfold SpecFloat.SFltb, SpecFloat.SFcompare;
    cbv beta iota; try reflexivity; try (destruct s; reflexivity).
  rewrite Z.compare_refl, Pos.compare_cont_refl. destruct s; reflexivity.
Qed.

Lemma ltb_irrefl (x : float) : PrimFloat.ltb x x = false.
Proof. rewrite FloatAxioms.ltb_spec. apply SFltb_irrefl. Qed.

Lemma ltb_nan_l (x y : float) : PrimFloat.is_nan x = true → PrimFloat.ltb x y = false.
Proof.
  unfold PrimFloat.is_nan. rewrite FloatAxioms.eqb_spec, FloatAxioms.ltb_spec.
  unfold SpecFloat.SFeqb, SpecFloat.SFltb.
  destruct (Prim2SF x) as [s | s | | s m e]; unfold SpecFloat.SFcompare at 1; cbv beta iota.
  - discriminate.
  - destruct s; discriminate.
  - reflexivity.
  - rewrite Z.compare_refl, Pos.compare_cont_refl. destruct s; discriminate.
Qed.

(** X14.  Only a validation loss strictly below the best one counts
    (line 226).  An epoch whose validation loss is NaN, or equal to the best
    so far, writes no checkpoint, keeps the best loss and counts as an epoch
    without improvement; and the best loss never becomes NaN. *)
Theorem no_checkpoint_without_strict_improvement (loss : float) (w : World) :
  (PrimFloat.is_nan loss = true ∨ loss = best_val_loss (self w) →
   disk (fst (checkpoint_or_stop loss w)) = disk w
   ∧ best_val_loss (self (fst (checkpoint_or_stop loss w))) = best_val_loss (self w)
   ∧ early_stopping_counter (self (fst (checkpoint_or_stop loss w)))
     = early_stopping_counter (self w) + 1)
  ∧ (PrimFloat.is_nan (best_val_loss (self w)) = false →
     PrimFloat.is_nan (best_val_loss (self (fst (checkpoint_or_stop loss w)))) = false).
Proof.
  rewrite checkpoint_or_stop_spec. cbv zeta. split.
  - intros Hloss.
    assert (Hlt : PrimFloat.ltb loss (best_val_loss (self w)) = false).
    { destruct Hloss as [Hnan | ->]; [apply ltb_nan_l, Hnan | apply ltb_irrefl]. }
    rewrite Hlt.
    destruct (early_stopping_counter (self w) + 1 =? early_stopping_patience (self w));
      repeat split; reflexivity.
  - intros Hbest.
    destruct (PrimFloat.ltb loss (best_val_loss (self w))) eqn:Hlt.
    + simpl. destruct (PrimFloat.is_nan loss) eqn:Hnan; [| reflexivity].
      rewrite (ltb_nan_l _ _ Hnan) in Hlt. discriminate.
    + destruct (early_stopping_counter (self w) + 1 =? early_stopping_patience (self w));
        exact Hbest.
Qed.

End StoppingState.

Lemma stopping_state_stays_consistent_witness :
  ∃ w' f, checkpoint_or_stop 0.5 (Reference.fresh true) = (w', Ok f)
          ∧ 0 <= early_stopping_counter (self w') <= 5
          ∧ (f = Break ↔ early_stop (self w') = true).
Proof.
  destruct (@stopping_state_stays_consistent Reference.numerics Reference.libraries
              Reference.data_source) as [Hinit Hstep].
  destruct (Hinit "ucsd" 3 true) as [Hinv Hflag].
  destruct (Hstep 0.5%float (Reference.fresh true) Hinv Hflag)
    as (w' & f & Hrun & _ & _ & Hbounds & _ & Hbreak).
  exists w', f. split; [exact Hrun | split; [exact Hbounds | exact Hbreak]].
Defined.

Lemma no_checkpoint_without_strict_improvement_witness :
  disk (fst (checkpoint_or_stop nan (Reference.fresh true))) = ∅
  ∧ disk (fst (checkpoint_or_stop infinity (Reference.fresh true))) = ∅
  ∧ early_stopping_counter (self (fst (checkpoint_or_stop nan (Reference.fresh true)))) = 1.
Proof.
  destruct (no_checkpoint_without_strict_improvement nan (Reference.fresh true))
    as [Hnan _].
  destruct (no_checkpoint_without_strict_improvement infinity (Reference.fresh true))
    as [Htie _].
  destruct (Hnan (or_introl eq_refl)) as (Hdisk & _ & Hcounter).
  destruct (Htie (or_intror eq_refl)) as (Hdisk' & _).
  split; [exact Hdisk | split; [exact Hdisk' | exact Hcounter]].
Defined.

(** ** A training batch that fails *)

Section FailedBatch.
Context {N : Numerics} {L : Libraries} {D : DataSource}.

Lemma zero_grad_data (model : Model) :
  data <$> parameters (zero_grad model) = data <$> parameters model.
Proof.
  unfold zero_grad. simpl. rewrite <- list_fmap_compose.
  apply list_fmap_ext. intros _ p _. reflexivity.
Qed.

(** X15.  A training batch that raises (no batch left, a label out of
    range, [texts] unbound, a failing forward pass) has updated nothing: the
    parameter values, the optimizer state and the disk are as before the
    batch.  The classifier is either untouched, or has only had its gradients
    cleared by [zero_grad] when the failure comes after line 159. *)
Theorem failed_batch_updates_nothing train_loader categories texts (w : World) (e : exn) :
  snd (train_batch train_loader categories texts w) = Raise e →
  (self (fst (train_batch train_loader categories texts w)) = self w
   ∨ self (fst (train_batch train_loader categories texts w))
     = set_medclip_model (zero_grad (medclip_model (self w))) (self w))
  ∧ data <$> parameters (medclip_model
                           (self (fst (train_batch train_loader categories texts w))))
    = data <$> parameters (medclip_model (self w))
  ∧ optimizer (self (fst (train_batch train_loader categories texts w))) = optimizer (self w)
  ∧ disk (fst (train_batch train_loader categories texts w)) = disk w.
Proof.
  unfold train_batch, next_batch, build_class_prompts, batch_loss. run_monad.
  destruct (sources w !! train_loader) as [src |];
    [| intros _; split; [left; reflexivity | repeat split; reflexivity]].
  destruct (source_next src) as [src' [[inputs labels] | e']]; simpl;
    [| intros _; split; [left; reflexivity | repeat split; reflexivity]].
  destruct (option_ (self w)) as [o |]; simpl;
    [| intros _; split; [left; reflexivity | repeat split; reflexivity]].
  destruct (String.eqb o "regular_captions"); simpl.
  - destruct (captions categories labels) as [cs |]; simpl;
      [| intros _; split; [left; reflexivity | repeat split; reflexivity]].
    destruct (py_getitem _ "COVID") as [covid |]; simpl;
      [| intros _; split; [right; reflexivity |];
         split; [apply zero_grad_data | split; reflexivity]].
    destruct (medclip_forward _ covid inputs) as [out |]; simpl; [discriminate |].
    intros _. split; [right; reflexivity |].
    split; [apply zero_grad_data | split; reflexivity].
  - destruct texts as [t |]; simpl;
      [| intros _; split; [left; reflexivity | repeat split; reflexivity]].
    destruct (py_getitem _ "COVID") as [covid |]; simpl;
      [| intros _; split; [right; reflexivity |];
         split; [apply zero_grad_data | split; reflexivity]].
    destruct (medclip_forward _ covid inputs) as [out |]; simpl; [discriminate |].
    intros _. split; [right; reflexivity |].
    split; [apply zero_grad_data | split; reflexivity].
Qed.

End FailedBatch.

Lemma failed_batch_updates_nothing_witness :
  snd (train_batch 0 Reference.categories None (Reference.configured true "random_captions" 3))
  = Raise UnboundLocalError
  ∧ data <$> parameters (medclip_model (self (fst (train_batch 0 Reference.categories None
                           (Reference.configured true "random_captions" 3)))))
    = data <$> parameters (medclip_model (self (Reference.fresh true)))
  ∧ calls (fst (train_batch 0 Reference.categories None
                  (Reference.configured true "random_captions" 3))) = [(0%nat, Next)].
Proof.
  assert (Hraises : snd (train_batch 0 Reference.categories None
                           (Reference.configured true "random_captions" 3))
                    = Raise UnboundLocalError) by (vm_compute; reflexivity).
  split; [exact Hraises |].
  split; [| vm_compute; reflexivity].
  exact (proj1 (proj2 (failed_batch_updates_nothing 0 Reference.categories None
                         (Reference.configured true "random_captions" 3) _ Hraises))).
Defined.

(** ** [run] without an epoch to train *)

Section EvaluationOnly.
Context {N : Numerics} {L : Libraries} {D : DataSource}.

(** [evaluate] that returns has made the calls of its sweeps. *)
Lemma evaluate_returns_calls generators steps task (w w' : World) (m : Metrics) :
  evaluate generators steps task w = (w', Ok m) →
  calls w' = calls w ++ mjoin (zip_with (λ g entry, sweep_calls g (Z.to_nat (snd entry)))
                                        generators steps).
Proof.
  intros Hrun. pose proof (evaluate_world generators steps task w) as Hworld.
  rewrite Hrun in Hworld. simpl in Hworld.
  unfold evaluate in Hrun. apply bind_returns in Hrun as (w1 & y & Hacc & _).
  rewrite Hacc in Hworld. simpl in Hworld. subst w1.
  unfold evaluate_accumulate in Hacc.
  rewrite (imap_ext _ (λ i, pair (0 + i)%nat)) in Hacc by reflexivity.
  apply evaluate_accumulate_calls in Hacc. exact Hacc.
Qed.

(** X16.  With no epoch to train ([epochs <= 0]), [run] is an evaluation of
    whatever checkpoint lies at [model_save_path].  If it returns, then a
    checkpoint was there and has been loaded into the model, [evaluate] has
    been run on the test source alone with that model and has returned
    metrics [m], and the world at return is the world [evaluate] left with
    one file added: the results file, under the directory named 'clip',
    holding [m].  So the test source has been swept ([steps["Test"]] calls
    of [next], then [reset]), the training and validation sources have not
    been called, and nothing else has been written. *)
Theorem run_without_epochs_only_evaluates generators steps option n categories (w w' : World) :
  epochs (self w) <= 0 →
  run generators steps option n categories w = (w', Ok tt) →
  ∃ g2 n_test sd model w_eval m,
    generators !! 2%nat = Some g2
    ∧ steps !! "Test" = Some n_test
    ∧ disk w !! model_save_path (self w) = Some (CheckpointFile sd)
    ∧ load_state_dict (medclip_model (self w)) sd = (model, Ok tt)
    ∧ evaluate [g2] [("Test", n_test)] categories
        (with_self (set_medclip_model model (set_option_settings option n (self w))) w)
      = (w_eval, Ok m)
    ∧ w' = with_disk
             (<[("results/finetune/" +:+ medical_type (self w) +:+ "/clip")
                +:+ "/" +:+ "classification_results.txt"
                := ResultsFile m.1.1.1.1.1 m.1.1.1.1.2 m.1.1.1.2 m.1.1.2 m.1.2 m.2]>
                (disk w_eval)) w_eval
    ∧ parameters (medclip_model (self w')) = parameters model
    ∧ calls w' = calls w ++ sweep_calls g2 (Z.to_nat n_test)
    ∧ disk w'
      = <[("results/finetune/" +:+ medical_type (self w) +:+ "/clip")
          +:+ "/" +:+ "classification_results.txt"
          := ResultsFile m.1.1.1.1.1 m.1.1.1.1.2 m.1.1.1.2 m.1.1.2 m.1.2 m.2]> (disk w).
Proof.
  intros Hepochs Hrun. unfold run in Hrun.
  apply bind_returns in Hrun as (w1 & [] & Hset & Hrun).
  unfold modify_self in Hset. injection Hset as <-.
  apply bind_returns in Hrun as (w2 & [] & Hassert & Hrun).
  unfold py_assert in Hassert.
  destruct (option_settings_valid option n); [| discriminate]. injection Hassert as <-.
  apply bind_returns in Hrun as (w3 & g0 & Hg0 & Hrun).
  apply lift_returns in Hg0 as [-> _].
  apply bind_returns in Hrun as (w4 & g1 & Hg1 & Hrun).
  apply lift_returns in Hg1 as [-> _].
  apply bind_returns in Hrun as (w5 & [] & Htrain & Hrun).
  rewrite train_validate_spec in Htrain. cbn [self with_self epochs set_option_settings] in Htrain.
  destruct (Z.ltb_spec 0 (epochs (self w))) as [| _]; [lia |].
  rewrite reload_checkpoint_spec in Htrain.
  change (model_save_path _) with (model_save_path (self w)) in Htrain.
  cbn [disk with_self self medclip_model set_option_settings] in Htrain.
  destruct (disk w !! model_save_path (self w)) as [[sd | |] |] eqn:Hfile; try discriminate.
  destruct (load_state_dict (medclip_model (self w)) sd) as [model outcome] eqn:Hload.
  cbn [fst snd] in Htrain. injection Htrain as <- ->.
  apply bind_returns in Hrun as (w6 & g2 & Hg2 & Hrun).
  apply lift_returns in Hg2 as [-> Hg2].
  apply (py_index_nat generators 2) in Hg2.
  apply bind_returns in Hrun as (w7 & n_test & Hn & Hrun).
  apply lift_returns in Hn as [-> Hn].
  unfold py_getitem in Hn. destruct (steps !! "Test") as [n_test' |]; [| discriminate].
  injection Hn as ->.
  apply bind_returns in Hrun as (w8 & m & Heval & Hsave).
  pose proof (evaluate_returns_calls _ _ _ _ _ _ Heval) as Hcalls.
  match type of Heval with
  | evaluate _ _ _ ?w0 = _ =>
      pose proof (preserves_evaluate
                    (λ s d, parameters (medclip_model s) = parameters model
                            ∧ medical_type s = medical_type (self w) ∧ d = disk w)
                    [g2] [("Test", n_test)] categories (λ _ Hw0, Hw0) w0
                    (conj eq_refl (conj eq_refl eq_refl))) as Hkept
  end.
  rewrite Heval in Hkept. cbn [fst] in Hkept.
  destruct Hkept as (Hparameters & Htype & Hdisk).
  unfold save_results, get_self, write_file, bind in Hsave. injection Hsave as <-.
  exists g2, n_test, sd, model, w8, m.
  split; [exact Hg2 |]. split; [reflexivity |]. split; [reflexivity |].
  split; [exact Hload |]. split; [exact Heval |].
  split; [rewrite Htype; reflexivity |]. split; [exact Hparameters |].
  split.
  - cbn [calls with_disk]. rewrite Hcalls.
    cbn [zip_with mjoin list_join calls with_self snd]. rewrite app_nil_r. reflexivity.
  - cbn [disk with_disk]. rewrite Htype, Hdisk. reflexivity.
Qed.

End EvaluationOnly.

Lemma run_without_epochs_only_evaluates_witness :
  ∃ w' w_eval m,
    run [0; 1; 2]%nat Reference.steps "regular_captions" 1 Reference.categories
      Reference.evaluation_only = (w', Ok tt)
    ∧ evaluate [2%nat] [("Test", 1)] Reference.categories
        (with_self
           (set_medclip_model
              (fst (load_state_dict (medclip_model (self Reference.evaluation_only))
                      Reference.stale_checkpoint))
              (set_option_settings "regular_captions" 1 (self Reference.evaluation_only)))
           Reference.evaluation_only) = (w_eval, Ok m)
    ∧ calls w' = [(2%nat, Next); (2%nat, Reset)]
    ∧ disk w' !! "results/finetune/ucsd/clip/classification_results.txt"
      = Some (ResultsFile m.1.1.1.1.1 m.1.1.1.1.2 m.1.1.1.2 m.1.1.2 m.1.2 m.2).
Proof.
  destruct (run [0; 1; 2]%nat Reference.steps "regular_captions" 1 Reference.categories
              Reference.evaluation_only) as [w' [[] | e]] eqn:Hrun.
  - destruct (run_without_epochs_only_evaluates
                [0; 1; 2]%nat Reference.steps "regular_captions" 1 Reference.categories
                Reference.evaluation_only w' (Z.le_refl 0) Hrun)
      as (g2 & n_test & sd & model & w_eval & m & Hg2 & Hn & Hfile & Hload & Heval & _ & _
          & Hcalls & Hdisk).
    exists w', w_eval, m. split; [reflexivity |].
    vm_compute in Hg2. injection Hg2 as <-.
    vm_compute in Hn. injection Hn as <-.
    assert (Hsd : sd = Reference.stale_checkpoint).
    { assert (Hthere : disk Reference.evaluation_only
                       !! model_save_path (self Reference.evaluation_only)
                       = Some (CheckpointFile Reference.stale_checkpoint))
        by (vm_compute; reflexivity).
      rewrite Hthere in Hfile. injection Hfile as <-. reflexivity. }
    subst sd. rewrite Hload. cbn [fst].
    split; [exact Heval |].
    split; [rewrite Hcalls; reflexivity |].
    rewrite Hdisk. apply lookup_insert_eq.
  - apply (f_equal (λ r, is_ok (snd r))) in Hrun. vm_compute in Hrun. discriminate Hrun.
Defined.

(** ** Saving, then loading *)

Section RoundTrip.
Context {N : Numerics} {L : Libraries} {D : DataSource}.

Lemma tensor_copy_itself (t : Tensor) : tensor_copy_ t t = t.
Proof.
  unfold tensor_copy_, tensor_float, tensor_half.
  destruct t as [[] content]; reflexivity.
Qed.

Lemma parameters_load_own_data (ps : list Param) :
  zip_with parameter_load ps (data <$> ps) = ps.
Proof.
  induction ps as [| p ps IH]; simpl; [reflexivity |].
  f_equal; [| exact IH]. unfold parameter_load. rewrite tensor_copy_itself.
  destruct p; reflexivity.
Qed.

Lemma load_own_state_dict (model : Model) :
  load_state_dict model (state_dict model) = (model, Ok tt).
Proof.
  unfold load_state_dict, state_dict.
  rewrite length_fmap, Nat.eqb_refl, drop_all, app_nil_r.
  rewrite parameters_load_own_data. destruct model; reflexivity.
Qed.

(** X17.  Loading the state dict of a model into that model changes
    nothing, and the checkpoint of line 228 round-trips: reloading
    'best_model.pth' right after an improving epoch returns and leaves the
    whole classifier, and the disk, as the epoch left them. *)
Theorem checkpoint_round_trip :
  (∀ model, load_state_dict model (state_dict model) = (model, Ok tt))
  ∧ (∀ loss w,
       PrimFloat.ltb loss (best_val_loss (self w)) = true →
       reload_checkpoint "best_model.pth" (fst (checkpoint_or_stop loss w))
       = (fst (checkpoint_or_stop loss w), Ok tt)
       ∧ medclip_model (self (fst (checkpoint_or_stop loss w))) = medclip_model (self w)).
Proof.
  split; [exact load_own_state_dict |].
  intros loss w Himproved. rewrite checkpoint_or_stop_spec. cbv zeta. rewrite Himproved.
  cbn [fst]. split; [| reflexivity].
  rewrite reload_checkpoint_spec. cbn [disk with_disk]. rewrite lookup_insert_eq.
  cbn [self with_disk with_self medclip_model set_early_stopping_counter set_best_val_loss].
  rewrite load_own_state_dict.
  destruct w as [[] ? ? ?]. reflexivity.
Qed.

End RoundTrip.

Lemma checkpoint_round_trip_witness :
  reload_checkpoint "best_model.pth" (fst (checkpoint_or_stop 0.5 (Reference.fresh true)))
  = (fst (checkpoint_or_stop 0.5 (Reference.fresh true)), Ok tt)
  ∧ load_state_dict (medclip_model (self (Reference.fresh true)))
      (state_dict (medclip_model (self (Reference.fresh true))))
    = (medclip_model (self (Reference.fresh true)), Ok tt).
Proof.
  destruct (@checkpoint_round_trip Reference.numerics Reference.data_source)
    as [Hload Hreload].
  split; [| apply Hload].
  exact (proj1 (Hreload 0.5%float (Reference.fresh true) eq_refl)).
Defined.
